(** * AUTOMATED-REPORT-GENERATION: a shallow embedding of [REPORT_GEN.py]

    The development follows the class [AutomatedReportGenerator]:
    [load_data], [analyze_data], [generate_charts] and
    [generate_pdf_report].  The calls into pandas are modelled as list
    functions over a column store; the calls into matplotlib, seaborn, FPDF
    and the file system go through an explicit environment that says which
    of them raise.  Python exceptions are an explicit outcome. *)

From Stdlib Require Import Ascii String ZArith SpecFloat.
From stdpp Require Import gmap strings list sorting pretty.


(** ** Python string helpers used by [load_data] *)

(** A Python [str] is taken as its sequence of code points, each below
    256: one character of a Rocq string is one code point. *)
Module PyStr.

(** [s.split(sep)] for a one-character separator: the pieces between the
    separators, always at least one piece. *)
Fixpoint split (sep : ascii) (s : string) : list string :=
  match s with
  | EmptyString => [EmptyString]
  | String c s' =>
      if decide (c = sep) then EmptyString :: split sep s'
      else match split sep s' with
           | [] => [String c EmptyString]
           | p :: ps => String c p :: ps
           end
  end.

(** [l[-1]] on a list that [split] returned. *)
Definition last_piece (l : list string) : string := List.last l EmptyString.

Definition lower_ascii (c : ascii) : ascii :=
  let n := nat_of_ascii c in
  if decide (65 ≤ n ≤ 90 ∨ 192 ≤ n ≤ 214 ∨ 216 ≤ n ≤ 222)%nat
  then ascii_of_nat (n + 32) else c.

(** [s.lower()]: the capitals A-Z and, above ASCII, U+00C0-U+00DE without
    the multiplication sign U+00D7 are lowered; every other code point
    below 256 is kept. *)
Fixpoint lower (s : string) : string :=
  match s with
  | EmptyString => EmptyString
  | String c s' => String (lower_ascii c) (lower s')
  end.

(** [c.isspace()] on the code points below 256: TAB, LF, VT, FF and CR,
    the separators U+001C-U+001F, the space, NEL (U+0085) and the no-break
    space (U+00A0). *)
Definition is_space (c : ascii) : bool :=
  let n := nat_of_ascii c in
  bool_decide (9 ≤ n ≤ 13 ∨ 28 ≤ n ≤ 32 ∨ n = 133 ∨ n = 160)%nat.

(** [s.strip()]: white space removed at both ends. *)
Fixpoint lstrip (s : string) : string :=
  match s with
  | EmptyString => EmptyString
  | String c s' => if is_space c then lstrip s' else s
  end.

Definition strip (s : string) : string :=
  String.rev (lstrip (String.rev (lstrip s))).

(** [s.replace(old, new)] for a non-empty [old]; [skip] counts the
    characters of a match that are still to be dropped. *)
Fixpoint replace_from (old new : string) (skip : nat) (s : string) : string :=
  match s with
  | EmptyString => EmptyString
  | String c s' =>
      match skip with
      | S k => replace_from old new k s'
      | O => if String.prefix old s
             then new +:+ replace_from old new (String.length old - 1) s'
             else String c (replace_from old new 0 s')
      end
  end.

Definition replace (old new s : string) : string := replace_from old new 0 s.

Definition is_upper (c : ascii) : bool :=
  bool_decide (65 ≤ nat_of_ascii c ≤ 90)%nat.
Definition is_lower (c : ascii) : bool :=
  bool_decide (97 ≤ nat_of_ascii c ≤ 122)%nat.
Definition upper_ascii (c : ascii) : ascii :=
  if is_lower c then ascii_of_nat (nat_of_ascii c - 32) else c.

(** [s.title()] on text whose letters are ASCII, as the names of the chart
    files are: a letter that follows a letter is lowered, any other
    letter is raised; a code point above 127 is kept and counts as no
    letter. *)
Fixpoint title_from (after_letter : bool) (s : string) : string :=
  match s with
  | EmptyString => EmptyString
  | String c s' =>
      if is_upper c || is_lower c
      then String (if after_letter then lower_ascii c else upper_ascii c)
                  (title_from true s')
      else String c (title_from false s')
  end.

Definition title (s : string) : string := title_from false s.

(** [os.path.basename] *)
Definition basename (p : string) : string := last_piece (split "/" p).

End PyStr.

(** ** The data frame *)

(** Column dtypes as [select_dtypes] tells them apart. *)
Inductive dtype := Int64 | Float64 | Bool | Object | Datetime64.

Global Instance dtype_eq_dec : EqDecision dtype.
Proof. solve_decision. Defined.

(** [np.number]: the integer and floating dtypes; bool, object and
    datetime columns are not numeric. *)
Definition is_number (d : dtype) : bool :=
  match d with Int64 | Float64 => true | _ => false end.

(** [include=['object']] *)
Definition is_object (d : dtype) : bool :=
  match d with Object => true | _ => false end.

(** What the generator needs from pandas, numpy and Python's number
    formatting: the type of non-null cell contents with the equality that
    pandas' hash tables use, the statistics of [describe], [round(2)] on a
    value and the format [:.2f]; and the float64 arithmetic in which
    [corr] computes: the float that [to_numpy(dtype=float)] makes of a
    cell, the float of an integer, NaN, [np.isfinite], the four
    operations, negation, the square root and the comparisons [==] and
    [<]. *)
Class Pandas (scalar float : Type) := {
  scalar_eq_dec :: EqDecision scalar;
  describe_stat : string → list (option scalar) → float;
  round_2 : scalar → scalar;
  fmt_2f : float → string;
  to_float : scalar → float;
  of_nat : nat → float;
  nan : float;
  is_finite : float → bool;
  fadd : float → float → float;
  fsub : float → float → float;
  fmul : float → float → float;
  fdiv : float → float → float;
  fopp : float → float;
  fsqrt : float → float;
  feqb : float → float → bool;
  fltb : float → float → bool
}.

Section frame.
Context {scalar : Type}.

(** A cell is a scalar or the null marker (NaN, None, NaT). *)
Definition cell := option scalar.

Record column := Column {
  col_name : string;
  col_dtype : dtype;
  col_cells : list cell
}.

(** A frame is its index length and its columns, in order. *)
Record DataFrame := Frame {
  nrows : nat;
  columns : list column
}.

(** Every column has one cell per row and column labels are unique. *)
Definition wf_frame (df : DataFrame) : Prop :=
  Forall (λ c, length (col_cells c) = nrows df) (columns df) ∧
  NoDup (col_name <$> columns df).

Global Instance wf_frame_dec `{EqDecision scalar} df : Decision (wf_frame df).
Proof. unfold wf_frame. apply _. Defined.

Definition is_null (v : cell) : bool :=
  match v with None => true | Some _ => false end.

(** [df.isnull()]: the frame of null indicators, column by column. *)
Definition isnull (df : DataFrame) : list (string * list bool) :=
  (λ c, (col_name c, is_null <$> col_cells c)) <$> columns df.

(** [.sum()] of a boolean frame: one count per column. *)
Definition frame_sum (m : list (string * list bool)) : list (string * nat) :=
  (λ p, (p.1, length (filter (λ b, b = true) p.2))) <$> m.

(** [.sum()] of a series of counts. *)
Definition series_sum (s : list (string * nat)) : nat :=
  sum_list (snd <$> s).

(** [len(df)] and [len(df.columns)] *)
Definition len (df : DataFrame) : nat := nrows df.
Definition ncols (df : DataFrame) : nat := length (columns df).

(** [df.dtypes.to_dict()] *)
Definition dtypes (df : DataFrame) : list (string * dtype) :=
  (λ c, (col_name c, col_dtype c)) <$> columns df.

(** [df.columns]: the labels, in frame order. *)
Definition labels (df : DataFrame) : list string := col_name <$> columns df.

(** [df.select_dtypes(include=...)]: the sub-frame of the columns whose
    dtype is selected. *)
Definition select_dtypes (p : dtype → bool) (df : DataFrame) : DataFrame :=
  Frame (nrows df) (filter (λ c, p (col_dtype c) = true) (columns df)).

(** [df[col]] for one label: the column that bears it ([None] is Python's
    [KeyError]); labels are unique in a well-formed frame. *)
Definition getitem (df : DataFrame) (name : string) : option column :=
  snd <$> list_find (λ c, col_name c = name) (columns df).

(** [df[cols]] for a list of labels: the columns bearing them, in the
    order of the list. *)
Definition getitems (df : DataFrame) (names : list string) : DataFrame :=
  Frame (nrows df) (names ≫= λ n, filter (λ c, col_name c = n) (columns df)).

(** [df.head(n)] on a frame. *)
Definition head_rows (n : nat) (df : DataFrame) : DataFrame :=
  Frame (n `min` nrows df)
        ((λ c, Column (col_name c) (col_dtype c) (take n (col_cells c))) <$> columns df).

(** [df.values]: the cells, row by row. *)
Definition values (df : DataFrame) : list (list cell) :=
  (λ i, (λ c, default None (col_cells c !! i)) <$> columns df) <$> seq 0 (nrows df).

(** [dropna]: the non-null values of a column, in row order. *)
Definition dropna (l : list cell) : list scalar := omap id l.

End frame.

Section counting.
Context {A : Type} `{EqDecision A}.

(** The distinct values in first-seen order, as pandas' hash table keeps
    them. *)
Fixpoint unique (l : list A) : list A :=
  match l with
  | [] => []
  | x :: l' => x :: filter (λ y, y ≠ x) (unique l')
  end.

Definition occurrences (x : A) (l : list A) : nat :=
  length (filter (λ y, y = x) l).

(** Order of [value_counts]: larger count first. *)
Definition count_ge (a b : A * nat) : Prop := b.2 ≤ a.2.

Global Instance count_ge_dec a b : Decision (count_ge a b).
Proof. unfold count_ge. apply _. Defined.

(** [sort_values(ascending=False)] on the counts: larger counts first, and
    values with equal counts stay in the order in which they were first
    seen. *)
Fixpoint insert_count (a : A * nat) (l : list (A * nat)) : list (A * nat) :=
  match l with
  | [] => [a]
  | b :: l' => if decide (a.2 < b.2) then b :: insert_count a l' else a :: l
  end.

Definition sort_counts (l : list (A * nat)) : list (A * nat) :=
  foldr insert_count [] l.

(** The counting behind [value_counts]: each distinct value with its
    number of occurrences, in first-seen order, then sorted by count. *)
Definition count_values (l : list A) : list (A * nat) :=
  sort_counts ((λ x, (x, occurrences x l)) <$> unique l).

(** [s.nunique()]: nulls are not counted. *)
Definition nunique (l : list (option A)) : nat := length (unique (dropna l)).

(** [s.value_counts()]: nulls are dropped first. *)
Definition value_counts (l : list (option A)) : list (A * nat) :=
  count_values (dropna l).

(** [.head(n)] of a series. *)
Definition head {B} (n : nat) (l : list B) : list B := take n l.

End counting.

Arguments cell : clear implicits.
Arguments column : clear implicits.
Arguments DataFrame : clear implicits.

(** ** Exceptions, the environment and the world *)

(** A Python exception: its class and [str(e)]. *)
Record exn := Exn { exn_class : string; exn_msg : string }.

Definition ValueError (msg : string) : exn := Exn "ValueError" msg.
Definition KeyError (msg : string) : exn := Exn "KeyError" msg.

(** The three readers of [load_data]: [pd.read_csv], [pd.read_excel], and
    [open] + [json.load] + [pd.DataFrame]. *)
Inductive reader := ReadCsv | ReadExcel | ReadJson.

(** The document model of FPDF: a page is the list of what was put on it. *)
Inductive block :=
| Cell (h : Z) (txt : string)
| Image (path : string) (at_y : Z).

Global Instance block_eq_dec : EqDecision block.
Proof. solve_decision. Defined.

Definition page := list block.

Section effects.
Context {scalar float : Type}.

(** The calls into matplotlib, seaborn and pandas plotting made by
    [generate_charts], with what they are given. *)
Inductive plot_call :=
| StyleUse (style : string)
| Subplots (rows cols : nat)
| Suptitle (t : string)
| MissingHeatmap (m : list (string * list bool))
| AxText (t : string)
| SetTitle (t : string)
| Pie (counts : list nat) (kinds : list dtype)
| Hist (cols : list string)
| AxisTight
| AxisOff (slot : nat)
| Table (cellText : list (list (cell scalar))) (colLabels : list string)
| TableAutoFont (auto : bool)
| TableFont (size : nat)
| TightLayout
| Savefig (path : string)
| Close
| Figure
| CorrHeatmap (m : list (string * list (string * float)))
| Title (t : string)
| BarPlot (slot : nat) (top : list (scalar * nat))
| TickParams (slot : nat).

(** The collaborators: what a reader returns for a path, for which path
    [os.makedirs] raises, which plotting call raises, for which image
    [pdf.image] raises, for which path [pdf.output] raises, and the clock:
    [now n] is the text [%Y-%m-%d %H:%M:%S] of the reading of
    [datetime.now()] that [generate_pdf_report] makes after [n] earlier
    ones. *)
Record env := Env {
  read_file : reader → string → exn + DataFrame scalar;
  makedirs_raises : string → option exn;
  plot_raises : plot_call → option exn;
  image_raises : string → bool;
  output_raises : string → option exn;
  now : nat → string
}.

(** [describe()] and [corr()] return frames of floats: index, columns and
    the cell at ([loc]) an index label and a column label. *)
Record stat_frame := StatFrame {
  sf_index : list string;
  sf_columns : list string;
  sf_loc : string → string → float
}.

Record basic_stats_t := BasicStats {
  total_rows : nat;
  total_columns : nat;
  missing_values : nat;
  data_types : list (string * dtype)
}.

(** An entry of [categorical_summary]; [top_values] is the dict of
    [to_dict()], whose keys are distinct, in insertion order. *)
Record cat_entry := CatEntry {
  unique_values : nat;
  top_values : list (scalar * nat)
}.

(** The dict [self.analysis_results]: a key is present or not. *)
Record results := Results {
  basic_stats : option basic_stats_t;
  numeric_summary : option stat_frame;
  correlations : option stat_frame;
  categorical_summary : option (gmap string cat_entry)
}.

(** The generator object. *)
Record generator := Generator {
  data : option (DataFrame scalar);
  analysis_results : results;
  charts_path : string
}.

(** The state of an FPDF object: the pages so far (the last one is the
    current page), the vertical cursor and the height at which a cell
    triggers an automatic page break, in millimetres. *)
Record FPDF := Fpdf {
  pages : list page;
  cur_y : Z;
  page_break_trigger : Z
}.

(** What is outside the generator: the paths that exist, the lines
    printed, the plotting calls that went through, the documents handed
    to the writer, and how often [generate_pdf_report] has read the
    clock. *)
Record world := World {
  fs : gset string;
  stdout : list string;
  drawn : list plot_call;
  written : list (string * FPDF);
  clock : nat
}.

Definition state : Type := generator * world.

Inductive outcome (A : Type) :=
| Normal (a : A) (s : state)
| Raised (e : exn) (s : state).
Arguments Normal {A} a s.
Arguments Raised {A} e s.

(** Computations over the state that return or raise. *)
Definition M (A : Type) : Type := state → outcome A.

Global Instance M_ret : MRet M := λ A a s, Normal a s.
Global Instance M_bind : MBind M := λ A B f m s,
  match m s with
  | Normal a s' => f a s'
  | Raised e s' => Raised e s'
  end.

Definition raise {A} (e : exn) : M A := λ s, Raised e s.

(** [try: body except Exception as e: handler e] *)
Definition try_except {A} (body : M A) (handler : exn → M A) : M A := λ s,
  match body s with
  | Normal a s' => Normal a s'
  | Raised e s' => handler e s'
  end.

Definition get_self : M generator := λ s, Normal s.1 s.
Definition get_world : M world := λ s, Normal s.2 s.
Definition set_self (f : generator → generator) : M () := λ s, Normal () (f s.1, s.2).
Definition set_world (f : world → world) : M () := λ s, Normal () (s.1, f s.2).

Fixpoint for_each {A} (l : list A) (body : A → M ()) : M () :=
  match l with
  | [] => mret ()
  | x :: l' => body x ;; for_each l' body
  end.

Definition print (line : string) : M () :=
  set_world (λ w, World (fs w) (stdout w ++ [line]) (drawn w) (written w) (clock w)).

Definition set_data (df : DataFrame scalar) : M () :=
  set_self (λ g, Generator (Some df) (analysis_results g) (charts_path g)).

Definition set_results (f : results → results) : M () :=
  set_self (λ g, Generator (data g) (f (analysis_results g)) (charts_path g)).

(** [os.path.exists], [os.makedirs], [os.remove] *)
Definition path_exists (p : string) : M bool :=
  w ← get_world; mret (bool_decide (p ∈ fs w)).
Definition create_path (p : string) : M () :=
  set_world (λ w, World ({[p]} ∪ fs w) (stdout w) (drawn w) (written w) (clock w)).
Definition os_remove (p : string) : M () :=
  set_world (λ w, World (fs w ∖ {[p]}) (stdout w) (drawn w) (written w) (clock w)).

Section with_env.
Variable E : env.

Definition read (r : reader) (file_path : string) : M (DataFrame scalar) :=
  match read_file E r file_path with
  | inl e => raise e
  | inr df => mret df
  end.

(** One plotting call: it raises or it goes through. *)
Definition plot (c : plot_call) : M () :=
  match plot_raises E c with
  | Some e => raise e
  | None => set_world (λ w, World (fs w) (stdout w) (drawn w ++ [c]) (written w) (clock w))
  end.

(** [plt.savefig(path)]: on success the image file exists. *)
Definition savefig (p : string) : M () :=
  plot (Savefig p) ;; create_path p.

(** [pdf.output(path)]: on success the document is on disk. *)
Definition pdf_output (p : string) (pdf : FPDF) : M () :=
  match output_raises E p with
  | Some e => raise e
  | None => set_world (λ w, World ({[p]} ∪ fs w) (stdout w) (drawn w)
                                  (written w ++ [(p, pdf)]) (clock w))
  end.

(** *** [__init__] and [ensure_charts_directory] *)

(** [os.makedirs(path)]: it raises where the environment says so (the
    name is taken by a file, a parent cannot be written, ...), it refuses
    a path that exists already, and otherwise the path exists
    afterwards. *)
Definition os_makedirs (p : string) : M () :=
  match makedirs_raises E p with
  | Some e => raise e
  | None =>
      path_exists p ≫= λ ex : bool,
      if ex then raise (Exn "FileExistsError" ("File exists: " +:+ p))
      else create_path p
  end.

(** [datetime.now().strftime('%Y-%m-%d %H:%M:%S')]: every call is a new
    reading of the clock. *)
Definition datetime_now : M string := λ s,
  Normal (now E (clock s.2))
         (s.1, World (fs s.2) (stdout s.2) (drawn s.2) (written s.2) (S (clock s.2))).

Definition ensure_charts_directory : M () :=
  g ← get_self;
  ex ← path_exists (charts_path g);
  if negb ex then os_makedirs (charts_path g) else mret ().

Definition empty_results : results := Results None None None None.

Definition init : M () :=
  set_self (λ _, Generator None empty_results "temp_charts/") ;;
  ensure_charts_directory.

(** *** [load_data] *)

Definition load_data (file_path file_type : string) : M bool :=
  try_except
    (let file_type :=
       if decide (file_type = "auto")
       then PyStr.lower (PyStr.last_piece (PyStr.split "." file_path))
       else file_type in
     df ← (if decide (file_type ∈ ["csv"]) then
             df ← read ReadCsv file_path; set_data df ;; mret df
           else if decide (file_type ∈ ["xlsx"; "xls"]) then
             df ← read ReadExcel file_path; set_data df ;; mret df
           else if decide (file_type = "json") then
             df ← read ReadJson file_path; set_data df ;; mret df
           else raise (ValueError ("Unsupported file type: " +:+ file_type)));
     print ("Data loaded successfully: " +:+ pretty (len df) +:+ " rows, "
              +:+ pretty (ncols df) +:+ " columns") ;;
     mret true)
    (λ e, print ("Error loading data: " +:+ exn_msg e) ;; mret false).

End with_env.
End effects.

Arguments Normal {scalar float A} a s.
Arguments Raised {scalar float A} e s.

(** ** The FPDF object *)

Module PDF.

(** A4 portrait in millimetres, top margin of 1 cm. *)
Definition page_height : Z := 297.
Definition t_margin : Z := 10.

(** [FPDF()]: no page yet; the default bottom margin is 2 cm. *)
Definition FPDF_new : FPDF := Fpdf [] t_margin (page_height - 20).

(** [pdf.set_auto_page_break(auto=True, margin)] *)
Definition set_auto_page_break (margin : Z) (p : FPDF) : FPDF :=
  Fpdf (pages p) (cur_y p) (page_height - margin).

(** [pdf.add_page()]: a fresh current page, cursor at the top margin. *)
Definition add_page (p : FPDF) : FPDF :=
  Fpdf (pages p ++ [[]]) t_margin (page_break_trigger p).

(** [pdf.page_no()] *)
Definition page_no (p : FPDF) : nat := length (pages p).

(** A block goes on the current page. *)
Definition put (b : block) (p : FPDF) : FPDF :=
  Fpdf (alter (λ pg, pg ++ [b]) (length (pages p) - 1)%nat (pages p))
       (cur_y p) (page_break_trigger p).

(** [pdf.cell(0, h, txt, 0, 1, align)]: a cell that would cross the
    trigger first breaks the page; afterwards the cursor is below it. *)
Definition cell (h : Z) (txt : string) (p : FPDF) : FPDF :=
  let p := if decide (cur_y p + h > page_break_trigger p)%Z then add_page p else p in
  let p := put (Cell h txt) p in
  Fpdf (pages p) (cur_y p + h) (page_break_trigger p).

(** [pdf.ln(h)] *)
Definition ln (h : Z) (p : FPDF) : FPDF :=
  Fpdf (pages p) (cur_y p + h) (page_break_trigger p).

(** [pdf.get_y()] *)
Definition get_y (p : FPDF) : Z := cur_y p.

(** [pdf.image(path, x, y, w)] with an explicit [y]: the cursor stays. *)
Definition image (path : string) (at_y : Z) (p : FPDF) : FPDF :=
  put (Image path at_y) p.

End PDF.

(** ** [analyze_data], [generate_charts], [generate_pdf_report] *)

Section methods.
Context `{Pandas scalar float}.
Abbreviation env := (@env scalar float).
Abbreviation M := (@M scalar float).
Abbreviation results := (@results scalar float).

(** The cells of the column labelled [name]. *)
Definition cells_of (df : DataFrame scalar) (name : string) : list (cell scalar) :=
  from_option col_cells [] (getitem df name).

Definition describe_index : list string :=
  ["count"; "mean"; "std"; "min"; "25%"; "50%"; "75%"; "max"].

(** [df.describe()] on a numeric frame. *)
Definition describe (df : DataFrame scalar) : stat_frame :=
  StatFrame describe_index (labels df)
            (λ stat col, describe_stat stat (cells_of df col)).

(** *** [corr()]: the coefficients as [nancorr] of pandas computes them *)

(** [to_numpy(dtype=float, na_value=np.nan)] on a cell. *)
Definition float_of (c : cell scalar) : float := from_option to_float nan c.

(** The accumulators of Welford's method, all zero at the start. *)
Record welford := Welford {
  nobs : nat;
  meanx : float;
  meany : float;
  ssqdmx : float;
  ssqdmy : float;
  covxy : float
}.

(** One row in which both values are finite. *)
Definition welford_step (a : welford) (vx vy : float) : welford :=
  let nobs := S (nobs a) in
  let dx := fsub vx (meanx a) in
  let dy := fsub vy (meany a) in
  let meanx := fadd (meanx a) (fmul (fdiv (of_nat 1) (of_nat nobs)) dx) in
  let meany := fadd (meany a) (fmul (fdiv (of_nat 1) (of_nat nobs)) dy) in
  Welford nobs meanx meany
          (fadd (ssqdmx a) (fmul (fsub vx meanx) dx))
          (fadd (ssqdmy a) (fmul (fsub vy meany) dy))
          (fadd (covxy a) (fmul (fsub vx meanx) dy)).

(** The pass over the rows of two columns; a row with a value that is
    not finite (a null among them) is skipped. *)
Definition welford_run (x y : list (cell scalar)) : welford :=
  foldl (λ a p,
           if is_finite (float_of p.1) && is_finite (float_of p.2)
           then welford_step a (float_of p.1) (float_of p.2) else a)
        (Welford 0 (of_nat 0) (of_nat 0) (of_nat 0) (of_nat 0) (of_nat 0))
        (zip x y).

(** The quotient is kept within [-1, 1]. *)
Definition clip (val : float) : float :=
  if fltb (of_nat 1) val then of_nat 1
  else if fltb val (fopp (of_nat 1)) then fopp (of_nat 1)
  else val.

(** The coefficient of the columns [x] and [y], with [min_periods=1]:
    NaN without a row to count or with a divisor that is zero. *)
Definition pearson (x y : list (cell scalar)) : float :=
  let a := welford_run x y in
  if decide (nobs a < 1) then nan
  else
    let divisor := fsqrt (fmul (ssqdmx a) (ssqdmy a)) in
    if negb (feqb divisor (of_nat 0)) then clip (fdiv (covxy a) divisor) else nan.

(** The place of a label among the labels (their number when it is not
    among them). *)
Fixpoint position (name : string) (l : list string) : nat :=
  match l with
  | [] => 0
  | n :: l' => if decide (n = name) then 0 else S (position name l')
  end.

(** [df.corr()] on a numeric frame: [nancorr] computes the coefficient of
    each pair of columns once, with the column that comes later in the
    frame as its first argument, and stores it at both places of the
    matrix. *)
Definition corr (df : DataFrame scalar) : stat_frame :=
  StatFrame (labels df) (labels df)
            (λ a b, if decide (position b (labels df) ≤ position a (labels df))
                    then pearson (cells_of df a) (cells_of df b)
                    else pearson (cells_of df b) (cells_of df a)).

(** [df.round(2)]: the numeric columns are rounded. *)
Definition round_frame (df : DataFrame scalar) : DataFrame scalar :=
  Frame (nrows df)
        ((λ c, if is_number (col_dtype c)
               then Column (col_name c) (col_dtype c) (fmap round_2 <$> col_cells c)
               else c) <$> columns df).

(** [self.data[col]] or [KeyError]. *)
Definition getitem_or_raise (df : DataFrame scalar) (col : string) : M (column scalar) :=
  match getitem df col with
  | Some c => mret c
  | None => raise (KeyError col)
  end.

(** [self.analysis_results['categorical_summary'][col] = entry] *)
Definition set_categorical (col : string) (entry : cat_entry) : M () :=
  g ← get_self;
  match categorical_summary (analysis_results g) with
  | Some m =>
      set_results (λ r, Results (basic_stats r) (numeric_summary r) (correlations r)
                                (Some (<[col := entry]> m)))
  | None => raise (KeyError "categorical_summary")
  end.

Definition analyze_data : M bool :=
  g ← get_self;
  match data g with
  | None => print "No data loaded for analysis" ;; mret false
  | Some df =>
      set_results (λ r,
        Results (Some (BasicStats (len df) (ncols df)
                                  (series_sum (frame_sum (isnull df)))
                                  (dtypes df)))
                (numeric_summary r) (correlations r) (categorical_summary r)) ;;
      let numeric_columns := labels (select_dtypes is_number df) in
      (if decide (0 < length numeric_columns) then
         set_results (λ r,
           Results (basic_stats r) (Some (describe (getitems df numeric_columns)))
                   (correlations r) (categorical_summary r)) ;;
         set_results (λ r,
           Results (basic_stats r) (numeric_summary r)
                   (Some (corr (getitems df numeric_columns))) (categorical_summary r))
       else mret ()) ;;
      let categorical_columns := labels (select_dtypes is_object df) in
      (if decide (0 < length categorical_columns) then
         set_results (λ r,
           Results (basic_stats r) (numeric_summary r) (correlations r) (Some ∅)) ;;
         for_each categorical_columns (λ col,
           c ← getitem_or_raise df col;
           set_categorical col
             (CatEntry (nunique (col_cells c))
                       (head 5 (value_counts (col_cells c)))))
       else mret ()) ;;
      mret true
  end.

Section with_env.
Variable E : env.

Abbreviation plot := (plot E).
Abbreviation savefig := (savefig E).

Definition generate_charts : M (list string) :=
  g ← get_self;
  match data g with
  | None => mret []
  | Some df =>
      let chart_files : list string := [] in
      plot (StyleUse "seaborn-v0_8") ;;
      (* Chart 1: Data Overview *)
      plot (Subplots 2 2) ;;
      plot (Suptitle "Data Overview Dashboard") ;;
      (if decide (0 < series_sum (frame_sum (isnull df))) then
         plot (MissingHeatmap (isnull df)) ;;
         plot (SetTitle "Missing Values Pattern")
       else
         plot (AxText "No Missing Values") ;;
         plot (SetTitle "Missing Values Pattern")) ;;
      let dtype_counts := count_values (col_dtype <$> columns df) in
      plot (Pie (snd <$> dtype_counts) (fst <$> dtype_counts)) ;;
      plot (SetTitle "Data Types Distribution") ;;
      let numeric_cols := labels (select_dtypes is_number df) in
      (if decide (0 < length numeric_cols) then
         plot (Hist (take 4 numeric_cols)) ;;
         plot (SetTitle "Numeric Distributions")
       else mret ()) ;;
      plot AxisTight ;;
      plot (AxisOff 3) ;;
      let table_data :=
        if decide (0 < len df) then round_frame (head_rows 5 df) else Frame 0 [] in
      plot (Table (values table_data) (labels table_data)) ;;
      plot (TableAutoFont false) ;;
      plot (TableFont 8) ;;
      plot (SetTitle "Data Sample") ;;
      plot TightLayout ;;
      let chart1_path := charts_path g +:+ "overview_dashboard.png" in
      savefig chart1_path ;;
      plot Close ;;
      let chart_files := chart_files ++ [chart1_path] in
      (* Chart 2: Correlation Matrix *)
      chart_files ←
        (if decide (1 < length numeric_cols) then
           plot Figure ;;
           let correlation_matrix := corr (getitems df numeric_cols) in
           plot (CorrHeatmap
                   ((λ a, (a, (λ b, (b, sf_loc correlation_matrix a b))
                                <$> sf_columns correlation_matrix))
                      <$> sf_index correlation_matrix)) ;;
           plot (Title "Correlation Matrix") ;;
           plot TightLayout ;;
           let chart2_path := charts_path g +:+ "correlation_matrix.png" in
           savefig chart2_path ;;
           plot Close ;;
           mret (chart_files ++ [chart2_path])
         else mret chart_files) ;
      (* Chart 3: Top Categories *)
      let categorical_cols := labels (select_dtypes is_object df) in
      chart_files ←
        (if decide (0 < length categorical_cols) then
           plot (Subplots 2 2) ;;
           plot (Suptitle "Categorical Data Analysis") ;;
           for_each (imap (λ i col, (i, col)) (take 4 categorical_cols)) (λ '(i, col),
             c ← getitem_or_raise df col;
             let top_values := head 10 (value_counts (col_cells c)) in
             plot (BarPlot i top_values) ;;
             plot (SetTitle ("Top Values in " +:+ col)) ;;
             plot (TickParams i)) ;;
           for_each (seq (length categorical_cols) (4 - length categorical_cols))
                    (λ i, plot (AxisOff i)) ;;
           plot TightLayout ;;
           let chart3_path := charts_path g +:+ "categorical_analysis.png" in
           savefig chart3_path ;;
           plot Close ;;
           mret (chart_files ++ [chart3_path])
         else mret chart_files) ;
      mret chart_files
  end.

End with_env.
End methods.

Section report.
Context `{Pandas scalar float}.
Abbreviation env' := (@env scalar float).
Abbreviation M' := (@M scalar float).
Abbreviation results' := (@results scalar float).
Variable E : env'.

(** [basic_stats.get(key, 'N/A')] after [analysis_results.get('basic_stats', {})],
    as the f-strings print it. *)
Definition stat_text (r : results') (field : basic_stats_t → nat) : string :=
  match basic_stats r with
  | Some b => pretty (field b)
  | None => "N/A"
  end.

(** [summary_text.strip().split('\n')] *)
Definition summary_lines (r : results') : list string :=
  [ "This automated report provides a comprehensive analysis of the loaded dataset containing ";
    stat_text r total_rows +:+ " rows and ";
    stat_text r total_columns +:+ " columns.";
    EmptyString;
    "Key findings include statistical summaries, correlation analysis, and categorical ";
    "breakdowns. The analysis reveals patterns and insights that can inform business ";
    "decisions and data-driven strategies." ].

(** Title page with the executive summary; [generated_on] is the reading
    of the clock that it prints. *)
Definition title_page (generated_on report_title : string) (r : results')
    (pdf : FPDF) : FPDF :=
  let pdf := PDF.add_page pdf in
  let pdf := PDF.cell 30 report_title pdf in
  let pdf := PDF.cell 10 ("Generated on: " +:+ generated_on) pdf in
  let pdf := PDF.cell 10 "Generated by: PhantomX256" pdf in
  let pdf := PDF.ln 20 pdf in
  let pdf := PDF.cell 10 "Executive Summary" pdf in
  foldl (λ pdf line,
           if decide (PyStr.strip line ≠ EmptyString)
           then PDF.cell 6 (PyStr.strip line) pdf else pdf)
        pdf (summary_lines r).

(** Data overview section. *)
Definition overview_page (r : results') (pdf : FPDF) : FPDF :=
  let pdf := PDF.add_page pdf in
  let pdf := PDF.cell 10 "Data Overview" pdf in
  let pdf := PDF.cell 8 ("Total Rows: " +:+ stat_text r total_rows) pdf in
  let pdf := PDF.cell 8 ("Total Columns: " +:+ stat_text r total_columns) pdf in
  PDF.cell 8 ("Missing Values: " +:+ stat_text r missing_values) pdf.

Definition chart_title (chart_path : string) : string :=
  PyStr.title (PyStr.replace "_" " " (PyStr.replace ".png" EmptyString (PyStr.basename chart_path))).

(** The body of [for i, chart_path in enumerate(chart_files)]; [exists]
    is the set of paths on disk. *)
Definition add_chart (exist : gset string) (i : nat) (chart_path : string)
    (pdf : FPDF) : FPDF :=
  if decide (chart_path ∈ exist) then
    let pdf := if decide (0 < i) then PDF.add_page pdf else pdf in
    let pdf := PDF.cell 10 (chart_title chart_path) pdf in
    if image_raises E chart_path
    then PDF.cell 10 ("Chart could not be loaded: " +:+ chart_path) pdf
    else PDF.image chart_path (PDF.get_y pdf + 5) pdf
  else pdf.

Fixpoint add_charts (exist : gset string) (i : nat) (chart_files : list string)
    (pdf : FPDF) : FPDF :=
  match chart_files with
  | [] => pdf
  | chart_path :: rest => add_charts exist (S i) rest (add_chart exist i chart_path pdf)
  end.

(** Statistical summary, when the key [numeric_summary] is present. *)
Definition stats_page (r : results') (pdf : FPDF) : FPDF :=
  match numeric_summary r with
  | Some summary_df =>
      let pdf := PDF.add_page pdf in
      let pdf := PDF.cell 10 "Statistical Summary" pdf in
      foldl (λ pdf col,
               let pdf := PDF.ln 5 pdf in
               let pdf := PDF.cell 8 ("Column: " +:+ col) pdf in
               foldl (λ pdf stat,
                        if decide (stat ∈ sf_index summary_df)
                        then PDF.cell 6 (PyStr.title stat +:+ ": "
                                           +:+ fmt_2f (sf_loc summary_df stat col)) pdf
                        else pdf)
                     pdf ["mean"; "std"; "min"; "max"])
            pdf (take 3 (sf_columns summary_df))
  | None => pdf
  end.

(** The document that [generate_pdf_report] builds between [FPDF()] and
    [pdf.output]. *)
Definition build_pdf (generated_on report_title : string) (r : results')
    (exist : gset string) (chart_files : list string) : FPDF :=
  let pdf := PDF.set_auto_page_break 15 PDF.FPDF_new in
  let pdf := title_page generated_on report_title r pdf in
  let pdf := overview_page r pdf in
  let pdf := add_charts exist 0 chart_files pdf in
  stats_page r pdf.

Definition generate_pdf_report (output_path report_title : string) : M' string :=
  chart_files ← generate_charts E;
  generated_on ← datetime_now E;
  g ← get_self;
  w ← get_world;
  let pdf := build_pdf generated_on report_title (analysis_results g) (fs w)
               chart_files in
  pdf_output E output_path pdf ;;
  print ("Report generated successfully: " +:+ output_path) ;;
  (* Clean up temporary chart files *)
  for_each chart_files (λ chart_path,
    path_exists chart_path ≫= λ ex : bool,
    if ex then os_remove chart_path else mret ()) ;;
  mret output_path.

End report.

(** Default arguments of [generate_pdf_report]. *)
Definition default_output_path : string := "automated_report.pdf".
Definition default_report_title : string := "Data Analysis Report".

(** ** [main] and [create_sample_data] *)

(** What the user types at the two prompts of [main], and the time stamp
    [%Y%m%d_%H%M%S] that [main] takes from the clock to name the output
    file. *)
Record console := Console {
  path_answer : string;
  title_answer : string;
  stamp : string
}.

Section cli.
Context `{Pandas scalar float}.
Abbreviation envc := (@env scalar float).
Abbreviation Mc := (@M scalar float).
Variable E : envc.

Definition sample_path : string := "sample_sales_data.csv".

(** [create_sample_data]: the frame that it draws from numpy's random
    generator is not modelled; what is kept is the file that [to_csv]
    writes and the line printed. *)
Definition create_sample_data : Mc () :=
  create_path sample_path ;;
  print ("Sample data created: " +:+ sample_path).

(** [input(prompt)]: the prompt goes to the output, the answer comes from
    the console. *)
Definition input (prompt answer : string) : Mc string :=
  print prompt ;; mret answer.

Definition main (C : console) : Mc () :=
  print "Automated Report Generator" ;;
  print "========================================" ;;
  answer ← input "Enter the path to your data file (CSV, Excel, or JSON): "
                 (path_answer C);
  let file_path := PyStr.strip answer in
  ex ← path_exists file_path;
  file_path ←
    (if bool_decide (file_path = EmptyString) || negb ex then
       print "Creating sample data for demonstration..." ;;
       create_sample_data ;;
       mret sample_path
     else mret file_path);
  (* generator = AutomatedReportGenerator() *)
  init E ;;
  loaded ← load_data E file_path "auto";
  if loaded : bool then
    analyze_data ;;
    answer ← input "Enter report title (or press Enter for default): "
                   (title_answer C);
    let report_title := PyStr.strip answer in
    let report_title :=
      if decide (report_title = EmptyString)
      then "Automated Data Analysis Report" else report_title in
    let output_file := "report_" +:+ stamp C +:+ ".pdf" in
    generate_pdf_report E output_file report_title ;;
    print (String "010" ("Report generated: " +:+ output_file))
  else
    print "Failed to load data. Please check your file path and format.".

End cli.

(** ** Sample inputs *)

(** Floats are those of IEEE 754 binary64, with the arithmetic that the
    Standard Library specifies for them (round to nearest, ties to
    even). *)
Definition float64 : Type := spec_float.

Global Instance float64_eq_dec : EqDecision float64.
Proof. solve_decision. Defined.

(** The float nearest to [m * 2 ^ e]. *)
Definition float64_of (m e : Z) : float64 := binary_normalize 53 1024 m e false.

(** [f"{value:.2f}"]: the decimal with two fractional digits that is
    nearest to the float, the even one of two that are equally near. *)
Definition round_half_even (num den : Z) : Z :=
  let q := (num / den)%Z in
  let r := (num `mod` den)%Z in
  if (2 * r <? den)%Z then q
  else if (den <? 2 * r)%Z then (q + 1)%Z
  else if Z.even q then q else (q + 1)%Z.

Definition two_digits (d : Z) : string :=
  if (d <? 10)%Z then "0" +:+ pretty d else pretty d.

Definition fmt_2f_float64 (x : float64) : string :=
  match x with
  | S754_nan => "nan"
  | S754_infinity s => if s then "-inf" else "inf"
  | S754_zero s => if s then "-0.00" else "0.00"
  | S754_finite s m e =>
      let hundredths :=
        if (0 <=? e)%Z then (Z.pos m * 2 ^ e * 100)%Z
        else round_half_even (Z.pos m * 100) (2 ^ (- e)) in
      (if s then "-" else EmptyString)
        +:+ pretty (hundredths / 100)%Z +:+ "." +:+ two_digits (hundredths `mod` 100)%Z
  end.

(** Cell contents of the samples: integers, floats, booleans and
    strings. *)
Inductive pyval := PInt (n : Z) | PFloat (f : float64) | PBool (b : bool) | PStr (s : string).

Global Instance pyval_eq_dec : EqDecision pyval.
Proof. solve_decision. Defined.

(** pandas over binary64.  The statistics of [describe] are a stand-in
    (each is the number of non-null cells), and [round(2)] is the
    identity, which it is on the integers and on the floats of the
    samples. *)
Global Instance sample_pandas : Pandas pyval float64 := {|
  describe_stat _ l := float64_of (Z.of_nat (length (dropna l))) 0;
  round_2 v := v;
  fmt_2f := fmt_2f_float64;
  to_float v :=
    match v with
    | PInt n => float64_of n 0
    | PFloat f => f
    | PBool b => float64_of (if b then 1 else 0) 0
    | PStr _ => S754_nan
    end;
  of_nat n := float64_of (Z.of_nat n) 0;
  nan := S754_nan;
  is_finite x :=
    match x with
    | S754_zero _ | S754_finite _ _ _ => true
    | S754_infinity _ | S754_nan => false
    end;
  fadd := SFadd 53 1024;
  fsub := SFsub 53 1024;
  fmul := SFmul 53 1024;
  fdiv := SFdiv 53 1024;
  fopp := SFopp;
  fsqrt := SFsqrt 53 1024;
  feqb := SFeqb;
  fltb := SFltb
|}.

(** Three rows, a numeric column with one null and a text column. *)
Definition sample_frame : DataFrame pyval :=
  Frame 3 [ Column "qty" Int64 [Some (PInt 1); None; Some (PInt 3)];
            Column "city" Object [Some (PStr "Pune"); Some (PStr "Agra"); Some (PStr "Pune")] ].

(** A header-only file: three text columns and no row. *)
Definition empty_frame : DataFrame pyval :=
  Frame 0 [ Column "a" Object []; Column "b" Object []; Column "c" Object [] ].



(** A boolean column beside a text column. *)
Definition flags_frame : DataFrame pyval :=
  Frame 2 [ Column "active" Bool [Some (PBool true); Some (PBool false)];
            Column "city" Object [Some (PStr "Pune"); Some (PStr "Agra")] ].

(** One text column: "x" ten times, then "p", "q" and "r" once each. *)
Definition skewed_frame : DataFrame pyval :=
  Frame 13 [ Column "tag" Object
               (replicate 10 (Some (PStr "x")) ++
                [Some (PStr "p"); Some (PStr "q"); Some (PStr "r")]) ].

Definition sample_read (r : reader) (p : string) : exn + DataFrame pyval :=
  if decide (p = "data.csv") then inr sample_frame
  else if decide (p = "empty.csv") then inr empty_frame
  else inl (Exn "FileNotFoundError" ("No such file or directory: " +:+ p)).

(** The clock of the samples: one second on at every reading. *)
Definition sample_now (n : nat) : string :=
  "2024-01-01 00:00:0" +:+ pretty (n `mod` 10).

(** Every collaborator works. *)
Definition env_ok : @env pyval float64 :=
  Env sample_read (λ _, None) (λ _, None) (λ _, false) (λ _, None) sample_now.

(** The chart directory cannot be made. *)
Definition env_no_makedirs : @env pyval float64 :=
  Env sample_read (λ p, Some (Exn "PermissionError" ("Permission denied: " +:+ p)))
      (λ _, None) (λ _, false) (λ _, None) sample_now.

(** The document cannot be written. *)
Definition env_unwritable : @env pyval float64 :=
  Env sample_read (λ _, None) (λ _, None) (λ _, false)
      (λ p, Some (Exn "PermissionError" ("Permission denied: " +:+ p)))
      sample_now.

(** The pie panel of the dashboard cannot be drawn. *)
Definition env_pie_fails : @env pyval float64 :=
  Env sample_read (λ _, None)
      (λ c, match c with
            | Pie _ _ => Some (ValueError "Wedge sizes 'x' must be non negative values")
            | _ => None
            end)
      (λ _, false) (λ _, None) sample_now.

(** No image can be embedded. *)
Definition env_no_image : @env pyval float64 :=
  Env sample_read (λ _, None) (λ _, None) (λ _, true) (λ _, None) sample_now.

(** A table without rows is refused, as [Axes.table] does when it reads
    [cellText[0]]. *)
Definition env_table_needs_rows : @env pyval float64 :=
  Env sample_read (λ _, None)
      (λ c, match c with
            | Table [] _ => Some (Exn "IndexError" "index 0 is out of bounds for axis 0 with size 0")
            | _ => None
            end)
      (λ _, false) (λ _, None) sample_now.

(** The generator after [__init__], and a world where the charts directory
    exists. *)
Definition fresh_generator : @generator pyval float64 :=
  Generator None empty_results "temp_charts/".
Definition sample_world : @world pyval float64 :=
  World {["temp_charts/"]} [] [] [] 0.

Definition loaded (df : DataFrame pyval) : @generator pyval float64 :=
  Generator (Some df) empty_results "temp_charts/".

(** ** Vocabulary of the statements *)

(** The character does not occur in the string. *)
Fixpoint free_of (sep : ascii) (s : string) : Prop :=
  match s with
  | EmptyString => True
  | String c s' => c ≠ sep ∧ free_of sep s'
  end.

Section vocabulary.
Context `{Pandas scalar float}.
Abbreviation Ms := (@M scalar float).
Abbreviation states := (@state scalar float).

(** The null indicator of the cell in row [i] of column [c], as a number. *)
Definition null_at (i : nat) (c : column scalar) : nat :=
  match col_cells c !! i with
  | Some None => 1
  | _ => 0
  end.

(** The number of null cells as the specification counts it: by a scan of
    all rows and, in each row, all columns. *)
Definition scan_nulls (df : DataFrame scalar) : nat :=
  sum_list_with (λ i, sum_list_with (null_at i) (columns df)) (seq 0 (nrows df)).

(** The nulls of one column, counted along the index. *)
Definition column_nulls (c : column scalar) : nat :=
  length (filter (λ b, b = true) (is_null <$> col_cells c)).

(** A triple with a normal and an exceptional postcondition: from a state
    in [P] the computation returns a value and a state in [Qn], or raises
    an exception in a state in [Qe]. *)
Definition triple {A} (P : states → Prop) (m : Ms A)
    (Qn : A → states → Prop) (Qe : exn → states → Prop) : Prop :=
  ∀ s, P s → match m s with
             | Normal a s' => Qn a s'
             | Raised e s' => Qe e s'
             end.

(** No plotting call raises. *)
Definition plots_ok (E : @env scalar float) : Prop := ∀ c, plot_raises E c = None.

(** The number of numeric and of text columns. *)
Definition numeric_count (df : DataFrame scalar) : nat :=
  length (labels (select_dtypes is_number df)).
Definition categorical_count (df : DataFrame scalar) : nat :=
  length (labels (select_dtypes is_object df)).

(** The three chart files. *)
Definition overview_dashboard (g : @generator scalar float) : string :=
  charts_path g +:+ "overview_dashboard.png".
Definition correlation_matrix (g : @generator scalar float) : string :=
  charts_path g +:+ "correlation_matrix.png".
Definition categorical_analysis (g : @generator scalar float) : string :=
  charts_path g +:+ "categorical_analysis.png".

(** The chart list as a function of the two counts. *)
Definition charts_for (g : @generator scalar float) (numeric categorical : nat)
    : list string :=
  [overview_dashboard g]
    ++ (if decide (2 ≤ numeric) then [correlation_matrix g] else [])
    ++ (if decide (1 ≤ categorical) then [categorical_analysis g] else []).

(** What [generate_charts] leaves untouched, and the chart files it has
    saved so far. *)
Definition charts_inv (g : @generator scalar float) (w : @world scalar float)
    (saved : list string) (s : states) : Prop :=
  s.1 = g ∧ stdout s.2 = stdout w ∧ written s.2 = written w ∧
  (∀ p, p ∈ saved → p ∈ fs s.2) ∧ fs s.2 ⊆ fs w ∪ list_to_set saved.

(** How [generate_charts] can raise: some plotting call does, and the
    generator, the printed lines and the written documents are as before. *)
Definition charts_exc (E : @env scalar float) (g : @generator scalar float)
    (w : @world scalar float) (e : exn) (s : states) : Prop :=
  ¬ plots_ok E ∧ ∃ saved, charts_inv g w saved s.

(** The extension that [load_data] infers for [file_type='auto']: the
    text after the last dot (the whole path when it has none), lowered. *)
Definition extension (file_path : string) : string :=
  PyStr.lower (PyStr.last_piece (PyStr.split "." file_path)).

(** The file type that [load_data] dispatches on. *)
Definition resolved_type (file_path file_type : string) : string :=
  if decide (file_type = "auto") then extension file_path else file_type.

(** The reader that [load_data] picks for a file type, if any. *)
Definition reader_for (file_type : string) : option reader :=
  if decide (file_type ∈ ["csv"]) then Some ReadCsv
  else if decide (file_type ∈ ["xlsx"; "xls"]) then Some ReadExcel
  else if decide (file_type = "json") then Some ReadJson
  else None.

(** The world after one more printed line. *)
Definition printed (line : string) (w : @world scalar float) : @world scalar float :=
  World (fs w) (stdout w ++ [line]) (drawn w) (written w) (clock w).

(** The world after one more reading of the clock. *)
Definition ticked (w : @world scalar float) : @world scalar float :=
  World (fs w) (stdout w) (drawn w) (written w) (S (clock w)).

(** The world after [generate_pdf_report] has read the clock, written the
    document [pdf] to [output_path], reported it and removed the chart
    files. *)
Definition reported (output_path : string) (pdf : FPDF) (chart_files : list string)
    (w : @world scalar float) : @world scalar float :=
  World (({[output_path]} ∪ fs w) ∖ list_to_set chart_files)
        (stdout w ++ ["Report generated successfully: " +:+ output_path])
        (drawn w)
        (written w ++ [(output_path, pdf)])
        (S (clock w)).

(** ['key' in self.analysis_results] *)
Definition has_key {A} (o : option A) : bool :=
  match o with Some _ => true | None => false end.



(** The entry that [analyze_data] stores for a text column. *)
Definition cat_entry_of (c : column scalar) : @cat_entry scalar :=
  CatEntry (nunique (col_cells c)) (head 5 (value_counts (col_cells c))).

(** The dict that the loop over the text columns leaves behind. *)
Definition fill_categorical (df : DataFrame scalar) (cols : list string)
    (m : gmap string (@cat_entry scalar)) : gmap string (@cat_entry scalar) :=
  foldl (λ m col, match getitem df col with
                  | Some c => <[col := cat_entry_of c]> m
                  | None => m
                  end) m cols.

(** [self.analysis_results] after [analyze_data] on the frame [df], from
    the earlier dict [r]: keys that are not written keep their value. *)
Definition analysis_of (df : DataFrame scalar) (r : @results scalar float)
    : @results scalar float :=
  let numeric_columns := labels (select_dtypes is_number df) in
  let categorical_columns := labels (select_dtypes is_object df) in
  Results
    (Some (BasicStats (len df) (ncols df) (series_sum (frame_sum (isnull df))) (dtypes df)))
    (if decide (0 < length numeric_columns)
     then Some (describe (getitems df numeric_columns)) else numeric_summary r)
    (if decide (0 < length numeric_columns)
     then Some (corr (getitems df numeric_columns)) else correlations r)
    (if decide (0 < length categorical_columns)
     then Some (fill_categorical df categorical_columns ∅) else categorical_summary r).

End vocabulary.

(** The document is on page [n], the cursor is not below [y], and the
    page-break trigger is that of A4 with the 15 mm margin. *)
Definition fits (pdf : FPDF) (n : nat) (y : Z) : Prop :=
  PDF.page_no pdf = n ∧ (cur_y pdf ≤ y)%Z ∧ page_break_trigger pdf = 282%Z.

(** The block is on some page of the document. *)
Definition has_block (b : block) (pdf : FPDF) : Prop := b ∈ concat (pages pdf).

(** An operation on the document that keeps what is already on it. *)
Definition keeps_blocks (f : FPDF → FPDF) : Prop :=
  ∀ b pdf, has_block b pdf → has_block b (f pdf).

(** The number of pages that [generate_pdf_report] produces for a number
    of chart files and the presence of the numeric summary. *)
Definition expected_pages (chart_count : nat) (has_numeric_summary : bool) : nat :=
  2 + (chart_count - 1) + (if has_numeric_summary then 1 else 0).

(** The pages that the loop over the chart files adds, from index [i] on:
    one for each file that exists, except at index 0. *)
Fixpoint chart_pages (exist : gset string) (i : nat) (chart_files : list string) : nat :=
  match chart_files with
  | [] => 0
  | p :: rest =>
      (if decide (p ∈ exist ∧ 0 < i) then 1 else 0) + chart_pages exist (S i) rest
  end.

(** The line that replaces an image that cannot be embedded. *)
Definition image_notice (chart_path : string) : block :=
  Cell 10 ("Chart could not be loaded: " +:+ chart_path).

(** What stands for the chart [chart_path] on the document: its image, or
    the notice when [pdf.image] raises. *)
Definition chart_block {scalar float} (E : @env scalar float) (chart_path : string)
    (b : block) : Prop :=
  if image_raises E chart_path then b = image_notice chart_path
  else ∃ at_y, b = Image chart_path at_y.

(** The sample generator after [load_data] and [analyze_data]. *)
Definition analysed (df : DataFrame pyval) : @generator pyval float64 :=
  Generator (Some df) (analysis_of df empty_results) "temp_charts/".

(** ** Vocabulary of the further properties *)

(** The current page of the document is [cur], the pages before it are
    [before], the cursor is at [y] and the trigger is that of A4 with the
    15 mm margin. *)
Definition on_page (pdf : FPDF) (before : list page) (cur : page) (y : Z) : Prop :=
  pages pdf = before ++ [cur] ∧ cur_y pdf = y ∧ page_break_trigger pdf = 282%Z.

(** The pages of the document are [pgs], with that trigger. *)
Definition laid (pdf : FPDF) (pgs : list page) : Prop :=
  pages pdf = pgs ∧ page_break_trigger pdf = 282%Z.

Section layout_vocabulary.
Context `{Pandas scalar float}.
Implicit Types (E : @env scalar float) (r : @results scalar float).

(** The lines of the executive summary that are not blank, as cells. *)
Definition summary_cells r : list block :=
  summary_lines r ≫= λ line,
    if decide (PyStr.strip line ≠ EmptyString) then [Cell 6 (PyStr.strip line)] else [].

(** The title page; [generated_on] is the reading of the clock. *)
Definition title_blocks (generated_on report_title : string) r : list block :=
  [ Cell 30 report_title;
    Cell 10 ("Generated on: " +:+ generated_on);
    Cell 10 "Generated by: PhantomX256";
    Cell 10 "Executive Summary" ] ++ summary_cells r.

(** The overview lines. *)
Definition overview_blocks r : list block :=
  [ Cell 10 "Data Overview";
    Cell 8 ("Total Rows: " +:+ stat_text r total_rows);
    Cell 8 ("Total Columns: " +:+ stat_text r total_columns);
    Cell 8 ("Missing Values: " +:+ stat_text r missing_values) ].

(** A chart whose heading is put with the cursor at [y]: the heading, and
    the image 5 mm below it or the notice. *)
Definition chart_blocks E (y : Z) (chart_path : string) : list block :=
  [ Cell 10 (chart_title chart_path);
    if image_raises E chart_path then image_notice chart_path
    else Image chart_path (y + 10 + 5) ].

(** The lines of one column on the statistics page. *)
Definition stat_cells (summary_df : @stat_frame float) (col : string) : list block :=
  ["mean"; "std"; "min"; "max"] ≫= λ stat,
    if decide (stat ∈ sf_index summary_df)
    then [Cell 6 (PyStr.title stat +:+ ": " +:+ fmt_2f (sf_loc summary_df stat col))]
    else [].

(** The statistics page. *)
Definition stats_blocks (summary_df : @stat_frame float) : list block :=
  Cell 10 "Statistical Summary"
    :: (take 3 (sf_columns summary_df) ≫= λ col,
          Cell 8 ("Column: " +:+ col) :: stat_cells summary_df col).

(** The pages of the report, page by page. *)
Definition report_pages E (generated_on report_title : string) r (exist : gset string)
    (chart_files : list string) : list page :=
  [ title_blocks generated_on report_title r;
    overview_blocks r ++
      match chart_files with
      | p :: _ => if decide (p ∈ exist) then chart_blocks E 44 p else []
      | [] => []
      end ]
  ++ (chart_blocks E 10 <$> filter (λ p, p ∈ exist) (tail chart_files))
  ++ match numeric_summary r with
     | Some summary_df => [stats_blocks summary_df]
     | None => []
     end.

(** A property of states that plotting and saving a figure keep. *)
Definition plot_stable (J : @state scalar float → Prop) : Prop :=
  (∀ c g w, J (g, w) →
     J (g, World (fs w) (stdout w) (drawn w ++ [c]) (written w) (clock w))) ∧
  (∀ p g w, J (g, w) →
     J (g, World ({[p]} ∪ fs w) (stdout w) (drawn w) (written w) (clock w))).

(** The chart files of a run: none without data. *)
Definition charts_of (g : @generator scalar float) : list string :=
  match data g with
  | None => []
  | Some df => charts_for g (numeric_count df) (categorical_count df)
  end.

(** What [generate_charts] hands to the pie and to the table of the
    dashboard. *)
Definition dtype_counts (df : DataFrame scalar) : list (dtype * nat) :=
  count_values (col_dtype <$> columns df).
Definition pie_call (df : DataFrame scalar) : @plot_call scalar float :=
  Pie (snd <$> dtype_counts df) (fst <$> dtype_counts df).
Definition table_data (df : DataFrame scalar) : DataFrame scalar :=
  if decide (0 < len df) then round_frame (head_rows 5 df) else Frame 0 [].
Definition table_call (df : DataFrame scalar) : @plot_call scalar float :=
  Table (values (table_data df)) (labels (table_data df)).

(** The generator that [__init__] makes. *)
Definition new_generator : @generator scalar float :=
  Generator None empty_results "temp_charts/".

(** [main] falls back on the sample file: the typed path, stripped, is
    blank or does not exist. *)
Definition uses_sample (C : console) (w : @world scalar float) : bool :=
  bool_decide (PyStr.strip (path_answer C) = EmptyString)
  || negb (bool_decide (PyStr.strip (path_answer C) ∈ fs w)).

(** The path that [main] loads. *)
Definition chosen_path (C : console) (w : @world scalar float) : string :=
  if uses_sample C w then sample_path else PyStr.strip (path_answer C).

(** The world in which one more path exists. *)
Definition with_path (p : string) (w : @world scalar float) : @world scalar float :=
  World ({[p]} ∪ fs w) (stdout w) (drawn w) (written w) (clock w).

(** The world in which [main] makes the generator: the banner and the
    first prompt are printed, and the sample file is made when the typed
    path is not used. *)
Definition before_init (C : console) (w : @world scalar float) : @world scalar float :=
  let w1 := printed "Enter the path to your data file (CSV, Excel, or JSON): "
              (printed "========================================"
                 (printed "Automated Report Generator" w)) in
  if uses_sample C w
  then printed ("Sample data created: " +:+ sample_path)
         (with_path sample_path
            (printed "Creating sample data for demonstration..." w1))
  else w1.

(** The world in which [main] calls [load_data], when the constructor has
    returned: the chart directory exists. *)
Definition before_load (C : console) (w : @world scalar float) : @world scalar float :=
  if bool_decide ("temp_charts/" ∈ fs (before_init C w)) then before_init C w
  else with_path "temp_charts/" (before_init C w).

(** The constructor returns: the chart directory exists, or [os.makedirs]
    does not raise for it. *)
Definition init_returns E (w : @world scalar float) : Prop :=
  "temp_charts/" ∈ fs w ∨ makedirs_raises E "temp_charts/" = None.

(** The line that ends a run of [main] that could not load its data. *)
Definition load_failure_line : string :=
  "Failed to load data. Please check your file path and format.".

(** The title that [main] passes on. *)
Definition chosen_title (C : console) : string :=
  if decide (PyStr.strip (title_answer C) = EmptyString)
  then "Automated Data Analysis Report" else PyStr.strip (title_answer C).

(** The name of the report that [main] writes. *)
Definition report_name (C : console) : string := "report_" +:+ stamp C +:+ ".pdf".

End layout_vocabulary.

(** A world where two files of the user exist, and what the user may type
    at the prompts of [main]. *)
Definition user_world : @world pyval float64 :=
  World {["data.csv"; "notes.txt"]} [] [] [] 0.
Definition console_data : console := Console "  data.csv " EmptyString "20240101_120000".
Definition console_notes : console := Console "notes.txt" "Notes" "20240101_120000".
Definition console_blank : console := Console EmptyString "Sales" "20240101_120000".
Definition console_missing : console := Console "nowhere.csv" "Sales" "20240101_120000".

(** The generator with the text-only sample loaded after the analysis of
    the first sample. *)
Definition reloaded : @generator pyval float64 :=
  Generator (Some skewed_frame) (analysis_of sample_frame empty_results) "temp_charts/".

(** * Proofs *)

(** ** The extension of a path *)

Section string_facts.
Implicit Types (s t : string) (sep c : ascii).

Lemma split_free sep s : free_of sep s → PyStr.split sep s = [s].
Proof.
  induction s as [|c s IH]; [done|]. intros [Hc Hs]. cbn [PyStr.split].
  rewrite decide_False by done. by rewrite IH.
Qed.

Lemma split_not_nil sep s : PyStr.split sep s ≠ [].
Proof.
  destruct s as [|c s]; [done|]. cbn [PyStr.split].
  destruct (decide (c = sep)); [done|]. by destruct (PyStr.split sep s).
Qed.

Lemma last_piece_cons p l : l ≠ [] → PyStr.last_piece (p :: l) = PyStr.last_piece l.
Proof. by destruct l. Qed.

Lemma split_app_sep sep s t :
  ∃ p l, PyStr.split sep (s +:+ String sep t) = p :: l ∧ l ≠ [] ∧
         PyStr.last_piece l = PyStr.last_piece (PyStr.split sep t).
Proof.
  induction s as [|c s (p & l & Heq & Hne & Hlast)].
  - exists EmptyString, (PyStr.split sep t).
    change (EmptyString +:+ String sep t) with (String sep t).
    cbn [PyStr.split]. rewrite decide_True by done.
    split; [done|]. split; [apply split_not_nil|done].
  - change (String c s +:+ String sep t) with (String c (s +:+ String sep t)).
    cbn [PyStr.split]. rewrite Heq. destruct (decide (c = sep)).
    + exists EmptyString, (p :: l). split; [done|]. split; [done|].
      by rewrite last_piece_cons.
    + by exists (String c p), l.
Qed.

(** For a path [stem.ext] whose [ext] has no dot, the extension that
    [load_data] infers is [ext], lowered. *)
Lemma extension_dotted stem ext :
  free_of "." ext → extension (stem +:+ String "." ext) = PyStr.lower ext.
Proof.
  intros Hfree. unfold extension.
  destruct (split_app_sep "." stem ext) as (p & l & -> & Hne & Hlast).
  rewrite last_piece_cons, Hlast by done. by rewrite split_free.
Qed.

(** For a path without a dot it is the whole path, lowered. *)
Lemma extension_undotted file_path :
  free_of "." file_path → extension file_path = PyStr.lower file_path.
Proof. intros Hfree. unfold extension. by rewrite split_free. Qed.

Example extension_upper : extension "data/sales.2024.CSV" = "csv".
Proof. reflexivity. Qed.

Example split_dots : PyStr.split "." "a.b." = ["a"; "b"; EmptyString].
Proof. reflexivity. Qed.

Example strip_line : PyStr.strip "  12 rows and " = "12 rows and".
Proof. reflexivity. Qed.

Example chart_title_overview :
  chart_title "temp_charts/overview_dashboard.png" = "Overview Dashboard".
Proof. reflexivity. Qed.

End string_facts.

#[global] Arguments head : simpl never.
#[global] Arguments value_counts : simpl never.
#[global] Arguments nunique : simpl never.
#[global] Arguments describe : simpl never.
#[global] Arguments corr : simpl never.

(** ** Counting nulls *)

Section null_count.
Context {scalar : Type}.
Implicit Types (l : list (cell scalar)) (c : column scalar) (df : DataFrame scalar).

Lemma sum_list_with_add {A} (f g : A → nat) (l : list A) :
  sum_list_with (λ x, f x + g x) l = sum_list_with f l + sum_list_with g l.
Proof. induction l as [|x l IH]; simpl; lia. Qed.

Lemma sum_list_with_ext {A} (f g : A → nat) (l : list A) :
  (∀ x, x ∈ l → f x = g x) → sum_list_with f l = sum_list_with g l.
Proof.
  induction l as [|x l IH]; intros Hfg; simpl; [done|].
  rewrite (Hfg x), IH; [done| |]; set_solver.
Qed.

Lemma sum_list_with_fmap {A B} (f : B → nat) (g : A → B) (l : list A) :
  sum_list_with f (g <$> l) = sum_list_with (f ∘ g) l.
Proof. induction l as [|x l IH]; csimpl; [done|]. by f_equal. Qed.

Lemma sum_list_with_zero {A} (l : list A) : sum_list_with (λ _, 0) l = 0.
Proof. induction l; simpl; lia. Qed.

(** Sums over rows and over columns can be exchanged. *)
Lemma sum_list_with_swap {A B} (f : A → B → nat) (la : list A) (lb : list B) :
  sum_list_with (λ a, sum_list_with (f a) lb) la =
  sum_list_with (λ b, sum_list_with (λ a, f a b) la) lb.
Proof.
  induction lb as [|b lb IH]; simpl.
  - apply sum_list_with_zero.
  - by rewrite sum_list_with_add, IH.
Qed.

Lemma nulls_by_index l k :
  sum_list_with (λ i, match l !! (i - k) with Some None => 1 | _ => 0 end)
                (seq k (length l))
  = length (filter (λ b : bool, b = true) (is_null <$> l)).
Proof.
  revert k. induction l as [|v l IH]; intros k; [done|].
  rewrite fmap_cons, filter_cons. cbn [length seq sum_list_with].
  replace (k - k) with 0 by lia.
  rewrite (sum_list_with_ext _
             (λ i, match l !! (i - S k) with Some None => 1 | _ => 0 end)).
  - rewrite (IH (S k)). destruct v; simpl; repeat case_decide; simpl; try done; lia.
  - intros i Hi. apply elem_of_seq in Hi.
    replace (i - k) with (S (i - S k)) by lia. done.
Qed.

Lemma column_nulls_scan c n :
  length (col_cells c) = n →
  sum_list_with (λ i, null_at i c) (seq 0 n) = column_nulls c.
Proof.
  intros <-. unfold column_nulls. rewrite <- (nulls_by_index _ 0).
  apply sum_list_with_ext. intros i _. unfold null_at. by rewrite Nat.sub_0_r.
Qed.

Lemma missing_values_columns df :
  series_sum (frame_sum (isnull df)) = sum_list_with column_nulls (columns df).
Proof.
  unfold series_sum, frame_sum, isnull.
  rewrite <- !list_fmap_compose.
  generalize (columns df). intros cs. induction cs as [|c cs IH]; simpl; [done|].
  unfold column_nulls at 1. by rewrite <- IH.
Qed.

Lemma missing_values_scan df :
  wf_frame df → series_sum (frame_sum (isnull df)) = scan_nulls df.
Proof.
  intros [Hlen _]. rewrite missing_values_columns. unfold scan_nulls.
  rewrite sum_list_with_swap.
  apply sum_list_with_ext. intros c Hc. symmetry. apply column_nulls_scan.
  rewrite Forall_forall in Hlen. by apply Hlen.
Qed.

End null_count.

(** ** Distinct values and their counts *)

Section counting_facts.
Context {A : Type} `{EqDecision A}.
Implicit Types (l : list A) (x : A).

Lemma elem_of_unique x l : x ∈ unique l ↔ x ∈ l.
Proof.
  induction l as [|y l IH]; simpl; [done|].
  rewrite !elem_of_cons, list_elem_of_filter, IH.
  destruct (decide (x = y)); tauto.
Qed.

Lemma NoDup_unique l : NoDup (unique l).
Proof.
  induction l as [|y l IH]; simpl; [constructor|].
  constructor.
  - rewrite list_elem_of_filter. tauto.
  - by apply NoDup_filter.
Qed.

Lemma occurrences_pos x l : x ∈ l → 0 < occurrences x l.
Proof.
  intros Hx. unfold occurrences.
  assert (x ∈ filter (λ y, y = x) l) as Hin by (by apply list_elem_of_filter).
  destruct (filter (λ y, y = x) l); [by apply elem_of_nil in Hin|simpl; lia].
Qed.

Global Instance count_ge_total : Total (@count_ge A).
Proof. intros a b. unfold count_ge. lia. Qed.

Global Instance count_ge_trans : Transitive (@count_ge A).
Proof. intros a b c. unfold count_ge. lia. Qed.

Lemma insert_count_Permutation (a : A * nat) k : insert_count a k ≡ₚ a :: k.
Proof.
  induction k as [|b k IH]; [done|]. cbn [insert_count].
  destruct (decide (a.2 < b.2)); [|done]. rewrite IH. apply Permutation_swap.
Qed.

Lemma sort_counts_Permutation (k : list (A * nat)) : sort_counts k ≡ₚ k.
Proof.
  induction k as [|a k IH]; [done|]. change (sort_counts (a :: k)) with (insert_count a (sort_counts k)).
  rewrite insert_count_Permutation. by f_equiv.
Qed.

Lemma Sorted_insert_count (a : A * nat) k :
  Sorted count_ge k → Sorted count_ge (insert_count a k).
Proof.
  induction k as [|b k IH]; intros Hs; cbn [insert_count].
  - by repeat constructor.
  - apply Sorted_inv in Hs as [Hs Hhd].
    destruct (decide (a.2 < b.2)) as [Hlt|Hge].
    + constructor; [by apply IH|].
      destruct k as [|c k]; cbn [insert_count].
      * constructor. unfold count_ge. lia.
      * destruct (decide (a.2 < c.2)).
        -- constructor. by apply HdRel_inv in Hhd.
        -- constructor. unfold count_ge. lia.
    + constructor; [by constructor|]. constructor. unfold count_ge. lia.
Qed.

Lemma Sorted_sort_counts (k : list (A * nat)) : Sorted count_ge (sort_counts k).
Proof.
  induction k as [|a k IH]; [constructor|]. change (sort_counts (a :: k)) with (insert_count a (sort_counts k)).
  by apply Sorted_insert_count.
Qed.

(** Among equal counts the value put in first stays first. *)
Lemma sort_counts_stable (k : list (A * nat)) n :
  (∀ a, a ∈ k → a.2 = n) → sort_counts k = k.
Proof.
  induction k as [|a k IH]; intros Hn; [done|]. change (sort_counts (a :: k)) with (insert_count a (sort_counts k)).
  rewrite IH by (intros b Hb; apply Hn; by right).
  destruct k as [|b k]; [done|]. cbn [insert_count].
  rewrite decide_False; [done|].
  rewrite (Hn a), (Hn b); [lia|right; left|left].
Qed.

Lemma length_count_values l : length (count_values l) = length (unique l).
Proof.
  unfold count_values. rewrite (Permutation_length (sort_counts_Permutation _)).
  apply length_fmap.
Qed.

Lemma Sorted_count_values l : Sorted count_ge (count_values l).
Proof. apply Sorted_sort_counts. Qed.

Lemma elem_of_count_values x n l :
  (x, n) ∈ count_values l ↔ x ∈ l ∧ n = occurrences x l.
Proof.
  unfold count_values. rewrite sort_counts_Permutation, list_elem_of_fmap.
  split.
  - intros (y & Heq & Hy). injection Heq as -> ->.
    split; [by apply elem_of_unique|done].
  - intros [Hx ->]. exists x. split; [done|]. by apply elem_of_unique.
Qed.

Lemma NoDup_count_values_keys l : NoDup (fst <$> count_values l).
Proof.
  unfold count_values. rewrite sort_counts_Permutation, <- list_fmap_compose.
  replace ((fst ∘ (λ x, (x, occurrences x l))) <$> unique l) with (unique l).
  - apply NoDup_unique.
  - generalize (unique l). intros k. induction k; csimpl; by f_equal.
Qed.

End counting_facts.

Lemma Sorted_take {A} (R : relation A) (l : list A) (n : nat) :
  Sorted R l → Sorted R (take n l).
Proof.
  intros Hs. revert n. induction Hs as [|x l Hs IH Hhd]; intros [|n]; simpl;
    try constructor; [apply IH|].
  destruct Hhd; destruct n; simpl; constructor; done.
Qed.

Lemma elem_of_dropna {A} (x : A) (l : list (option A)) : x ∈ dropna l ↔ Some x ∈ l.
Proof.
  unfold dropna. rewrite list_elem_of_omap. split.
  - intros (o & Ho & Hx). simpl in Hx. by subst.
  - intros Hx. by exists (Some x).
Qed.

(** ** Looking columns up by label *)

Section lookup_facts.
Context {scalar : Type}.
Implicit Types (c : column scalar) (df : DataFrame scalar).

Lemma getitem_is_Some df name :
  name ∈ labels df → ∃ c, getitem df name = Some c ∧ c ∈ columns df ∧ col_name c = name.
Proof.
  unfold labels, getitem. intros (c & -> & Hc)%list_elem_of_fmap.
  destruct (list_find_elem_of (λ c', col_name c' = col_name c) (columns df) c Hc eq_refl)
    as [[i c'] Hfind].
  rewrite Hfind. exists c'. apply list_find_Some in Hfind as (Hi & Hn & _).
  split; [done|]. split; [|done]. by eapply list_elem_of_lookup_2.
Qed.

Lemma labels_select_dtypes p df name :
  name ∈ labels (select_dtypes p df) → name ∈ labels df.
Proof.
  unfold labels, select_dtypes. simpl.
  intros (c & -> & Hc)%list_elem_of_fmap. apply list_elem_of_filter in Hc as [_ Hc].
  apply list_elem_of_fmap. by exists c.
Qed.

Lemma NoDup_labels_inj df c1 c2 :
  NoDup (labels df) → c1 ∈ columns df → c2 ∈ columns df →
  col_name c1 = col_name c2 → c1 = c2.
Proof.
  intros Hnd (i & Hi)%list_elem_of_lookup (j & Hj)%list_elem_of_lookup Heq.
  assert (i = j) as ->.
  { eapply (NoDup_lookup _ i j (col_name c1) Hnd); unfold labels;
      rewrite list_lookup_fmap; [by rewrite Hi|by rewrite Hj, Heq]. }
  congruence.
Qed.

Lemma getitem_column df c :
  wf_frame df → c ∈ columns df → getitem df (col_name c) = Some c.
Proof.
  intros [_ Hnd] Hc.
  destruct (getitem_is_Some df (col_name c)) as (c' & Hget & Hc' & Hname).
  { apply list_elem_of_fmap. by exists c. }
  rewrite Hget. f_equal. by apply (NoDup_labels_inj df).
Qed.

End lookup_facts.

(** ** Running computations *)

Section run_facts.
Context {scalar float : Type}.
Abbreviation M0 := (@M scalar float).
Abbreviation state0 := (@state scalar float).
Implicit Types (s : state0).

Lemma bind_Normal {A B} (m : M0 A) (f : A → M0 B) s a s1 :
  m s = Normal a s1 → (m ≫= f) s = f a s1.
Proof. intros Hm. unfold mbind, M_bind. by rewrite Hm. Qed.

Lemma bind_Raised {A B} (m : M0 A) (f : A → M0 B) s e s1 :
  m s = Raised e s1 → (m ≫= f) s = Raised e s1.
Proof. intros Hm. unfold mbind, M_bind. by rewrite Hm. Qed.

Lemma bind_Normal_inv {A B} (m : M0 A) (f : A → M0 B) s b s2 :
  (m ≫= f) s = Normal b s2 → ∃ a s1, m s = Normal a s1 ∧ f a s1 = Normal b s2.
Proof.
  unfold mbind, M_bind. destruct (m s) as [a s1|e s1]; [|done]. eauto.
Qed.

Lemma triple_ret {A} (P : state0 → Prop) (a : A) Qn Qe :
  (∀ s, P s → Qn a s) → triple P (mret a) Qn Qe.
Proof. intros HPQ s HP. by apply HPQ. Qed.

Lemma triple_raise {A} (P : state0 → Prop) e (Qn : A → state0 → Prop) Qe :
  (∀ s, P s → Qe e s) → triple P (raise e) Qn Qe.
Proof. intros HPQ s HP. by apply HPQ. Qed.

Lemma triple_bind {A B} P (R : A → state0 → Prop) Qn Qe (m : M0 A) (f : A → M0 B) :
  triple P m R Qe → (∀ a, triple (R a) (f a) Qn Qe) → triple P (m ≫= f) Qn Qe.
Proof.
  intros Hm Hf s HP. specialize (Hm s HP). unfold mbind, M_bind.
  destruct (m s) as [a s1|e s1]; [by apply Hf|done].
Qed.

Lemma triple_weaken {A} (P P' : state0 → Prop) (Qn Qn' : A → state0 → Prop)
    (Qe Qe' : exn → state0 → Prop) (m : M0 A) :
  triple P' m Qn' Qe' → (∀ s, P s → P' s) →
  (∀ a s, Qn' a s → Qn a s) → (∀ e s, Qe' e s → Qe e s) → triple P m Qn Qe.
Proof.
  intros Hm HP HQn HQe s Hs. specialize (Hm s (HP s Hs)).
  destruct (m s); auto.
Qed.

Lemma triple_pure_pre {A} (φ : Prop) (P : state0 → Prop) (m : M0 A) Qn Qe :
  (φ → triple P m Qn Qe) → triple (λ s, φ ∧ P s) m Qn Qe.
Proof. intros Hm s [Hφ HP]. by apply Hm. Qed.

Lemma triple_false {A} (m : M0 A) Qn Qe : triple (λ _, False) m Qn Qe.
Proof. by intros s []. Qed.

Lemma triple_for_each {A} (J : state0 → Prop) Qe (l : list A) (body : A → M0 ()) :
  (∀ x, x ∈ l → triple J (body x) (λ _, J) Qe) →
  triple J (for_each l body) (λ _, J) Qe.
Proof.
  induction l as [|x l IH]; intros Hbody; cbn [for_each].
  - by apply triple_ret.
  - eapply triple_bind; [apply Hbody; set_solver|]. intros []. apply IH.
    intros y Hy. apply Hbody. set_solver.
Qed.

Lemma triple_get_self P (Qn : generator → state0 → Prop) Qe :
  (∀ s, P s → Qn s.1 s) → triple P get_self Qn Qe.
Proof. intros HPQ s HP. by apply HPQ. Qed.

Lemma triple_get_world P (Qn : world → state0 → Prop) Qe :
  (∀ s, P s → Qn s.2 s) → triple P get_world Qn Qe.
Proof. intros HPQ s HP. by apply HPQ. Qed.

End run_facts.

(** ** What [analyze_data] computes *)

Section analysis_facts.
Context `{Pandas scalar float}.
Implicit Types (df : DataFrame scalar) (g : @generator scalar float)
  (w : @world scalar float).

Lemma set_categorical_run col entry g w m :
  categorical_summary (analysis_results g) = Some m →
  set_categorical col entry (g, w)
  = Normal ()
      (Generator (data g)
         (Results (basic_stats (analysis_results g)) (numeric_summary (analysis_results g))
                  (correlations (analysis_results g)) (Some (<[col := entry]> m)))
         (charts_path g), w).
Proof.
  intros Hm. unfold set_categorical, mbind, M_bind, get_self. cbn [fst snd].
  by rewrite Hm.
Qed.

Lemma fill_categorical_run df cols g w m :
  categorical_summary (analysis_results g) = Some m →
  (∀ col, col ∈ cols → is_Some (getitem df col)) →
  for_each cols (λ col,
      c ← getitem_or_raise df col;
      set_categorical col
        (CatEntry (nunique (col_cells c)) (head 5 (value_counts (col_cells c)))))
    (g, w)
  = Normal ()
      (Generator (data g)
         (Results (basic_stats (analysis_results g)) (numeric_summary (analysis_results g))
                  (correlations (analysis_results g))
                  (Some (fill_categorical df cols m)))
         (charts_path g), w).
Proof.
  revert g m. induction cols as [|col cols IH]; intros g m Hm Hcols.
  - cbn [for_each]. unfold mret, M_ret, fill_categorical. cbn [foldl].
    destruct g as [d [b n co ca] p]. cbn in *. by subst.
  - destruct (Hcols col) as [c Hc]; [set_solver|].
    cbn [for_each].
    erewrite bind_Normal; last first.
    { unfold getitem_or_raise. rewrite Hc.
      erewrite bind_Normal; [|reflexivity]. by apply set_categorical_run. }
    rewrite IH with (m := <[col := cat_entry_of c]> m); [|done|set_solver].
    unfold fill_categorical. cbn [foldl data analysis_results charts_path
      basic_stats numeric_summary correlations]. by rewrite Hc.
Qed.

Lemma set_results_run (f : results → results) g w :
  set_results f (g, w)
  = Normal () (Generator (data g) (f (analysis_results g)) (charts_path g), w).
Proof. done. Qed.

Lemma analyze_data_loaded g w df :
  data g = Some df →
  analyze_data (g, w)
  = Normal true (Generator (Some df) (analysis_of df (analysis_results g)) (charts_path g), w).
Proof.
  intros Hdata. unfold analyze_data, analysis_of.
  erewrite bind_Normal; [|reflexivity]. cbn [fst]. rewrite Hdata.
  erewrite bind_Normal; [|apply set_results_run]. rewrite Hdata.
  assert (∀ col, col ∈ labels (select_dtypes is_object df) → is_Some (getitem df col))
    as Hcols.
  { intros col Hcol%labels_select_dtypes.
    destruct (getitem_is_Some df col Hcol) as (c & -> & _). eauto. }
  destruct (decide (0 < length (labels (select_dtypes is_number df)))) as [Hn|Hn];
    destruct (decide (0 < length (labels (select_dtypes is_object df)))) as [Hc|Hc].
  - erewrite bind_Normal; last first.
    { erewrite bind_Normal; [|apply set_results_run]. apply set_results_run. }
    erewrite bind_Normal; last first.
    { erewrite bind_Normal; [|apply set_results_run].
      apply fill_categorical_run; [reflexivity|done]. }
    done.
  - erewrite bind_Normal; last first.
    { erewrite bind_Normal; [|apply set_results_run]. apply set_results_run. }
    erewrite bind_Normal; [|reflexivity]. done.
  - erewrite bind_Normal; [|reflexivity].
    erewrite bind_Normal; last first.
    { erewrite bind_Normal; [|apply set_results_run].
      apply fill_categorical_run; [reflexivity|done]. }
    done.
  - erewrite bind_Normal; [|reflexivity].
    erewrite bind_Normal; [|reflexivity].
    unfold mret, M_ret. destruct g as [d [b n co ca] p]. cbn in *. by subst.
Qed.

Lemma fill_categorical_lookup df cols m name :
  (∀ col, col ∈ cols → is_Some (getitem df col)) →
  fill_categorical df cols m !! name
  = if decide (name ∈ cols) then cat_entry_of <$> getitem df name else m !! name.
Proof.
  revert m. induction cols as [|col cols IH]; intros m Hcols.
  - destruct (decide (name ∈ [])) as [Hin|_]; [by apply elem_of_nil in Hin|done].
  - destruct (Hcols col) as [c Hc]; [set_solver|].
    unfold fill_categorical in *. cbn [foldl]. rewrite Hc, IH by set_solver.
    destruct (decide (name = col)) as [->|Hne].
    + rewrite Hc, lookup_insert_eq.
      destruct (decide (col ∈ cols)), (decide (col ∈ col :: cols)); set_solver.
    + rewrite lookup_insert_ne by done.
      destruct (decide (name ∈ cols)), (decide (name ∈ col :: cols)); set_solver.
Qed.

End analysis_facts.

(** ** What [generate_charts] does *)

Section chart_facts.
Context `{Pandas scalar float}.
Implicit Types (df : DataFrame scalar) (g : @generator scalar float)
  (w : @world scalar float) (E : @env scalar float).

Lemma triple_at {A} (s : @state scalar float) (m : M A) Qn Qe :
  triple (λ s', s' = s) m Qn Qe ↔
  match m s with Normal a s' => Qn a s' | Raised e s' => Qe e s' end.
Proof.
  split; [intros Hm; by apply Hm|]. by intros Hm s' ->.
Qed.

Lemma charts_inv_init g w : charts_inv g w [] (g, w).
Proof. unfold charts_inv. cbn. set_solver. Qed.

Lemma triple_plot E g w saved c :
  triple (charts_inv g w saved) (plot E c)
         (λ _, charts_inv g w saved) (charts_exc E g w).
Proof.
  intros [g' w'] Hinv. unfold plot.
  destruct (plot_raises E c) as [e|] eqn:Hc.
  - cbn. split; [|by exists saved]. intros Hok. by rewrite Hok in Hc.
  - exact Hinv.
Qed.

Lemma triple_savefig E g w saved p :
  triple (charts_inv g w saved) (savefig E p)
         (λ _, charts_inv g w (saved ++ [p])) (charts_exc E g w).
Proof.
  unfold savefig. eapply triple_bind; [apply triple_plot|]. intros [].
  intros [g' w'] (Hg & Hout & Hwr & Hsaved & Hfs). cbn in *.
  unfold charts_inv. cbn. repeat split; try done.
  - intros q. rewrite elem_of_app, list_elem_of_singleton.
    intros [Hq| ->]; [specialize (Hsaved q Hq)|]; set_solver.
  - rewrite list_to_set_app_L. set_solver.
Qed.

Lemma triple_getitem df col (P : @state scalar float → Prop) Qe :
  col ∈ labels df → triple P (getitem_or_raise df col) (λ _, P) Qe.
Proof.
  intros Hcol s HP. unfold getitem_or_raise.
  by destruct (getitem_is_Some df col Hcol) as (c & -> & _).
Qed.

End chart_facts.

(** One plotting or saving step of [generate_charts]. *)
Ltac chart_step :=
  first
    [ eapply triple_bind; [apply triple_plot|intros []]
    | eapply triple_bind; [apply triple_savefig|intros []] ].

Section chart_run.
Context `{Pandas scalar float}.
Implicit Types (df : DataFrame scalar) (g : @generator scalar float)
  (w : @world scalar float) (E : @env scalar float).

Lemma generate_charts_triple E g w df :
  data g = Some df →
  triple (λ s, s = (g, w)) (generate_charts E)
    (λ chart_files s',
       chart_files = charts_for g (numeric_count df) (categorical_count df) ∧
       charts_inv g w chart_files s')
    (charts_exc E g w).
Proof.
  intros Hdata. apply triple_at. unfold generate_charts.
  unfold mbind at 1, M_bind at 1, get_self. cbn [fst]. rewrite Hdata.
  apply triple_at.
  eapply triple_weaken with (P' := charts_inv g w []);
    [|intros ? ->; apply charts_inv_init|intros ? ? Hq; exact Hq|intros ? ? Hq; exact Hq].
  do 3 chart_step.
  eapply triple_bind with (R := λ _, charts_inv g w []).
  { destruct (decide (0 < series_sum (frame_sum (isnull df)))).
    - chart_step. apply triple_plot.
    - chart_step. apply triple_plot. }
  intros []. do 2 chart_step.
  eapply triple_bind with (R := λ _, charts_inv g w []).
  { destruct (decide (0 < length (labels (select_dtypes is_number df)))).
    - chart_step. apply triple_plot.
    - by apply triple_ret. }
  intros []. do 9 chart_step.
  eapply triple_bind with
    (R := λ chart_files s',
            chart_files = [overview_dashboard g]
              ++ (if decide (2 ≤ numeric_count df) then [correlation_matrix g] else []) ∧
            charts_inv g w chart_files s').
  { unfold numeric_count.
    destruct (decide (1 < length (labels (select_dtypes is_number df))));
      destruct (decide (2 ≤ length (labels (select_dtypes is_number df))));
      try lia.
    - do 6 chart_step. by apply triple_ret.
    - by apply triple_ret. }
  intros chart_files. apply triple_pure_pre. intros ->.
  eapply triple_bind with
    (R := λ chart_files s',
            chart_files = charts_for g (numeric_count df) (categorical_count df) ∧
            charts_inv g w chart_files s').
  { unfold charts_for, categorical_count.
    set (chart_files := [overview_dashboard g] ++
           (if decide (2 ≤ numeric_count df) then [correlation_matrix g] else [])).
    destruct (decide (0 < length (labels (select_dtypes is_object df))));
      destruct (decide (1 ≤ length (labels (select_dtypes is_object df))));
      try lia.
    - do 2 chart_step.
      eapply triple_bind with (R := λ _, charts_inv g w chart_files).
      { apply triple_for_each. intros [i col] Hcol.
        eapply triple_bind with (R := λ _, charts_inv g w chart_files).
        - apply triple_getitem.
          apply elem_of_lookup_imap in Hcol as (j & col' & [= -> ->] & Hj).
          apply list_elem_of_lookup_2, subseteq_take in Hj.
          by apply labels_select_dtypes in Hj.
        - intros c. do 2 chart_step. apply triple_plot. }
      intros [].
      eapply triple_bind with (R := λ _, charts_inv g w chart_files).
      { apply triple_for_each. intros i _. apply triple_plot. }
      intros []. do 3 chart_step. apply triple_ret. intros s Hinv.
      split; [|done]. subst chart_files. by rewrite <- app_assoc.
    - apply triple_ret. intros s Hinv. rewrite !app_nil_r. done. }
  intros cf. by apply triple_ret.
Qed.

End chart_run.

(** ** Geometry of the FPDF operations *)

Section pdf_facts.
Implicit Types (pdf : FPDF) (n : nat) (y h : Z) (b : block).
Local Open Scope Z_scope.

Lemma page_no_put b pdf : PDF.page_no (PDF.put b pdf) = PDF.page_no pdf.
Proof. unfold PDF.page_no, PDF.put. cbn [pages]. apply length_alter. Qed.

Lemma fits_add_page pdf n :
  PDF.page_no pdf = n → page_break_trigger pdf = 282 →
  fits (PDF.add_page pdf) (S n) 10.
Proof.
  intros <- Htr. unfold fits, PDF.add_page, PDF.page_no. cbn.
  rewrite length_app. cbn. split; [lia|]. split; [done|done].
Qed.

Lemma fits_weaken pdf n y y' : fits pdf n y → y ≤ y' → fits pdf n y'.
Proof. intros (Hn & Hy & Htr) Hle. repeat split; [done|lia|done]. Qed.

Lemma fits_cell pdf n y y' h txt :
  fits pdf n y → y' = y + h → y' ≤ 282 → fits (PDF.cell h txt pdf) n y'.
Proof.
  intros (Hn & Hy & Htr) -> Hle. unfold PDF.cell.
  destruct (decide (cur_y pdf + h > page_break_trigger pdf)) as [Hbreak|_]; [exfalso; lia|].
  unfold fits, PDF.page_no, PDF.put in *. cbn [pages cur_y page_break_trigger].
  rewrite length_alter. repeat split; [done|lia|done].
Qed.

Lemma fits_ln pdf n y y' h : fits pdf n y → y' = y + h → fits (PDF.ln h pdf) n y'.
Proof. intros (Hn & Hy & Htr) ->. unfold fits, PDF.ln, PDF.page_no in *. cbn. lia. Qed.

Lemma fits_image pdf n y path at_y : fits pdf n y → fits (PDF.image path at_y pdf) n y.
Proof.
  intros (Hn & Hy & Htr). unfold PDF.image, fits.
  rewrite page_no_put. done.
Qed.

Lemma fits_page_no pdf n y : fits pdf n y → PDF.page_no pdf = n.
Proof. by intros [? _]. Qed.

Lemma fits_trigger pdf n y : fits pdf n y → page_break_trigger pdf = 282.
Proof. by intros (_ & _ & ?). Qed.

(** *** Blocks stay on the document *)

Lemma keeps_blocks_id : keeps_blocks id.
Proof. by intros b pdf. Qed.

Lemma keeps_blocks_compose f1 f2 :
  keeps_blocks f1 → keeps_blocks f2 → keeps_blocks (f2 ∘ f1).
Proof. intros H1 H2 b pdf Hb. by apply H2, H1. Qed.

Lemma concat_alter_last (ps : list page) b :
  ps ≠ [] →
  concat (alter (λ pg, pg ++ [b]) (length ps - 1)%nat ps) = concat ps ++ [b].
Proof.
  intros Hne. destruct (decide (ps = [])) as [|_]; [done|].
  induction ps as [|pg ps IH] using rev_ind; [done|].
  rewrite length_app. cbn [length].
  replace (length ps + 1 - 1)%nat with (length ps + 0)%nat by lia.
  rewrite alter_app_r. cbn. rewrite !concat_app. cbn.
  by rewrite !app_nil_r, app_assoc.
Qed.

Lemma has_block_put b b' pdf : has_block b pdf → has_block b (PDF.put b' pdf).
Proof.
  unfold has_block, PDF.put. cbn [pages]. intros Hb.
  destruct (decide (pages pdf = [])) as [Hnil|Hne].
  - rewrite Hnil in Hb. cbn in Hb. by apply elem_of_nil in Hb.
  - rewrite concat_alter_last by done. set_solver.
Qed.

Lemma has_block_put_new b pdf : (0 < PDF.page_no pdf)%nat → has_block b (PDF.put b pdf).
Proof.
  unfold has_block, PDF.put, PDF.page_no. cbn [pages]. intros Hpos.
  rewrite concat_alter_last; [set_solver|]. intros Hnil. rewrite Hnil in Hpos.
  cbn in Hpos. lia.
Qed.

Lemma has_block_add_page b pdf : has_block b pdf → has_block b (PDF.add_page pdf).
Proof.
  unfold has_block, PDF.add_page. cbn [pages]. rewrite concat_app. set_solver.
Qed.

Lemma keeps_blocks_add_page : keeps_blocks PDF.add_page.
Proof. intros b pdf. apply has_block_add_page. Qed.

Lemma keeps_blocks_cell h txt : keeps_blocks (PDF.cell h txt).
Proof.
  intros b pdf Hb. unfold PDF.cell.
  destruct (decide (cur_y pdf + h > page_break_trigger pdf)).
  - unfold has_block. cbn [pages].
    by apply (has_block_put b (Cell h txt) (PDF.add_page pdf)), has_block_add_page.
  - unfold has_block. cbn [pages]. by apply (has_block_put b (Cell h txt) pdf).
Qed.

Lemma keeps_blocks_ln h : keeps_blocks (PDF.ln h).
Proof. by intros b pdf Hb. Qed.

Lemma keeps_blocks_image path at_y : keeps_blocks (PDF.image path at_y).
Proof. intros b pdf Hb. by apply has_block_put. Qed.

Lemma has_block_cell_new h txt pdf :
  (0 < PDF.page_no pdf)%nat → has_block (Cell h txt) (PDF.cell h txt pdf).
Proof.
  intros Hpos. unfold PDF.cell.
  destruct (decide (cur_y pdf + h > page_break_trigger pdf)).
  - unfold has_block. cbn [pages].
    apply (has_block_put_new (Cell h txt) (PDF.add_page pdf)).
    unfold PDF.page_no, PDF.add_page. cbn. rewrite length_app. cbn. lia.
  - unfold has_block. cbn [pages]. by apply (has_block_put_new (Cell h txt) pdf).
Qed.

Lemma keeps_blocks_foldl {A} (f : FPDF → A → FPDF) (l : list A) :
  (∀ x, keeps_blocks (λ pdf, f pdf x)) → keeps_blocks (λ pdf, foldl f pdf l).
Proof.
  intros Hf. induction l as [|x l IH]; intros b pdf Hb; cbn [foldl]; [done|].
  apply IH. by apply (Hf x).
Qed.

(** A loop whose body moves the cursor down by at most [k] and stays on
    the page. *)
Lemma fits_foldl {A} (f : FPDF → A → FPDF) (k : Z) (l : list A) pdf n y :
  (∀ pdf x y, fits pdf n y → y + k ≤ 282 → fits (f pdf x) n (y + k)) →
  0 ≤ k → fits pdf n y → y + k * Z.of_nat (length l) ≤ 282 →
  fits (foldl f pdf l) n (y + k * Z.of_nat (length l)).
Proof.
  intros Hf Hk. revert pdf y. induction l as [|x l IH]; intros pdf y Hfit Hle.
  - eapply fits_weaken; [done|]. cbn [length]. lia.
  - change (foldl f pdf (x :: l)) with (foldl f (f pdf x) l).
    cbn [length] in *.
    replace (y + k * Z.of_nat (S (length l)))
      with ((y + k) + k * Z.of_nat (length l)) in * by lia.
    apply IH; [|done]. apply Hf; [done|nia].
Qed.

End pdf_facts.

(** ** The document that [generate_pdf_report] builds *)

Section report_facts.
Context `{Pandas scalar float}.
Variable E : @env scalar float.
Implicit Types (pdf : FPDF) (r : @results scalar float) (exist : gset string).
Local Open Scope Z_scope.

Lemma fits_summary_lines (lines : list string) pdf n y :
  fits pdf n y → y + 6 * Z.of_nat (length lines) ≤ 282 →
  fits (foldl (λ pdf line,
                 if decide (PyStr.strip line ≠ EmptyString)
                 then PDF.cell 6 (PyStr.strip line) pdf else pdf) pdf lines)
       n (y + 6 * Z.of_nat (length lines)).
Proof.
  apply fits_foldl; [|lia]. intros pdf' line y' Hfit Hle.
  destruct (decide (PyStr.strip line ≠ EmptyString)).
  - eapply fits_cell; [done|done|lia].
  - eapply fits_weaken; [done|lia].
Qed.

Lemma fits_title_page generated_on report_title r pdf n :
  PDF.page_no pdf = n → page_break_trigger pdf = 282 →
  fits (title_page generated_on report_title r pdf) (S n) 132.
Proof.
  intros Hn Htr. unfold title_page.
  eapply fits_weaken.
  - apply fits_summary_lines.
    + eapply fits_cell; [|reflexivity|].
      * eapply fits_ln; [|reflexivity].
        eapply fits_cell; [|reflexivity|].
        -- eapply fits_cell; [|reflexivity|].
           ++ eapply fits_cell; [|reflexivity|].
              ** by apply fits_add_page.
              ** lia.
           ++ lia.
        -- lia.
      * lia.
    + cbn. lia.
  - cbn. lia.
Qed.

Lemma fits_overview_page r pdf n :
  PDF.page_no pdf = n → page_break_trigger pdf = 282 →
  fits (overview_page r pdf) (S n) 44.
Proof.
  intros Hn Htr. unfold overview_page.
  eapply fits_weaken.
  - eapply fits_cell; [|reflexivity|].
    + eapply fits_cell; [|reflexivity|].
      * eapply fits_cell; [|reflexivity|].
        -- eapply fits_cell; [|reflexivity|].
           ++ by apply fits_add_page.
           ++ lia.
        -- lia.
      * lia.
    + lia.
  - lia.
Qed.

(** One chart: a page more when the file exists and is not the first, and
    room for the next one. *)
Lemma fits_add_chart exist i chart_path pdf n y :
  fits pdf n y → (i = 0%nat → y ≤ 262) →
  ∃ y', fits (add_chart E exist i chart_path pdf)
             (n + (if decide (chart_path ∈ exist ∧ (0 < i)%nat) then 1 else 0))%nat y'.
Proof.
  intros Hfit Hy. unfold add_chart.
  destruct (decide (chart_path ∈ exist)) as [Hex|Hex].
  - destruct (decide (0 < i)%nat) as [Hi|Hi].
    + rewrite decide_True by done. replace (n + 1)%nat with (S n) by lia.
      assert (fits (PDF.cell 10 (chart_title chart_path) (PDF.add_page pdf)) (S n) 20)
        as Hcell.
      { eapply fits_cell;
          [apply fits_add_page; [by eapply fits_page_no|by eapply fits_trigger]|lia|lia]. }
      destruct (image_raises E chart_path).
      * exists 30. eapply fits_cell; [done|reflexivity|lia].
      * exists 20. by apply fits_image.
    + rewrite decide_False by tauto. replace (n + 0)%nat with n by lia.
      assert (i = 0%nat) as Hi0 by lia. specialize (Hy Hi0).
      assert (fits (PDF.cell 10 (chart_title chart_path) pdf) n (y + 10)) as Hcell.
      { eapply fits_cell; [done|reflexivity|lia]. }
      destruct (image_raises E chart_path).
      * exists (y + 10 + 10). eapply fits_cell; [done|reflexivity|lia].
      * exists (y + 10). by apply fits_image.
  - rewrite decide_False by tauto. replace (n + 0)%nat with n by lia. by exists y.
Qed.

Lemma fits_add_charts exist chart_files i pdf n y :
  fits pdf n y → (i = 0%nat → y ≤ 262) →
  ∃ y', fits (add_charts E exist i chart_files pdf)
             (n + chart_pages exist i chart_files)%nat y'.
Proof.
  revert i pdf n y. induction chart_files as [|p rest IH]; intros i pdf n y Hfit Hy.
  - cbn. exists y. by replace (n + 0)%nat with n by lia.
  - cbn [add_charts chart_pages].
    destruct (fits_add_chart exist i p pdf n y Hfit Hy) as [y1 H1].
    destruct (IH (S i) _ _ y1 H1) as [y2 H2]; [lia|].
    exists y2. by rewrite Nat.add_assoc.
Qed.

Lemma chart_pages_later exist i chart_files :
  (∀ p, p ∈ chart_files → p ∈ exist) →
  chart_pages exist (S i) chart_files = length chart_files.
Proof.
  revert i. induction chart_files as [|p rest IH]; intros i Hex; [done|].
  cbn [chart_pages length]. rewrite IH by set_solver.
  rewrite decide_True; [done|]. split; [set_solver|lia].
Qed.

Lemma chart_pages_all exist chart_files :
  (∀ p, p ∈ chart_files → p ∈ exist) →
  chart_pages exist 0 chart_files = (length chart_files - 1)%nat.
Proof.
  destruct chart_files as [|p rest]; intros Hex; [done|].
  cbn [chart_pages length]. rewrite chart_pages_later by set_solver.
  rewrite decide_False by lia. lia.
Qed.

Lemma fits_stat_lines (summary_df : @stat_frame float) col (stats : list string) pdf n y :
  fits pdf n y → y + 6 * Z.of_nat (length stats) ≤ 282 →
  fits (foldl (λ pdf stat,
                 if decide (stat ∈ sf_index summary_df)
                 then PDF.cell 6 (PyStr.title stat +:+ ": "
                                    +:+ fmt_2f (sf_loc summary_df stat col)) pdf
                 else pdf) pdf stats)
       n (y + 6 * Z.of_nat (length stats)).
Proof.
  apply fits_foldl; [|lia]. intros pdf' stat y' Hfit Hle.
  destruct (decide (stat ∈ sf_index summary_df)).
  - eapply fits_cell; [done|done|lia].
  - eapply fits_weaken; [done|lia].
Qed.

Lemma fits_stat_columns (summary_df : @stat_frame float) (cols : list string) pdf n y :
  fits pdf n y → y + 37 * Z.of_nat (length cols) ≤ 282 →
  fits (foldl (λ pdf col,
                 let pdf := PDF.ln 5 pdf in
                 let pdf := PDF.cell 8 ("Column: " +:+ col) pdf in
                 foldl (λ pdf stat,
                          if decide (stat ∈ sf_index summary_df)
                          then PDF.cell 6 (PyStr.title stat +:+ ": "
                                             +:+ fmt_2f (sf_loc summary_df stat col)) pdf
                          else pdf)
                       pdf ["mean"; "std"; "min"; "max"])
              pdf cols)
       n (y + 37 * Z.of_nat (length cols)).
Proof.
  apply fits_foldl; [|lia]. intros pdf' col y' Hfit Hle. cbv zeta.
  eapply fits_weaken.
  - apply fits_stat_lines.
    + eapply fits_cell; [|reflexivity|].
      * eapply fits_ln; [done|reflexivity].
      * lia.
    + cbn [length]. lia.
  - cbn [length]. lia.
Qed.

Lemma fits_stats_page r pdf n y :
  fits pdf n y →
  ∃ y', fits (stats_page r pdf)
             (n + (if has_key (numeric_summary r) then 1 else 0))%nat y'.
Proof.
  intros Hfit. unfold stats_page. destruct (numeric_summary r) as [summary_df|]; cbn [has_key].
  - eexists. replace (n + 1)%nat with (S n) by lia.
    apply fits_stat_columns.
    + eapply fits_cell; [|reflexivity|].
      * apply fits_add_page; [by eapply fits_page_no|by eapply fits_trigger].
      * lia.
    + rewrite length_take. lia.
  - exists y. by replace (n + 0)%nat with n by lia.
Qed.

(** *** What is put on the document stays on it *)

Lemma keeps_blocks_add_chart exist i chart_path :
  keeps_blocks (add_chart E exist i chart_path).
Proof.
  intros b pdf Hb. unfold add_chart.
  destruct (decide (chart_path ∈ exist)); [|done].
  assert (has_block b (PDF.cell 10 (chart_title chart_path)
                         (if decide (0 < i)%nat then PDF.add_page pdf else pdf))) as Hcell.
  { apply keeps_blocks_cell. destruct (decide (0 < i)%nat); [|done].
    by apply has_block_add_page. }
  destruct (image_raises E chart_path).
  - by apply keeps_blocks_cell.
  - by apply keeps_blocks_image.
Qed.

Lemma keeps_blocks_add_charts exist chart_files i :
  keeps_blocks (add_charts E exist i chart_files).
Proof.
  revert i. induction chart_files as [|p rest IH]; intros i b pdf Hb; cbn [add_charts].
  - done.
  - by apply IH, keeps_blocks_add_chart.
Qed.

Lemma keeps_blocks_stats_page r : keeps_blocks (stats_page r).
Proof.
  intros b pdf Hb. unfold stats_page. destruct (numeric_summary r) as [summary_df|]; [|done].
  apply (keeps_blocks_foldl
           (λ pdf col,
              let pdf := PDF.ln 5 pdf in
              let pdf := PDF.cell 8 ("Column: " +:+ col) pdf in
              foldl (λ pdf stat,
                       if decide (stat ∈ sf_index summary_df)
                       then PDF.cell 6 (PyStr.title stat +:+ ": "
                                          +:+ fmt_2f (sf_loc summary_df stat col)) pdf
                       else pdf)
                    pdf ["mean"; "std"; "min"; "max"])).
  - intros col b' pdf' Hb'. cbv zeta.
    apply (keeps_blocks_foldl
             (λ pdf stat,
                if decide (stat ∈ sf_index summary_df)
                then PDF.cell 6 (PyStr.title stat +:+ ": "
                                   +:+ fmt_2f (sf_loc summary_df stat col)) pdf
                else pdf)).
    + intros stat b'' pdf'' Hb''. destruct (decide (stat ∈ sf_index summary_df)); [|done].
      by apply keeps_blocks_cell.
    + by apply keeps_blocks_cell, keeps_blocks_ln.
  - by apply keeps_blocks_cell, has_block_add_page.
Qed.

(** The chart that exists gets its image or, when the image cannot be
    embedded, its notice. *)
Lemma add_chart_block exist i chart_path pdf n y :
  fits pdf n y → (0 < n)%nat → (i = 0%nat → y ≤ 262) → chart_path ∈ exist →
  ∃ b, chart_block E chart_path b ∧ has_block b (add_chart E exist i chart_path pdf).
Proof.
  intros Hfit Hn Hy Hex. unfold add_chart, chart_block.
  rewrite decide_True by done.
  assert (∃ n' y', fits (PDF.cell 10 (chart_title chart_path)
                           (if decide (0 < i)%nat then PDF.add_page pdf else pdf)) n' y'
                   ∧ (0 < n')%nat) as (n' & y' & Hcell & Hn').
  { destruct (decide (0 < i)%nat) as [Hi|Hi].
    - exists (S n), 20. split; [|lia].
      eapply fits_cell;
        [apply fits_add_page; [by eapply fits_page_no|by eapply fits_trigger]|lia|lia].
    - exists n, (y + 10). split; [|done].
      eapply fits_cell; [done|reflexivity|]. assert (i = 0%nat) as Hi0 by lia.
      specialize (Hy Hi0). lia. }
  destruct (image_raises E chart_path).
  - eexists. split; [reflexivity|]. unfold image_notice. apply has_block_cell_new.
    by rewrite (fits_page_no _ _ _ Hcell).
  - eexists. split; [by eexists|]. unfold PDF.image. apply has_block_put_new.
    by rewrite (fits_page_no _ _ _ Hcell).
Qed.

Lemma add_charts_block exist chart_files i pdf n y p :
  fits pdf n y → (0 < n)%nat → (i = 0%nat → y ≤ 262) →
  p ∈ chart_files → p ∈ exist →
  ∃ b, chart_block E p b ∧ has_block b (add_charts E exist i chart_files pdf).
Proof.
  revert i pdf n y. induction chart_files as [|q rest IH];
    intros i pdf n y Hfit Hn Hy Hp Hex; [by apply elem_of_nil in Hp|].
  cbn [add_charts]. apply elem_of_cons in Hp as [->|Hp].
  - destruct (add_chart_block exist i q pdf n y Hfit Hn Hy Hex) as (b & Hb & Hhas).
    exists b. split; [done|]. by apply keeps_blocks_add_charts.
  - destruct (fits_add_chart exist i q pdf n y Hfit Hy) as [y1 H1].
    eapply (IH (S i) _ _ y1 H1); [lia|lia|done|done].
Qed.

Lemma build_pdf_chart_block generated_on report_title r exist chart_files p :
  p ∈ chart_files → p ∈ exist →
  ∃ b, chart_block E p b ∧ has_block b (build_pdf E generated_on report_title r exist chart_files).
Proof.
  intros Hp Hex. unfold build_pdf.
  pose proof (fits_title_page generated_on report_title r (PDF.set_auto_page_break 15 PDF.FPDF_new) 0
                eq_refl eq_refl) as H1.
  pose proof (fits_overview_page r _ _ (fits_page_no _ _ _ H1) (fits_trigger _ _ _ H1)) as H2.
  destruct (add_charts_block exist chart_files 0 _ _ _ p H2) as (b & Hb & Hhas);
    [lia|lia|done|done|].
  exists b. split; [done|]. by apply keeps_blocks_stats_page.
Qed.

(** The number of pages of the document, whatever the chart files are. *)
Lemma page_no_build_pdf generated_on report_title r exist chart_files :
  PDF.page_no (build_pdf E generated_on report_title r exist chart_files)
  = (2 + chart_pages exist 0 chart_files + (if has_key (numeric_summary r) then 1 else 0))%nat.
Proof.
  unfold build_pdf.
  pose proof (fits_title_page generated_on report_title r (PDF.set_auto_page_break 15 PDF.FPDF_new) 0
                eq_refl eq_refl) as H1.
  pose proof (fits_overview_page r _ _ (fits_page_no _ _ _ H1) (fits_trigger _ _ _ H1)) as H2.
  destruct (fits_add_charts exist chart_files 0 _ _ _ H2) as [y3 H3]; [lia|].
  destruct (fits_stats_page r _ _ _ H3) as [y4 H4].
  by apply fits_page_no in H4.
Qed.

End report_facts.

(** ** Runs of [load_data] and [generate_pdf_report] *)

Section pipeline_facts.
Context `{Pandas scalar float}.
Implicit Types (df : DataFrame scalar) (g : @generator scalar float)
  (w : @world scalar float) (E : @env scalar float).

Lemma load_data_run E file_path file_type g w :
  load_data E file_path file_type (g, w)
  = match reader_for (resolved_type file_path file_type) with
    | None =>
        Normal false
          (g, printed ("Error loading data: " +:+ "Unsupported file type: "
                         +:+ resolved_type file_path file_type) w)
    | Some r =>
        match read_file E r file_path with
        | inl e => Normal false (g, printed ("Error loading data: " +:+ exn_msg e) w)
        | inr df =>
            Normal true
              (Generator (Some df) (analysis_results g) (charts_path g),
               printed ("Data loaded successfully: " +:+ pretty (len df) +:+ " rows, "
                          +:+ pretty (ncols df) +:+ " columns") w)
        end
    end.
Proof.
  unfold load_data, try_except, reader_for, resolved_type, extension.
  set (ft := if decide (file_type = "auto")
             then PyStr.lower (PyStr.last_piece (PyStr.split "." file_path))
             else file_type).
  unfold mbind, M_bind, read.
  destruct (decide (ft ∈ ["csv"])).
  { destruct (read_file E ReadCsv file_path); reflexivity. }
  destruct (decide (ft ∈ ["xlsx"; "xls"])).
  { destruct (read_file E ReadExcel file_path); reflexivity. }
  destruct (decide (ft = "json")).
  { destruct (read_file E ReadJson file_path); reflexivity. }
  reflexivity.
Qed.

Lemma reader_for_None ft :
  ft ∉ ["csv"; "xlsx"; "xls"; "json"] → reader_for ft = None.
Proof.
  intros Hft. unfold reader_for.
  repeat (destruct (decide _) as [Hin|_]; [exfalso; set_solver|]). done.
Qed.

Lemma cleanup_step (p : string) g w :
  (path_exists p ≫= λ ex : bool, if ex then os_remove p else mret ()) (g, w)
  = Normal () (g, World (fs w ∖ {[p]}) (stdout w) (drawn w) (written w) (clock w)).
Proof.
  unfold path_exists, mbind, M_bind, get_world. cbn [snd mret M_ret].
  destruct (bool_decide (p ∈ fs w)) eqn:Hp.
  - reflexivity.
  - apply bool_decide_eq_false in Hp. destruct w as [f o d wr ck]. cbn in *.
    do 3 f_equal. set_solver.
Qed.

Lemma cleanup_run (chart_files : list string) g w :
  for_each chart_files (λ chart_path,
      path_exists chart_path ≫= λ ex : bool,
      if ex then os_remove chart_path else mret ()) (g, w)
  = Normal ()
      (g, World (fs w ∖ list_to_set chart_files) (stdout w) (drawn w) (written w)
                (clock w)).
Proof.
  revert w. induction chart_files as [|p rest IH]; intros w.
  - cbn. unfold mret, M_ret. do 2 f_equal. destruct w as [f o d wr ck]. cbn.
    f_equal. set_solver.
  - cbn [for_each]. erewrite bind_Normal; [|apply cleanup_step].
    rewrite IH. cbn. do 3 f_equal. set_solver.
Qed.

(** [generate_pdf_report] in terms of the outcome of [generate_charts]
    and of the writer. *)
Lemma generate_pdf_report_run E output_path report_title (s : @state scalar float) :
  generate_pdf_report E output_path report_title s
  = match generate_charts E s with
    | Raised e s1 => Raised e s1
    | Normal chart_files s1 =>
        match output_raises E output_path with
        | Some e => Raised e (s1.1, ticked s1.2)
        | None =>
            Normal output_path
              (s1.1, reported output_path
                       (build_pdf E (now E (clock s1.2)) report_title
                                  (analysis_results s1.1) (fs s1.2) chart_files)
                       chart_files s1.2)
        end
    end.
Proof.
  unfold generate_pdf_report. unfold mbind at 1, M_bind at 1.
  destruct (generate_charts E s) as [chart_files [g1 w1]|e s1]; [|done].
  unfold mbind at 1, M_bind at 1, datetime_now at 1. cbn [fst snd].
  unfold mbind at 1, M_bind at 1, get_self at 1. cbn [fst snd].
  unfold mbind at 1, M_bind at 1, get_world at 1. cbn [fst snd].
  unfold mbind at 1, M_bind at 1, pdf_output at 1.
  destruct (output_raises E output_path) as [e|]; [done|].
  unfold set_world at 1. cbn [fst snd].
  unfold mbind at 1, M_bind at 1, print at 1, set_world at 1. cbn [fst snd].
  unfold mbind at 1, M_bind at 1. rewrite cleanup_run.
  unfold mret, M_ret, reported. cbn. done.
Qed.

(** The outcome of [generate_charts] from any state. *)
Lemma generate_charts_outcome E g w :
  match generate_charts E (g, w) with
  | Normal chart_files s' =>
      charts_inv g w chart_files s' ∧
      match data g with
      | None => chart_files = []
      | Some df => chart_files = charts_for g (numeric_count df) (categorical_count df)
      end
  | Raised e s' => charts_exc E g w e s'
  end.
Proof.
  destruct (data g) as [df|] eqn:Hdata.
  - pose proof (generate_charts_triple E g w df Hdata (g, w) eq_refl) as Hrun.
    destruct (generate_charts E (g, w)); [|done]. by destruct Hrun.
  - unfold generate_charts, mbind, M_bind, get_self. cbn [fst]. rewrite Hdata.
    cbn. split; [apply charts_inv_init|done].
Qed.

Lemma generate_charts_total E g w :
  plots_ok E → ∃ chart_files s', generate_charts E (g, w) = Normal chart_files s'.
Proof.
  intros Hok. pose proof (generate_charts_outcome E g w) as Hrun.
  destruct (generate_charts E (g, w)) as [chart_files s'|e s']; [by eauto|].
  by destruct Hrun as [Hnot _].
Qed.

Lemma generate_pdf_report_total E g w output_path report_title :
  plots_ok E → output_raises E output_path = None →
  ∃ s', generate_pdf_report E output_path report_title (g, w) = Normal output_path s'.
Proof.
  intros Hok Hwrite. rewrite generate_pdf_report_run.
  destruct (generate_charts_total E g w Hok) as (chart_files & s1 & ->).
  rewrite Hwrite. eauto.
Qed.

(** When the report returns, the charts were produced, they existed when
    the document was built, and the world is the one [reported]. *)
Lemma generate_pdf_report_Normal E g w output_path report_title r s' :
  generate_pdf_report E output_path report_title (g, w) = Normal r s' →
  ∃ chart_files w1,
    generate_charts E (g, w) = Normal chart_files (g, w1) ∧
    charts_inv g w chart_files (g, w1) ∧
    r = output_path ∧
    s' = (g, reported output_path
                 (build_pdf E (now E (clock w1)) report_title (analysis_results g)
                            (fs w1) chart_files)
                 chart_files w1).
Proof.
  rewrite generate_pdf_report_run.
  pose proof (generate_charts_outcome E g w) as Hrun.
  destruct (generate_charts E (g, w)) as [chart_files [g1 w1]|e s1]; [|done].
  destruct Hrun as [Hinv _]. pose proof Hinv as (Hg & _). cbn [fst] in Hg. subst g1.
  destruct (output_raises E output_path); [done|]. intros [= <- <-].
  by exists chart_files, w1.
Qed.

Lemma page_no_build_pdf_all E generated_on report_title (r : @results scalar float)
    (exist : gset string) (chart_files : list string) :
  (∀ p, p ∈ chart_files → p ∈ exist) →
  PDF.page_no (build_pdf E generated_on report_title r exist chart_files)
  = expected_pages (length chart_files) (has_key (numeric_summary r)).
Proof.
  intros Hex. rewrite page_no_build_pdf, chart_pages_all by done.
  done.
Qed.

(** The code of the repository itself copes with a frame without rows:
    where every plotting call and the writer go through, the report is
    written and has its title and overview pages. *)
Lemma empty_frame_report_completes E g w df output_path report_title :
  data g = Some df → nrows df = 0 →
  plots_ok E → output_raises E output_path = None →
  ∃ s' pdf,
    generate_pdf_report E output_path report_title (g, w) = Normal output_path s' ∧
    written s'.2 = written w ++ [(output_path, pdf)] ∧
    2 ≤ PDF.page_no pdf.
Proof.
  intros Hdata Hrows Hok Hwrite.
  destruct (generate_pdf_report_total E g w output_path report_title Hok Hwrite)
    as [s' Hrun].
  pose proof Hrun as (chart_files & w1 & _ & Hinv & _ & ->)%generate_pdf_report_Normal.
  destruct Hinv as (_ & _ & Hwr & Hsaved & _). cbn [fst snd] in *.
  eexists _, _. split; [done|]. cbn [snd reported written].
  split; [by rewrite Hwr|].
  rewrite page_no_build_pdf_all by done. unfold expected_pages. lia.
Qed.

(** On a frame without rows the analysis returns zero counts and, for
    every text column, an entry without values. *)
Lemma analyze_data_empty g w df :
  data g = Some df → wf_frame df → nrows df = 0 →
  ∃ g',
    analyze_data (g, w) = Normal true (g', w) ∧
    (∃ bs, basic_stats (analysis_results g') = Some bs ∧
           total_rows bs = 0 ∧ missing_values bs = 0) ∧
    (∀ c, c ∈ columns df → col_dtype c = Object →
          ∃ summary, categorical_summary (analysis_results g') = Some summary ∧
                     summary !! col_name c = Some (CatEntry 0 [])).
Proof.
  intros Hdata Hwf Hrows. eexists. split; [by apply analyze_data_loaded|].
  split.
  - eexists. split; [reflexivity|]. cbn [total_rows missing_values]. split; [done|].
    rewrite missing_values_scan by done. unfold scan_nulls. by rewrite Hrows.
  - intros c Hc Hobj.
    assert (col_name c ∈ labels (select_dtypes is_object df)) as Hlabel.
    { unfold labels, select_dtypes. cbn [columns]. apply list_elem_of_fmap.
      exists c. split; [done|]. apply list_elem_of_filter. by rewrite Hobj. }
    eexists. split.
    + unfold analysis_of. cbn [analysis_results categorical_summary].
      rewrite decide_True; [reflexivity|].
      destruct (labels (select_dtypes is_object df));
        [by apply elem_of_nil in Hlabel|cbn; lia].
    + rewrite fill_categorical_lookup.
      * rewrite decide_True by done. rewrite getitem_column by done.
        cbn [fmap option_fmap option_map]. unfold cat_entry_of.
        destruct Hwf as [Hlen _]. rewrite Forall_forall in Hlen.
        specialize (Hlen c Hc). rewrite Hrows in Hlen.
        apply nil_length_inv in Hlen. by rewrite Hlen.
      * intros col Hcol%labels_select_dtypes.
        destruct (getitem_is_Some df col Hcol) as (c' & -> & _). eauto.
Qed.

End pipeline_facts.

Section chart_list_facts.
Context `{Pandas scalar float}.
Implicit Types (df : DataFrame scalar) (g : @generator scalar float)
  (w : @world scalar float) (E : @env scalar float).

Lemma chart_paths_distinct g :
  overview_dashboard g ≠ correlation_matrix g ∧
  overview_dashboard g ≠ categorical_analysis g ∧
  correlation_matrix g ≠ categorical_analysis g.
Proof.
  unfold overview_dashboard, correlation_matrix, categorical_analysis.
  repeat split; intros Heq; apply (inj (String.app (charts_path g))) in Heq;
    discriminate.
Qed.

Lemma charts_for_members g numeric categorical :
  overview_dashboard g ∈ charts_for g numeric categorical ∧
  (correlation_matrix g ∈ charts_for g numeric categorical ↔ 2 ≤ numeric) ∧
  (categorical_analysis g ∈ charts_for g numeric categorical ↔ 1 ≤ categorical).
Proof.
  destruct (chart_paths_distinct g) as (H1 & H2 & H3). unfold charts_for.
  destruct (decide (2 ≤ numeric)), (decide (1 ≤ categorical));
    rewrite ?app_nil_r; cbn; repeat split;
    rewrite ?elem_of_cons, ?elem_of_nil; try tauto; try lia;
    intros Hin; exfalso; intuition congruence.
Qed.

Lemma length_charts_for g numeric categorical :
  length (charts_for g numeric categorical)
  = 1 + (if decide (2 ≤ numeric) then 1 else 0) + (if decide (1 ≤ categorical) then 1 else 0).
Proof.
  unfold charts_for. destruct (decide (2 ≤ numeric)), (decide (1 ≤ categorical)); done.
Qed.

(** With a table call that refuses an empty [cellText], the dashboard of a
    frame without rows cannot be drawn. *)
Lemma generate_charts_empty E g w df :
  data g = Some df → nrows df = 0 → is_Some (plot_raises E (Table [] [])) →
  triple (λ s, s = (g, w)) (generate_charts E) (λ _ _, False) (charts_exc E g w).
Proof.
  intros Hdata Hrows [e He]. apply triple_at. unfold generate_charts.
  unfold mbind at 1, M_bind at 1, get_self. cbn [fst]. rewrite Hdata.
  apply triple_at.
  eapply triple_weaken with (P' := charts_inv g w []);
    [|intros ? ->; apply charts_inv_init|intros ? ? Hq; exact Hq|intros ? ? Hq; exact Hq].
  do 3 chart_step.
  eapply triple_bind with (R := λ _, charts_inv g w []).
  { destruct (decide (0 < series_sum (frame_sum (isnull df)))).
    - chart_step. apply triple_plot.
    - chart_step. apply triple_plot. }
  intros []. do 2 chart_step.
  eapply triple_bind with (R := λ _, charts_inv g w []).
  { destruct (decide (0 < length (labels (select_dtypes is_number df)))).
    - chart_step. apply triple_plot.
    - by apply triple_ret. }
  intros []. do 2 chart_step.
  eapply triple_bind with (R := λ _ _, False); [|intros []; apply triple_false].
  unfold len. rewrite Hrows. rewrite decide_False by lia.
  intros [g' w'] Hinv. unfold plot, values, labels. cbn.
  match goal with
  | |- context [plot_raises E ?c] => assert (plot_raises E c = Some e) as -> by exact He
  end. split; [|by exists []].
  intros Hok. by rewrite Hok in He.
Qed.

End chart_list_facts.

(** ** The pages of the document, block by block *)

Section page_facts.
Implicit Types (pdf : FPDF) (ps pgs : list page) (cur : page) (y h : Z) (b : block).
Local Open Scope Z_scope.

Lemma alter_last_snoc ps cur b :
  alter (λ pg, pg ++ [b]) (length (ps ++ [cur]) - 1)%nat (ps ++ [cur]) = ps ++ [cur ++ [b]].
Proof.
  rewrite length_app. cbn [length].
  replace (length ps + 1 - 1)%nat with (length ps + 0)%nat by lia.
  by rewrite alter_app_r.
Qed.

Lemma on_page_laid pdf ps cur y : on_page pdf ps cur y → laid pdf (ps ++ [cur]).
Proof. by intros (? & _ & ?). Qed.

Lemma on_page_add_page pdf pgs : laid pdf pgs → on_page (PDF.add_page pdf) pgs [] 10.
Proof. intros [Hp Htr]. unfold on_page, PDF.add_page. cbn. by rewrite Hp. Qed.

Lemma on_page_cell pdf ps cur y y' h txt :
  on_page pdf ps cur y → y' = y + h → y' ≤ 282 →
  on_page (PDF.cell h txt pdf) ps (cur ++ [Cell h txt]) y'.
Proof.
  intros (Hp & Hy & Htr) -> Hle. unfold PDF.cell.
  destruct (decide (cur_y pdf + h > page_break_trigger pdf)) as [Hbreak|_]; [exfalso; lia|].
  unfold on_page, PDF.put. cbn [pages cur_y page_break_trigger].
  rewrite Hp, alter_last_snoc. by subst.
Qed.

Lemma on_page_ln pdf ps cur y y' h :
  on_page pdf ps cur y → y' = y + h → on_page (PDF.ln h pdf) ps cur y'.
Proof. intros (Hp & Hy & Htr) ->. unfold on_page, PDF.ln. cbn. by subst. Qed.

Lemma on_page_image pdf ps cur y path at_y :
  on_page pdf ps cur y → on_page (PDF.image path at_y pdf) ps (cur ++ [Image path at_y]) y.
Proof.
  intros (Hp & Hy & Htr). unfold on_page, PDF.image, PDF.put.
  cbn [pages cur_y page_break_trigger]. by rewrite Hp, alter_last_snoc.
Qed.

(** A loop whose body puts the blocks [blocks x] on the current page and
    moves the cursor down by at most [k]. *)
Lemma on_page_foldl {A} (f : FPDF → A → FPDF) (blocks : A → list block) (k : Z)
    (l : list A) pdf ps cur y :
  (∀ pdf cur y x, on_page pdf ps cur y → y + k ≤ 282 →
      ∃ y', on_page (f pdf x) ps (cur ++ blocks x) y' ∧ y' ≤ y + k) →
  0 ≤ k → on_page pdf ps cur y → y + k * Z.of_nat (length l) ≤ 282 →
  ∃ y', on_page (foldl f pdf l) ps (cur ++ (l ≫= blocks)) y' ∧
        y' ≤ y + k * Z.of_nat (length l).
Proof.
  intros Hf Hk. revert pdf cur y. induction l as [|x l IH]; intros pdf cur y Hon Hle.
  - exists y. cbn [foldl length]. rewrite app_nil_r. split; [done|lia].
  - change (foldl f pdf (x :: l)) with (foldl f (f pdf x) l).
    cbn [length] in *.
    destruct (Hf pdf cur y x Hon) as (y1 & H1 & Hy1); [nia|].
    destruct (IH _ _ y1 H1) as (y2 & H2 & Hy2); [nia|].
    exists y2. split; [|nia].
    change (x :: l) with ([x] ++ l). rewrite bind_app, app_assoc.
    cbn [mbind list_bind]. by rewrite app_nil_r.
Qed.

End page_facts.

Section layout_facts.
Context `{Pandas scalar float}.
Variable E : @env scalar float.
Implicit Types (pdf : FPDF) (r : @results scalar float) (exist : gset string)
  (ps pgs : list page) (cur : page).
Local Open Scope Z_scope.

Lemma on_page_summary_line ps pdf cur y (line : string) :
  on_page pdf ps cur y → y + 6 ≤ 282 →
  ∃ y', on_page (if decide (PyStr.strip line ≠ EmptyString)
                 then PDF.cell 6 (PyStr.strip line) pdf else pdf)
                ps
                (cur ++ if decide (PyStr.strip line ≠ EmptyString)
                        then [Cell 6 (PyStr.strip line)] else [])
                y' ∧ y' ≤ y + 6.
Proof.
  intros Hon Hle. destruct (decide (PyStr.strip line ≠ EmptyString)).
  - exists (y + 6). split; [|lia]. eapply on_page_cell; [done|reflexivity|lia].
  - exists y. rewrite app_nil_r. split; [done|lia].
Qed.

Lemma on_page_title_page generated_on report_title r pdf :
  laid pdf [] →
  ∃ y, on_page (title_page generated_on report_title r pdf) []
               (title_blocks generated_on report_title r) y.
Proof.
  intros Hlaid. unfold title_page, title_blocks.
  pose proof (on_page_add_page pdf [] Hlaid) as Hon.
  eapply (on_page_cell _ _ _ _ _ 30 report_title) in Hon; [|reflexivity|lia].
  eapply (on_page_cell _ _ _ _ _ 10 ("Generated on: " +:+ generated_on)) in Hon;
    [|reflexivity|lia].
  eapply (on_page_cell _ _ _ _ _ 10 "Generated by: PhantomX256") in Hon;
    [|reflexivity|lia].
  eapply (on_page_ln _ _ _ _ _ 20) in Hon; [|reflexivity].
  eapply (on_page_cell _ _ _ _ _ 10 "Executive Summary") in Hon; [|reflexivity|lia].
  destruct (on_page_foldl _ _ 6 (summary_lines r) _ [] _ _
              (on_page_summary_line []) ltac:(lia) Hon) as (y & Hy & _).
  - cbn [summary_lines length]. lia.
  - by exists y.
Qed.

Lemma on_page_overview_page r pdf pgs :
  laid pdf pgs → on_page (overview_page r pdf) pgs (overview_blocks r) 44.
Proof.
  intros Hlaid. unfold overview_page, overview_blocks.
  pose proof (on_page_add_page pdf pgs Hlaid) as Hon.
  eapply (on_page_cell _ _ _ _ _ 10 "Data Overview") in Hon; [|reflexivity|lia].
  eapply (on_page_cell _ _ _ _ _ 8 ("Total Rows: " +:+ stat_text r total_rows)) in Hon;
    [|reflexivity|lia].
  eapply (on_page_cell _ _ _ _ _ 8 ("Total Columns: " +:+ stat_text r total_columns))
    in Hon; [|reflexivity|lia].
  eapply (on_page_cell _ _ _ _ _ 8 ("Missing Values: " +:+ stat_text r missing_values))
    in Hon; [|reflexivity|lia].
  exact Hon.
Qed.

(** The first chart goes below the overview lines. *)
Lemma on_page_first_chart exist chart_path pdf ps cur :
  on_page pdf ps cur 44 →
  laid (add_chart E exist 0 chart_path pdf)
       (ps ++ [cur ++ if decide (chart_path ∈ exist)
                      then chart_blocks E 44 chart_path else []]).
Proof.
  intros Hon. unfold add_chart, chart_blocks.
  destruct (decide (chart_path ∈ exist)); [|rewrite app_nil_r; by eapply on_page_laid].
  rewrite decide_False by lia.
  assert (on_page (PDF.cell 10 (chart_title chart_path) pdf) ps
                  (cur ++ [Cell 10 (chart_title chart_path)]) 54) as Hhead.
  { eapply on_page_cell; [done|lia|lia]. }
  destruct (image_raises E chart_path).
  - eapply on_page_laid.
    eapply (on_page_cell _ _ _ _ _ 10 ("Chart could not be loaded: " +:+ chart_path))
      in Hhead; [|reflexivity|lia].
    rewrite <- app_assoc in Hhead. exact Hhead.
  - eapply on_page_laid. unfold PDF.get_y.
    destruct Hhead as (Hp & Hy & Htr). rewrite Hy.
    pose proof (on_page_image _ ps _ 54 chart_path (54 + 5) (conj Hp (conj Hy Htr))) as Himg.
    rewrite <- app_assoc in Himg. exact Himg.
Qed.

(** A later chart opens a page of its own. *)
Lemma laid_later_chart exist i chart_path pdf pgs :
  (0 < i)%nat → laid pdf pgs →
  laid (add_chart E exist i chart_path pdf)
       (pgs ++ if decide (chart_path ∈ exist) then [chart_blocks E 10 chart_path] else []).
Proof.
  intros Hi Hlaid. unfold add_chart, chart_blocks.
  destruct (decide (chart_path ∈ exist)); [|by rewrite app_nil_r].
  rewrite decide_True by lia.
  assert (on_page (PDF.cell 10 (chart_title chart_path) (PDF.add_page pdf)) pgs
                  [Cell 10 (chart_title chart_path)] 20) as Hhead.
  { eapply (on_page_cell _ pgs []); [by apply on_page_add_page|lia|lia]. }
  destruct (image_raises E chart_path).
  - eapply on_page_laid.
    eapply (on_page_cell _ pgs [_]); [exact Hhead|reflexivity|lia].
  - eapply on_page_laid. unfold PDF.get_y.
    destruct Hhead as (Hp & Hy & Htr). rewrite Hy.
    exact (on_page_image _ pgs [_] 20 chart_path (20 + 5) (conj Hp (conj Hy Htr))).
Qed.

Lemma laid_later_charts exist chart_files i pdf pgs :
  (0 < i)%nat → laid pdf pgs →
  laid (add_charts E exist i chart_files pdf)
       (pgs ++ (chart_blocks E 10 <$> filter (λ p, p ∈ exist) chart_files)).
Proof.
  revert i pdf pgs. induction chart_files as [|p rest IH]; intros i pdf pgs Hi Hlaid.
  - cbn. by rewrite app_nil_r.
  - cbn [add_charts]. rewrite filter_cons.
    pose proof (laid_later_chart exist i p pdf pgs Hi Hlaid) as Hstep.
    apply (IH (S i)) in Hstep; [|lia].
    destruct (decide (p ∈ exist)); [|by rewrite app_nil_r in Hstep].
    rewrite fmap_cons. by rewrite <- app_assoc in Hstep.
Qed.

Lemma laid_add_charts exist chart_files pdf ps cur :
  on_page pdf ps cur 44 →
  laid (add_charts E exist 0 chart_files pdf)
       (ps ++ [cur ++ match chart_files with
                      | p :: _ => if decide (p ∈ exist) then chart_blocks E 44 p else []
                      | [] => []
                      end]
           ++ (chart_blocks E 10 <$> filter (λ p, p ∈ exist) (tail chart_files))).
Proof.
  intros Hon. destruct chart_files as [|p rest].
  - cbn. rewrite !app_nil_r. by eapply on_page_laid.
  - cbn [add_charts tail]. rewrite app_assoc.
    apply laid_later_charts; [lia|]. by apply on_page_first_chart.
Qed.

Lemma on_page_stat_line (summary_df : @stat_frame float) col ps pdf cur y (stat : string) :
  on_page pdf ps cur y → y + 6 ≤ 282 →
  ∃ y', on_page (if decide (stat ∈ sf_index summary_df)
                 then PDF.cell 6 (PyStr.title stat +:+ ": "
                                    +:+ fmt_2f (sf_loc summary_df stat col)) pdf
                 else pdf)
                ps
                (cur ++ if decide (stat ∈ sf_index summary_df)
                        then [Cell 6 (PyStr.title stat +:+ ": "
                                        +:+ fmt_2f (sf_loc summary_df stat col))]
                        else [])
                y' ∧ y' ≤ y + 6.
Proof.
  intros Hon Hle. destruct (decide (stat ∈ sf_index summary_df)).
  - exists (y + 6). split; [|lia]. eapply on_page_cell; [done|reflexivity|lia].
  - exists y. rewrite app_nil_r. split; [done|lia].
Qed.

Lemma on_page_stat_column (summary_df : @stat_frame float) ps pdf cur y (col : string) :
  on_page pdf ps cur y → y + 37 ≤ 282 →
  ∃ y', on_page (let pdf := PDF.ln 5 pdf in
                 let pdf := PDF.cell 8 ("Column: " +:+ col) pdf in
                 foldl (λ pdf stat,
                          if decide (stat ∈ sf_index summary_df)
                          then PDF.cell 6 (PyStr.title stat +:+ ": "
                                             +:+ fmt_2f (sf_loc summary_df stat col)) pdf
                          else pdf)
                       pdf ["mean"; "std"; "min"; "max"])
                ps
                (cur ++ Cell 8 ("Column: " +:+ col) :: stat_cells summary_df col)
                y' ∧ y' ≤ y + 37.
Proof.
  intros Hon Hle. cbv zeta.
  eapply (on_page_ln _ _ _ _ _ 5) in Hon; [|reflexivity].
  eapply (on_page_cell _ _ _ _ _ 8 ("Column: " +:+ col)) in Hon; [|reflexivity|lia].
  destruct (on_page_foldl _ _ 6 ["mean"; "std"; "min"; "max"] _ ps _ _
              (on_page_stat_line summary_df col ps) ltac:(lia) Hon) as (y' & Hy' & Hb).
  - cbn [length]. lia.
  - exists y'. split; [|cbn [length] in Hb; lia].
    rewrite <- app_assoc in Hy'. exact Hy'.
Qed.

Lemma laid_stats_page r pdf pgs :
  laid pdf pgs →
  laid (stats_page r pdf)
       (pgs ++ match numeric_summary r with
               | Some summary_df => [stats_blocks summary_df]
               | None => []
               end).
Proof.
  intros Hlaid. unfold stats_page. destruct (numeric_summary r) as [summary_df|];
    [|by rewrite app_nil_r].
  unfold stats_blocks.
  pose proof (on_page_add_page pdf pgs Hlaid) as Hon.
  eapply (on_page_cell _ _ _ _ _ 10 "Statistical Summary") in Hon; [|reflexivity|lia].
  destruct (on_page_foldl _ _ 37 (take 3 (sf_columns summary_df)) _ pgs _ _
              (on_page_stat_column summary_df pgs) ltac:(lia) Hon) as (y & Hy & _).
  - rewrite length_take. lia.
  - by eapply on_page_laid.
Qed.

(** The document, page by page. *)
Lemma pages_build_pdf generated_on report_title r exist chart_files :
  pages (build_pdf E generated_on report_title r exist chart_files)
  = report_pages E generated_on report_title r exist chart_files.
Proof.
  unfold build_pdf, report_pages.
  destruct (on_page_title_page generated_on report_title r
              (PDF.set_auto_page_break 15 PDF.FPDF_new)) as [y1 H1]; [done|].
  pose proof (on_page_overview_page r _ _ (on_page_laid _ _ _ _ H1)) as H2.
  pose proof (laid_add_charts exist chart_files _ _ _ H2) as H3.
  pose proof (laid_stats_page r _ _ H3) as [H4 _].
  rewrite H4. rewrite app_nil_l, <- !app_assoc. reflexivity.
Qed.

End layout_facts.

(** ** Selecting columns and counting values *)

Lemma filter_none {A} (P : A → Prop) `{∀ x, Decision (P x)} (l : list A) :
  (∀ x, x ∈ l → ¬ P x) → filter P l = [].
Proof.
  induction l as [|a l IH]; intros Hl; [done|].
  rewrite filter_cons, decide_False by (apply Hl; left).
  apply IH. intros x Hx. apply Hl. by right.
Qed.

Lemma filter_all {A} (P : A → Prop) `{∀ x, Decision (P x)} (l : list A) :
  (∀ x, x ∈ l → P x) → filter P l = l.
Proof.
  induction l as [|a l IH]; intros Hl; [done|].
  rewrite filter_cons, decide_True by (apply Hl; left).
  f_equal. apply IH. intros x Hx. apply Hl. by right.
Qed.

Section selection_facts.
Context {scalar : Type}.
Implicit Types (c : column scalar) (df : DataFrame scalar) (p : dtype → bool).

Lemma filter_label_unique (cs : list (column scalar)) c :
  NoDup (col_name <$> cs) → c ∈ cs →
  filter (λ c', col_name c' = col_name c) cs = [c].
Proof.
  induction cs as [|a cs IH]; intros Hnd Hc; [by apply elem_of_nil in Hc|].
  rewrite fmap_cons in Hnd. apply NoDup_cons in Hnd as [Ha Hnd].
  rewrite filter_cons. apply elem_of_cons in Hc as [->|Hc].
  - rewrite decide_True by done. f_equal.
    apply filter_none. intros c' Hc' Heq.
    apply Ha. rewrite <- Heq. apply list_elem_of_fmap. by exists c'.
  - rewrite decide_False; [by apply IH|].
    intros Heq. apply Ha. rewrite Heq. apply list_elem_of_fmap. by exists c.
Qed.

(** Taking the columns of a selection by their labels gives the selection
    back. *)
Lemma getitems_select_dtypes p df :
  wf_frame df → getitems df (labels (select_dtypes p df)) = select_dtypes p df.
Proof.
  intros [_ Hnd]. unfold getitems, select_dtypes, labels. cbn [columns nrows]. f_equal.
  assert (∀ sel : list (column scalar),
            (∀ c, c ∈ sel → c ∈ columns df) →
            (col_name <$> sel) ≫= (λ n, filter (λ c, col_name c = n) (columns df)) = sel)
    as Hsel.
  { induction sel as [|c sel IH]; intros Hsub; [done|].
    rewrite fmap_cons. cbn [mbind list_bind].
    rewrite filter_label_unique; [|done|apply Hsub; left].
    cbn [app]. f_equal. apply IH. intros c' Hc'. apply Hsub. by right. }
  apply Hsel. intros c Hc. by apply list_elem_of_filter in Hc as [_ Hc].
Qed.

Lemma wf_select_dtypes p df : wf_frame df → wf_frame (select_dtypes p df).
Proof.
  intros [Hlen Hnd]. split; cbn [select_dtypes columns nrows].
  - apply Forall_forall. intros c [_ Hc]%list_elem_of_filter.
    by apply (proj1 (Forall_forall _ _) Hlen).
  - revert Hnd. generalize (columns df). intros cs.
    induction cs as [|a cs IH]; [done|]. rewrite fmap_cons, filter_cons.
    intros [Ha Hnd]%NoDup_cons. destruct (decide (p (col_dtype a) = true)); [|by apply IH].
    rewrite fmap_cons. apply NoDup_cons. split; [|by apply IH].
    intros (c & Heq & Hc)%list_elem_of_fmap. apply Ha.
    apply list_elem_of_fmap. exists c. split; [done|].
    by apply list_elem_of_filter in Hc as [_ Hc].
Qed.

End selection_facts.

Section count_sum_facts.
Context {A : Type} `{EqDecision A}.
Implicit Types (l k : list A) (x a : A).

Lemma occurrences_cons a x l :
  occurrences x (a :: l) = (if decide (a = x) then 1 else 0) + occurrences x l.
Proof. unfold occurrences. rewrite filter_cons. by destruct (decide (a = x)). Qed.

Lemma occurrences_absent x l : x ∉ l → occurrences x l = 0.
Proof.
  intros Hx. unfold occurrences.
  rewrite filter_none; [done|]. intros y Hy ->. done.
Qed.

Lemma sum_split_at (f : A → nat) a k :
  NoDup k →
  sum_list_with f k
  = (if decide (a ∈ k) then f a else 0) + sum_list_with f (filter (λ y, y ≠ a) k).
Proof.
  induction k as [|x k IH]; intros Hnd.
  - rewrite decide_False; [done|]. apply not_elem_of_nil.
  - apply NoDup_cons in Hnd as [Hx Hnd]. rewrite filter_cons. cbn [sum_list_with].
    rewrite IH by done. destruct (decide (x = a)) as [->|Hne].
    + rewrite (decide_True (P := a ∈ a :: k)) by left.
      rewrite (decide_False (P := a ∈ k)) by done.
      rewrite decide_False by (intros Hn; by apply Hn). lia.
    + rewrite (decide_True (P := x ≠ a)) by done. cbn [sum_list_with].
      destruct (decide (a ∈ k)) as [Hin|Hin].
      * rewrite decide_True by (by right). lia.
      * rewrite decide_False; [lia|]. intros [->|?]%elem_of_cons; done.
Qed.

(** The occurrences of the distinct values add up to the length. *)
Lemma sum_occurrences_unique l :
  sum_list_with (λ x, occurrences x l) (unique l) = length l.
Proof.
  induction l as [|a l IH]; [done|].
  cbn [unique sum_list_with length]. rewrite occurrences_cons, decide_True by done.
  rewrite (sum_list_with_ext (λ x, occurrences x (a :: l)) (λ x, occurrences x l)).
  - pose proof (sum_split_at (λ x, occurrences x l) a (unique l) (NoDup_unique l)) as Hs.
    rewrite IH in Hs. destruct (decide (a ∈ unique l)) as [Hin|Hin]; [lia|].
    rewrite occurrences_absent; [lia|]. by rewrite <- elem_of_unique.
  - intros x [Hne _]%list_elem_of_filter. rewrite occurrences_cons.
    rewrite decide_False; [done|]. by intros ->.
Qed.

Lemma sum_count_values l : sum_list_with snd (count_values l) = length l.
Proof.
  unfold count_values. rewrite sort_counts_Permutation.
  rewrite sum_list_with_fmap. apply sum_occurrences_unique.
Qed.

Lemma sum_list_with_take {B} (f : B → nat) n (l : list B) :
  sum_list_with f (take n l) ≤ sum_list_with f l.
Proof.
  rewrite <- (take_drop n l) at 2. rewrite sum_list_with_app. lia.
Qed.

End count_sum_facts.

Lemma length_dropna {A} (l : list (option A)) :
  length (dropna l) + length (filter (λ b : bool, b = true) (is_null <$> l)) = length l.
Proof.
  unfold dropna. induction l as [|[x|] l IH]; [done| |].
  - rewrite fmap_cons, filter_cons.
    change (omap id (Some x :: l)) with (x :: omap id l).
    rewrite decide_False by done. cbn [length]. lia.
  - rewrite fmap_cons, filter_cons.
    change (omap id (None :: l)) with (omap (@id (option A)) l).
    rewrite decide_True by done. cbn [length]. lia.
Qed.

(** ** Further facts about the analysis *)

Section analysis_more.
Context `{Pandas scalar float}.
Implicit Types (df : DataFrame scalar) (r : @results scalar float).

Lemma mem_select_dtypes p df c :
  c ∈ columns df → p (col_dtype c) = true → c ∈ columns (select_dtypes p df).
Proof. intros Hc Hp. cbn [select_dtypes columns]. by apply list_elem_of_filter. Qed.

Lemma label_select_dtypes p df c :
  c ∈ columns df → p (col_dtype c) = true → col_name c ∈ labels (select_dtypes p df).
Proof.
  intros Hc Hp. apply list_elem_of_fmap. exists c. split; [done|].
  by apply mem_select_dtypes.
Qed.

Lemma cells_of_select_dtypes p df c :
  wf_frame df → c ∈ columns df → p (col_dtype c) = true →
  cells_of (getitems df (labels (select_dtypes p df))) (col_name c) = col_cells c.
Proof.
  intros Hwf Hc Hp. rewrite getitems_select_dtypes by done.
  unfold cells_of. rewrite getitem_column; [done|by apply wf_select_dtypes|].
  by apply mem_select_dtypes.
Qed.

Lemma categorical_entry_lookup df r c :
  wf_frame df → c ∈ columns df → col_dtype c = Object →
  ∃ summary, categorical_summary (analysis_of df r) = Some summary ∧
             summary !! col_name c = Some (cat_entry_of c).
Proof.
  intros Hwf Hc Hobj.
  assert (col_name c ∈ labels (select_dtypes is_object df)) as Hlabel.
  { apply label_select_dtypes; [done|]. by rewrite Hobj. }
  assert (0 < length (labels (select_dtypes is_object df))) as Hpos.
  { destruct (labels (select_dtypes is_object df)); [by apply elem_of_nil in Hlabel|].
    simpl. lia. }
  exists (fill_categorical df (labels (select_dtypes is_object df)) ∅). split.
  - unfold analysis_of. cbn [categorical_summary]. by rewrite decide_True.
  - rewrite fill_categorical_lookup.
    + rewrite decide_True by done. by rewrite getitem_column.
    + intros col Hcol%labels_select_dtypes.
      destruct (getitem_is_Some df col Hcol) as (c' & -> & _). eauto.
Qed.

Lemma column_nulls_le df c :
  wf_frame df → c ∈ columns df → column_nulls c ≤ nrows df.
Proof.
  intros [Hlen _] Hc.
  assert (length (col_cells c) = nrows df) as <-
    by exact (proj1 (Forall_forall _ _) Hlen c Hc).
  unfold column_nulls. rewrite <- (length_dropna (col_cells c)) at 1. lia.
Qed.

Lemma sum_list_with_bound {A} (f : A → nat) (l : list A) n :
  (∀ x, x ∈ l → f x ≤ n) → sum_list_with f l ≤ length l * n.
Proof.
  induction l as [|a l IH]; intros Hl; [done|]. cbn [sum_list_with length].
  pose proof (Hl a ltac:(left)).
  assert (sum_list_with f l ≤ length l * n) by (apply IH; intros x Hx; apply Hl; by right).
  lia.
Qed.

Lemma analysis_of_idemp df r : analysis_of df (analysis_of df r) = analysis_of df r.
Proof.
  unfold analysis_of. cbn [numeric_summary correlations categorical_summary]. f_equal.
  - by destruct (decide (0 < length (labels (select_dtypes is_number df)))).
  - by destruct (decide (0 < length (labels (select_dtypes is_number df)))).
  - by destruct (decide (0 < length (labels (select_dtypes is_object df)))).
Qed.

End analysis_more.

(** ** What chart generation keeps *)

Section stable_facts.
Context `{Pandas scalar float}.
Variable E : @env scalar float.
Variable J : @state scalar float → Prop.
Hypothesis HJ : plot_stable J.

Lemma triple_plot_stable c : triple J (plot E c) (λ _, J) (λ _, J).
Proof.
  intros [g w] Hs. unfold plot. destruct (plot_raises E c); [exact Hs|].
  apply (proj1 HJ), Hs.
Qed.

Lemma triple_savefig_stable p : triple J (savefig E p) (λ _, J) (λ _, J).
Proof.
  eapply triple_bind; [apply triple_plot_stable|]. intros [] [g w] Hs.
  apply (proj2 HJ), Hs.
Qed.

End stable_facts.

Ltac stable_step HJ :=
  first
    [ eapply triple_bind; [apply triple_plot_stable; exact HJ|intros []]
    | eapply triple_bind; [apply triple_savefig_stable; exact HJ|intros []] ].

Section stable_run.
Context `{Pandas scalar float}.

(** Whatever plotting and saving a figure keep, [generate_charts] keeps,
    whether it returns or raises. *)
Lemma generate_charts_stable E (J : @state scalar float → Prop) s :
  plot_stable J → J s →
  match generate_charts E s with
  | Normal _ s' => J s'
  | Raised _ s' => J s'
  end.
Proof.
  intros HJ Hs. destruct s as [g w]. unfold generate_charts.
  unfold mbind at 1, M_bind at 1, get_self. cbn [fst].
  destruct (data g) as [df|]; [|exact Hs].
  revert Hs. generalize (g, w).
  match goal with
  | |- ∀ s, J s → match ?m s with _ => _ end =>
      change (triple J m (λ _ : list string, J) (λ _, J))
  end.
  do 3 stable_step HJ.
  eapply triple_bind with (R := λ _, J).
  { destruct (decide (0 < series_sum (frame_sum (isnull df)))).
    - stable_step HJ. by apply triple_plot_stable.
    - stable_step HJ. by apply triple_plot_stable. }
  intros []. do 2 stable_step HJ.
  eapply triple_bind with (R := λ _, J).
  { destruct (decide (0 < length (labels (select_dtypes is_number df)))).
    - stable_step HJ. by apply triple_plot_stable.
    - by apply triple_ret. }
  intros []. do 9 stable_step HJ.
  eapply triple_bind with (R := λ _, J).
  { destruct (decide (1 < length (labels (select_dtypes is_number df)))).
    - do 6 stable_step HJ. by apply triple_ret.
    - by apply triple_ret. }
  intros chart_files.
  eapply triple_bind with (R := λ _, J).
  { destruct (decide (0 < length (labels (select_dtypes is_object df)))).
    - do 2 stable_step HJ.
      eapply triple_bind with (R := λ _, J).
      { apply triple_for_each. intros [i col] Hcol.
        eapply triple_bind with (R := λ _, J).
        - apply triple_getitem.
          apply elem_of_lookup_imap in Hcol as (j & col' & [= -> ->] & Hj).
          apply list_elem_of_lookup_2, subseteq_take in Hj.
          by apply labels_select_dtypes in Hj.
        - intros c. do 2 stable_step HJ. by apply triple_plot_stable. }
      intros [].
      eapply triple_bind with (R := λ _, J).
      { apply triple_for_each. intros i _. by apply triple_plot_stable. }
      intros []. do 3 stable_step HJ. by apply triple_ret.
    - by apply triple_ret. }
  intros cf. by apply triple_ret.
Qed.

End stable_run.

(** ** The constructor, the loader and the report *)

Section object_facts.
Context `{Pandas scalar float}.
Implicit Types (E : @env scalar float) (g : @generator scalar float)
  (w : @world scalar float).

Lemma ensure_charts_directory_run E g w :
  ensure_charts_directory E (g, w)
  = if bool_decide (charts_path g ∈ fs w) then Normal () (g, w)
    else match makedirs_raises E (charts_path g) with
         | Some e => Raised e (g, w)
         | None => Normal () (g, with_path (charts_path g) w)
         end.
Proof.
  unfold ensure_charts_directory, os_makedirs, path_exists, create_path,
    get_self, get_world, set_world, mbind, M_bind, mret, M_ret. cbn [fst snd].
  destruct (bool_decide (charts_path g ∈ fs w)) eqn:Hex; cbn [negb fst snd];
    [reflexivity|].
  destruct (makedirs_raises E (charts_path g)); [reflexivity|].
  cbn [fst snd]. by rewrite Hex.
Qed.

Lemma init_run E g w :
  init E (g, w)
  = if bool_decide ("temp_charts/" ∈ fs w) then Normal () (new_generator, w)
    else match makedirs_raises E "temp_charts/" with
         | Some e => Raised e (new_generator, w)
         | None => Normal () (new_generator, with_path "temp_charts/" w)
         end.
Proof.
  unfold init. unfold mbind at 1, M_bind at 1, set_self. cbn [fst snd].
  by rewrite ensure_charts_directory_run.
Qed.

Lemma resolved_type_extension file_path :
  resolved_type file_path (extension file_path) = resolved_type file_path "auto".
Proof.
  unfold resolved_type. rewrite (decide_True (P := "auto" = "auto")) by done.
  by destruct (decide (extension file_path = "auto")).
Qed.

Lemma add_charts_ext E (ex1 ex2 : gset string) chart_files i pdf :
  (∀ p, p ∈ chart_files → p ∈ ex1 ↔ p ∈ ex2) →
  add_charts E ex1 i chart_files pdf = add_charts E ex2 i chart_files pdf.
Proof.
  revert i pdf. induction chart_files as [|p rest IH]; intros i pdf Hex; [done|].
  cbn [add_charts]. rewrite IH by (intros q Hq; apply Hex; by right).
  f_equal. unfold add_chart. pose proof (Hex p ltac:(left)) as Hp.
  destruct (decide (p ∈ ex1)), (decide (p ∈ ex2)); tauto.
Qed.

Lemma build_pdf_ext E generated_on report_title r (ex1 ex2 : gset string) chart_files :
  (∀ p, p ∈ chart_files → p ∈ ex1 ↔ p ∈ ex2) →
  build_pdf E generated_on report_title r ex1 chart_files
  = build_pdf E generated_on report_title r ex2 chart_files.
Proof. intros Hex. unfold build_pdf. by rewrite (add_charts_ext E ex1 ex2). Qed.

(** The paths after [generate_charts] has returned: those before and the
    chart files. *)
Lemma generate_charts_files E g w chart_files s' :
  generate_charts E (g, w) = Normal chart_files s' →
  s'.1 = g ∧ stdout s'.2 = stdout w ∧ written s'.2 = written w ∧
  fs s'.2 = fs w ∪ list_to_set chart_files ∧ clock s'.2 = clock w.
Proof.
  intros Hrun.
  pose proof (generate_charts_outcome E g w) as Hout. rewrite Hrun in Hout.
  destruct Hout as [(Hg & Hout & Hwr & Hsaved & Hsub) _].
  pose proof (generate_charts_stable E (λ s, fs w ⊆ fs s.2 ∧ clock s.2 = clock w) (g, w))
    as Hkeep.
  rewrite Hrun in Hkeep.
  assert (fs w ⊆ fs s'.2 ∧ clock s'.2 = clock w) as [Hmono Hclock].
  { apply Hkeep; [|done]. split; intros ? ? ? []; cbn [snd fs clock] in *;
      (split; [set_solver|done]). }
  repeat split; try done. apply set_eq. intros p. split.
  - intros Hp. by apply Hsub.
  - intros [Hp|Hp]%elem_of_union; [by apply Hmono|].
    apply Hsaved. by apply elem_of_list_to_set in Hp.
Qed.

End object_facts.

(** ** The command line *)

Section cli_facts.
Context `{Pandas scalar float}.
Implicit Types (E : @env scalar float) (g : @generator scalar float)
  (w : @world scalar float) (C : console).

Lemma print_run (line : string) g w :
  print line (g, w) = Normal () (g, printed line w).
Proof. reflexivity. Qed.

Lemma input_run (prompt answer : string) g w :
  input prompt answer (g, w) = Normal answer (g, printed prompt w).
Proof. reflexivity. Qed.

Lemma path_exists_run (p : string) g w :
  path_exists p (g, w) = Normal (bool_decide (p ∈ fs w)) (g, w).
Proof. reflexivity. Qed.

Lemma before_init_dir C w :
  "temp_charts/" ∈ fs (before_init C w) ↔ "temp_charts/" ∈ fs w.
Proof.
  unfold before_init. destruct (uses_sample C w); cbn [printed with_path fs]; [|done].
  rewrite elem_of_union, elem_of_singleton. unfold sample_path. split; [|by right].
  by intros [?|?].
Qed.

(** The constructor in [main], when it returns and when it raises. *)
Lemma init_before_load E C g w :
  init_returns E w →
  init E (g, before_init C w) = Normal () (new_generator, before_load C w).
Proof.
  intros Hinit. rewrite init_run. unfold before_load.
  destruct (bool_decide ("temp_charts/" ∈ fs (before_init C w))) eqn:Hdir; [done|].
  apply bool_decide_eq_false in Hdir. rewrite before_init_dir in Hdir.
  destruct Hinit as [Hex|Hok]; [done|]. by rewrite Hok.
Qed.

Lemma init_before_load_raises E C g w e :
  "temp_charts/" ∉ fs w → makedirs_raises E "temp_charts/" = Some e →
  init E (g, before_init C w) = Raised e (new_generator, before_init C w).
Proof.
  intros Hdir He. rewrite init_run, He.
  rewrite bool_decide_eq_false_2; [done|]. by rewrite before_init_dir.
Qed.

Lemma main_before_init E C g w :
  main E C (g, w)
  = (init E ≫= λ _,
     load_data E (chosen_path C w) "auto" ≫= λ loaded : bool,
     if loaded then
       analyze_data ;;
       answer ← input "Enter report title (or press Enter for default): "
                      (title_answer C);
       let report_title := PyStr.strip answer in
       let report_title :=
         if decide (report_title = EmptyString)
         then "Automated Data Analysis Report" else report_title in
       let output_file := "report_" +:+ stamp C +:+ ".pdf" in
       generate_pdf_report E output_file report_title ;;
       print (String "010" ("Report generated: " +:+ output_file))
     else
       print "Failed to load data. Please check your file path and format.")
      (g, before_init C w).
Proof.
  unfold main.
  erewrite bind_Normal by apply print_run.
  erewrite bind_Normal by apply print_run.
  erewrite bind_Normal by apply input_run.
  erewrite bind_Normal by apply path_exists_run.
  cbn [printed fs].
  erewrite bind_Normal with (a := chosen_path C w) (s1 := (g, before_init C w));
    [reflexivity|].
  unfold chosen_path, before_init, uses_sample.
  destruct (bool_decide (PyStr.strip (path_answer C) = EmptyString)
            || negb (bool_decide (PyStr.strip (path_answer C) ∈ fs w)));
    reflexivity.
Qed.

(** [main] when the constructor raises. *)
Lemma main_init_raises E C g w e :
  "temp_charts/" ∉ fs w → makedirs_raises E "temp_charts/" = Some e →
  main E C (g, w) = Raised e (new_generator, before_init C w).
Proof.
  intros Hdir He. rewrite main_before_init.
  by erewrite bind_Raised by (by apply init_before_load_raises).
Qed.

(** [main] from the call of [load_data] on, when the constructor
    returns. *)
Lemma main_run E C g w :
  init_returns E w →
  main E C (g, w)
  = match load_data E (chosen_path C w) "auto" (new_generator, before_load C w) with
    | Normal true (g1, w1) =>
        match generate_pdf_report E (report_name C) (chosen_title C)
                (Generator (data g1) (match data g1 with
                                      | Some df => analysis_of df (analysis_results g1)
                                      | None => analysis_results g1
                                      end) (charts_path g1),
                 printed "Enter report title (or press Enter for default): "
                   (match data g1 with
                    | Some _ => w1
                    | None => printed "No data loaded for analysis" w1
                    end))
        with
        | Normal _ (g2, w2) =>
            Normal () (g2, printed (String "010" ("Report generated: " +:+ report_name C)) w2)
        | Raised e s2 => Raised e s2
        end
    | Normal false (g1, w1) => Normal () (g1, printed load_failure_line w1)
    | Raised e s1 => Raised e s1
    end.
Proof.
  intros Hinit. rewrite main_before_init.
  erewrite bind_Normal by (by apply init_before_load).
  unfold mbind at 1, M_bind at 1.
  destruct (load_data E (chosen_path C w) "auto" (new_generator, before_load C w))
    as [[] [g1 w1]|e s1]; [|reflexivity|reflexivity].
  assert (analyze_data (g1, w1)
          = Normal (bool_decide (is_Some (data g1)))
              (Generator (data g1) (match data g1 with
                                    | Some df => analysis_of df (analysis_results g1)
                                    | None => analysis_results g1
                                    end) (charts_path g1),
               match data g1 with
               | Some _ => w1
               | None => printed "No data loaded for analysis" w1
               end)) as Han.
  { destruct (data g1) as [df|] eqn:Hd.
    - rewrite (analyze_data_loaded g1 w1 df Hd). reflexivity.
    - unfold analyze_data. unfold mbind at 1, M_bind at 1, get_self. cbn [fst].
      rewrite Hd. destruct g1; cbn in *; subst; reflexivity. }
  erewrite bind_Normal by apply Han.
  erewrite bind_Normal by apply input_run.
  fold (chosen_title C). fold (report_name C).
  unfold mbind at 1, M_bind at 1.
  destruct (generate_pdf_report E (report_name C) (chosen_title C) _) as [r [g2 w2]|e s2];
    reflexivity.
Qed.

End cli_facts.

(** ** Facts about the report that the properties below share *)

Section report_facts.
Context `{Pandas scalar float}.
Implicit Types (E : @env scalar float) (g : @generator scalar float)
  (w : @world scalar float).

Lemma generate_charts_Normal E g w chart_files s' :
  generate_charts E (g, w) = Normal chart_files s' → chart_files = charts_of g.
Proof.
  intros Hrun. pose proof (generate_charts_outcome E g w) as Hout.
  rewrite Hrun in Hout. destruct Hout as [_ Hcf]. unfold charts_of.
  by destruct (data g).
Qed.

Lemma report_pages_all E generated_on report_title r (exist : gset string) chart_files :
  (∀ p, p ∈ chart_files → p ∈ exist) →
  report_pages E generated_on report_title r exist chart_files
  = [ title_blocks generated_on report_title r;
      overview_blocks r ++ match chart_files with
                           | p :: _ => chart_blocks E 44 p
                           | [] => []
                           end ]
    ++ (chart_blocks E 10 <$> tail chart_files)
    ++ match numeric_summary r with
       | Some summary_df => [stats_blocks summary_df]
       | None => []
       end.
Proof.
  intros Hex. unfold report_pages. f_equal; [|f_equal].
  - destruct chart_files as [|p rest]; [done|].
    rewrite decide_True; [done|]. apply Hex. left.
  - rewrite filter_all; [done|]. intros p Hp. apply Hex.
    destruct chart_files; [done|]. by right.
Qed.

Lemma plot_stable_grows w :
  plot_stable (λ s : @state scalar float, fs w ⊆ fs s.2 ∧ drawn w `prefix_of` drawn s.2).
Proof.
  split.
  - intros c g0 w0 [Hfs Hdr]. cbn [snd fs drawn]. split; [done|].
    by apply prefix_app_r.
  - intros q g0 w0 [Hfs Hdr]. cbn [snd fs drawn]. split; [set_solver|done].
Qed.

Lemma plot_stable_has (p line : string) :
  plot_stable (λ s : @state scalar float, p ∈ fs s.2 ∧ line ∈ stdout s.2).
Proof.
  split.
  - intros c g0 w0 [Hfs Hout]. cbn [snd fs stdout]. done.
  - intros q g0 w0 [Hfs Hout]. cbn [snd fs stdout]. split; [set_solver|done].
Qed.

End report_facts.

Section report_runs.
Context `{Pandas scalar float}.
Implicit Types (E : @env scalar float) (g : @generator scalar float)
  (w : @world scalar float).

(** A run of [generate_pdf_report] that returns. *)
Lemma generate_pdf_report_returns E g w output_path report_title r s' :
  generate_pdf_report E output_path report_title (g, w) = Normal r s' →
  ∃ w1,
    generate_charts E (g, w) = Normal (charts_of g) (g, w1) ∧
    output_raises E output_path = None ∧
    stdout w1 = stdout w ∧ written w1 = written w ∧
    fs w1 = fs w ∪ list_to_set (charts_of g) ∧ clock w1 = clock w ∧
    r = output_path ∧
    s' = (g, reported output_path
               (build_pdf E (now E (clock w)) report_title (analysis_results g)
                          (fs w1) (charts_of g))
               (charts_of g) w1).
Proof.
  intros Hrun.
  assert (output_raises E output_path = None) as Hout.
  { rewrite generate_pdf_report_run in Hrun.
    destruct (generate_charts E (g, w)); [|done].
    by destruct (output_raises E output_path). }
  apply generate_pdf_report_Normal in Hrun
    as (chart_files & w1 & Hcharts & _ & -> & ->).
  pose proof (generate_charts_Normal _ _ _ _ _ Hcharts) as ->.
  destruct (generate_charts_files _ _ _ _ _ Hcharts) as (_ & Hstd & Hwr & Hfs & Hclock).
  cbn [snd] in Hclock. exists w1. rewrite <- Hclock. repeat split; done.
Qed.

(** A run of [generate_pdf_report] when no plotting call raises. *)
Lemma generate_pdf_report_plots E g w output_path report_title :
  plots_ok E →
  ∃ w1,
    generate_charts E (g, w) = Normal (charts_of g) (g, w1) ∧
    stdout w1 = stdout w ∧ written w1 = written w ∧
    fs w1 = fs w ∪ list_to_set (charts_of g) ∧ clock w1 = clock w ∧
    generate_pdf_report E output_path report_title (g, w)
    = match output_raises E output_path with
      | Some e => Raised e (g, ticked w1)
      | None =>
          Normal output_path
            (g, reported output_path
                  (build_pdf E (now E (clock w)) report_title (analysis_results g)
                             (fs w1) (charts_of g))
                  (charts_of g) w1)
      end.
Proof.
  intros Hplots.
  destruct (generate_charts_total E g w Hplots) as (chart_files & [g1 w1] & Hcharts).
  pose proof (generate_charts_Normal _ _ _ _ _ Hcharts) as ->.
  destruct (generate_charts_files _ _ _ _ _ Hcharts) as (Hg & Hstd & Hwr & Hfs & Hclock).
  cbn [fst snd] in *. subst g1. exists w1. repeat split; try done.
  rewrite generate_pdf_report_run, Hcharts. cbn [fst snd]. by rewrite Hclock.
Qed.

Lemma pages_report E g generated_on report_title (exist : gset string) :
  (∀ p, p ∈ charts_of g → p ∈ exist) →
  pages (build_pdf E generated_on report_title (analysis_results g) exist (charts_of g))
  = [ title_blocks generated_on report_title (analysis_results g);
      overview_blocks (analysis_results g)
        ++ match charts_of g with
           | p :: _ => chart_blocks E 44 p
           | [] => []
           end ]
    ++ (chart_blocks E 10 <$> tail (charts_of g))
    ++ match numeric_summary (analysis_results g) with
       | Some summary_df => [stats_blocks summary_df]
       | None => []
       end.
Proof. intros Hex. rewrite pages_build_pdf. by apply report_pages_all. Qed.

End report_runs.

(** ** Paths and headings *)

Lemma append_assoc (a b c : string) : (a +:+ b) +:+ c = a +:+ (b +:+ c).
Proof.
  induction a as [|x a IH]; [reflexivity|].
  change (String x ((a +:+ b) +:+ c) = String x (a +:+ (b +:+ c))). by rewrite IH.
Qed.

Lemma basename_dir (dir file : string) :
  PyStr.basename (dir +:+ String "/" file) = PyStr.basename file.
Proof.
  unfold PyStr.basename.
  destruct (split_app_sep "/" dir file) as (p & l & -> & Hne & Hlast).
  by rewrite last_piece_cons.
Qed.

Section path_facts.
Context `{Pandas scalar float}.
Implicit Types (E : @env scalar float) (g : @generator scalar float)
  (w : @world scalar float) (C : console).

Lemma chart_title_dir (dir file : string) :
  chart_title (dir +:+ String "/" file) = chart_title file.
Proof. unfold chart_title. by rewrite basename_dir. Qed.

Lemma elem_of_charts_of g p :
  p ∈ charts_of g →
  p = overview_dashboard g ∨ p = correlation_matrix g ∨ p = categorical_analysis g.
Proof.
  unfold charts_of. destruct (data g) as [df|]; [|by intros ?%elem_of_nil].
  unfold charts_for.
  destruct (decide (2 ≤ numeric_count df)), (decide (1 ≤ categorical_count df));
    set_solver.
Qed.

Lemma report_name_not_chart C g :
  charts_path g = "temp_charts/" → report_name C ∉ charts_of g.
Proof.
  intros Hdir Hin. apply elem_of_charts_of in Hin.
  unfold overview_dashboard, correlation_matrix, categorical_analysis, report_name in Hin.
  rewrite Hdir in Hin. cbn [String.append] in Hin. by destruct Hin as [?|[?|?]].
Qed.

Lemma sample_path_not_chart g :
  charts_path g = "temp_charts/" → sample_path ∉ charts_of g.
Proof.
  intros Hdir Hin. apply elem_of_charts_of in Hin.
  unfold overview_dashboard, correlation_matrix, categorical_analysis, sample_path in Hin.
  rewrite Hdir in Hin. cbn [String.append] in Hin. by destruct Hin as [?|[?|?]].
Qed.

(** A path that is no chart path of the generator outlives the report,
    however the report ends. *)
Lemma generate_pdf_report_keeps E g w output_path report_title (p : string) :
  p ∉ charts_of g → p ∈ fs w →
  match generate_pdf_report E output_path report_title (g, w) with
  | Normal _ s' => p ∈ fs s'.2
  | Raised _ s' => p ∈ fs s'.2
  end.
Proof.
  intros Hp Hin. rewrite generate_pdf_report_run.
  pose proof (generate_charts_stable E _ (g, w) (plot_stable_grows w)
                (conj (reflexivity (fs w)) (reflexivity (drawn w)))) as Hgrow.
  destruct (generate_charts E (g, w)) as [chart_files s1|e s1] eqn:Hrun.
  - pose proof (generate_charts_Normal _ _ _ _ _ Hrun) as ->.
    destruct (output_raises E output_path); [by apply Hgrow|].
    cbn [snd reported fs]. apply elem_of_difference. split.
    + apply elem_of_union. right. by apply Hgrow.
    + by rewrite elem_of_list_to_set.
  - by apply Hgrow.
Qed.

Lemma before_init_frame C w :
  stdout w `prefix_of` stdout (before_init C w) ∧
  drawn (before_init C w) = drawn w ∧
  written (before_init C w) = written w ∧
  clock (before_init C w) = clock w ∧
  fs w ⊆ fs (before_init C w) ∧
  fs (before_init C w) ⊆ fs w ∪ {[sample_path]} ∧
  (uses_sample C w = true → sample_path ∈ fs (before_init C w)) ∧
  chosen_path C w ∈ fs (before_init C w).
Proof.
  unfold chosen_path, before_init.
  destruct (uses_sample C w) eqn:Huse;
    cbn [printed with_path fs stdout drawn written clock].
  - repeat split; try done; try set_solver.
    rewrite <- !app_assoc. by apply prefix_app_r.
  - assert (PyStr.strip (path_answer C) ∈ fs w) as Hex.
    { unfold uses_sample in Huse. apply orb_false_iff in Huse as [_ Hneg].
      apply negb_false_iff, bool_decide_eq_true in Hneg. exact Hneg. }
    repeat split; try done; try set_solver.
    rewrite <- !app_assoc. by apply prefix_app_r.
Qed.

Lemma before_load_frame C w :
  stdout w `prefix_of` stdout (before_load C w) ∧
  drawn (before_load C w) = drawn w ∧
  written (before_load C w) = written w ∧
  clock (before_load C w) = clock w ∧
  fs w ⊆ fs (before_load C w) ∧
  fs (before_load C w) ⊆ fs w ∪ {["temp_charts/"; sample_path]} ∧
  "temp_charts/" ∈ fs (before_load C w) ∧
  (uses_sample C w = true → sample_path ∈ fs (before_load C w)) ∧
  chosen_path C w ∈ fs (before_load C w).
Proof.
  destruct (before_init_frame C w)
    as (Hstd & Hdr & Hwr & Hck & Hfs & Hnew & Hsample & Hpath).
  unfold before_load.
  destruct (bool_decide ("temp_charts/" ∈ fs (before_init C w))) eqn:Hdir.
  - apply bool_decide_eq_true in Hdir. repeat split; try done. set_solver.
  - cbn [with_path fs stdout drawn written clock].
    repeat split; try done; set_solver.
Qed.

End path_facts.

(** ** The calls that the dashboard records *)

Section record_facts.
Context `{Pandas scalar float}.
Variable E : @env scalar float.

Lemma triple_plot_keep (J : @state scalar float → Prop) c :
  plot_stable J → triple J (plot E c) (λ _, J) (λ _ _, True).
Proof.
  intros HJ [g w] Hs. unfold plot. destruct (plot_raises E c); [done|].
  apply (proj1 HJ), Hs.
Qed.

Lemma triple_savefig_keep (J : @state scalar float → Prop) p :
  plot_stable J → triple J (savefig E p) (λ _, J) (λ _ _, True).
Proof.
  intros HJ. eapply triple_bind; [by apply triple_plot_keep|]. intros [] [g w] Hs.
  apply (proj2 HJ), Hs.
Qed.

Lemma triple_plot_record (J : @state scalar float → Prop) c :
  plot_stable J →
  triple J (plot E c) (λ _ s, J s ∧ c ∈ drawn s.2) (λ _ _, True).
Proof.
  intros HJ [g w] Hs. unfold plot. destruct (plot_raises E c); [done|].
  split; [apply (proj1 HJ), Hs|]. cbn [snd drawn]. apply elem_of_app. right. left.
Qed.

Lemma plot_stable_drawn (J : @state scalar float → Prop) (c : @plot_call scalar float) :
  plot_stable J → plot_stable (λ s, J s ∧ c ∈ drawn s.2).
Proof.
  intros [Hplot Hsave]. split.
  - intros c' g w [Hs Hc]. split; [by apply Hplot|]. cbn [snd drawn] in *.
    apply elem_of_app. by left.
  - intros p g w [Hs Hc]. split; [by apply Hsave|]. done.
Qed.

Lemma plot_stable_True : plot_stable (λ _ : @state scalar float, True).
Proof. by split. Qed.

End record_facts.

Ltac keep_step HJ :=
  first
    [ eapply triple_bind; [apply triple_plot_keep; exact HJ|intros []]
    | eapply triple_bind; [apply triple_savefig_keep; exact HJ|intros []] ].

Section record_run.
Context `{Pandas scalar float}.

(** When [generate_charts] returns on loaded data, the pie and the table
    of the dashboard have been drawn with these arguments. *)
Lemma generate_charts_records E g w df :
  data g = Some df →
  match generate_charts E (g, w) with
  | Normal _ s' => pie_call df ∈ drawn s'.2 ∧ table_call df ∈ drawn s'.2
  | Raised _ _ => True
  end.
Proof.
  intros Hdata. unfold generate_charts.
  unfold mbind at 1, M_bind at 1, get_self. cbn [fst]. rewrite Hdata.
  set (J0 := λ _ : @state scalar float, True).
  set (J1 := λ s : @state scalar float, J0 s ∧ pie_call df ∈ drawn s.2).
  set (J2 := λ s : @state scalar float, J1 s ∧ table_call df ∈ drawn s.2).
  assert (plot_stable J0) as H0 by apply plot_stable_True.
  assert (plot_stable J1) as H1 by (by apply plot_stable_drawn).
  assert (plot_stable J2) as H2 by (by apply plot_stable_drawn).
  assert (J0 (g, w)) as Hs by done.
  revert Hs. generalize (g, w).
  match goal with
  | |- ∀ s, J0 s → match ?m s with _ => _ end =>
      change (triple J0 m (λ (_ : list string) s',
                             pie_call df ∈ drawn s'.2 ∧ table_call df ∈ drawn s'.2)
                     (λ _ _, True))
  end.
  do 3 keep_step H0.
  eapply triple_bind with (R := λ _, J0).
  { destruct (decide (0 < series_sum (frame_sum (isnull df)))).
    - keep_step H0. by apply triple_plot_keep.
    - keep_step H0. by apply triple_plot_keep. }
  intros [].
  eapply triple_bind with (R := λ _, J1);
    [apply (triple_plot_record E J0 (pie_call df) H0)|intros []].
  keep_step H1.
  eapply triple_bind with (R := λ _, J1).
  { destruct (decide (0 < length (labels (select_dtypes is_number df)))).
    - keep_step H1. by apply triple_plot_keep.
    - by apply triple_ret. }
  intros []. do 2 keep_step H1.
  eapply triple_bind with (R := λ _, J2);
    [apply (triple_plot_record E J1 (table_call df) H1)|intros []].
  do 6 keep_step H2.
  eapply triple_bind with (R := λ _, J2).
  { destruct (decide (1 < length (labels (select_dtypes is_number df)))).
    - do 6 keep_step H2. by apply triple_ret.
    - by apply triple_ret. }
  intros chart_files.
  eapply triple_bind with (R := λ _, J2).
  { destruct (decide (0 < length (labels (select_dtypes is_object df)))).
    - do 2 keep_step H2.
      eapply triple_bind with (R := λ _, J2).
      { apply triple_for_each. intros [i col] Hcol.
        eapply triple_bind with (R := λ _, J2).
        - apply triple_getitem.
          apply elem_of_lookup_imap in Hcol as (j & col' & [= -> ->] & Hj).
          apply list_elem_of_lookup_2, subseteq_take in Hj.
          by apply labels_select_dtypes in Hj.
        - intros c. do 2 keep_step H2. by apply triple_plot_keep. }
      intros [].
      eapply triple_bind with (R := λ _, J2).
      { apply triple_for_each. intros i _. by apply triple_plot_keep. }
      intros []. do 3 keep_step H2. by apply triple_ret.
    - by apply triple_ret. }
  intros cf. apply triple_ret. intros s [[_ Hpie] Htable]. done.
Qed.

End record_run.

(** ** The correlation matrix *)


Section correlation_facts.
Context `{Pandas scalar float}.
Implicit Types (df : DataFrame scalar) (x : list (cell scalar)).






End correlation_facts.

(** * The claims *)

(** ** The claims about [analyze_data] *)

Section analysis_claims.
Context `{Pandas scalar float}.
Implicit Types (df : DataFrame scalar) (g : @generator scalar float)
  (w : @world scalar float).

(** C1: for a loaded, well-formed frame [analyze_data] returns [True] and
    the [missing_values] it records under [basic_stats] is the number of
    null cells found by scanning every row and, in it, every column. *)
Theorem analyze_data_missing_values g w df :
  data g = Some df → wf_frame df →
  ∃ g' bs,
    analyze_data (g, w) = Normal true (g', w) ∧
    basic_stats (analysis_results g') = Some bs ∧
    missing_values bs = scan_nulls df.
Proof.
  intros Hdata Hwf. eexists _, _. split; [by apply analyze_data_loaded|].
  split; [reflexivity|]. by apply missing_values_scan.
Qed.

(** C4, as amended: after [analyze_data] on a loaded, well-formed frame,
    every column of dtype object (the columns that [analyze_data] takes as
    categorical; a bool or datetime column is not numeric either, and is
    left out) has an entry in [categorical_summary], and no other label
    has one; its
    [unique_values] is the number of distinct non-null values of the
    column, its [top_values] has [min 5 unique_values] items, sorted by
    count with the largest first, and each item is a non-null value of
    the column with the number of its occurrences. *)
Theorem analyze_data_top_values g w df c :
  data g = Some df → wf_frame df →
  c ∈ columns df → col_dtype c = Object →
  ∃ g' summary entry,
    analyze_data (g, w) = Normal true (g', w) ∧
    categorical_summary (analysis_results g') = Some summary ∧
    (∀ name, is_Some (summary !! name) → name ∈ labels (select_dtypes is_object df)) ∧
    summary !! col_name c = Some entry ∧
    length (top_values entry) = 5 `min` unique_values entry ∧
    Sorted count_ge (top_values entry) ∧
    (∃ distinct, NoDup distinct ∧ (∀ v, v ∈ distinct ↔ Some v ∈ col_cells c) ∧
                 unique_values entry = length distinct) ∧
    (∀ v n, (v, n) ∈ top_values entry →
            Some v ∈ col_cells c ∧ n = occurrences v (dropna (col_cells c)) ∧ 0 < n).
Proof.
  intros Hdata Hwf Hc Hobj.
  assert (col_name c ∈ labels (select_dtypes is_object df)) as Hlabel.
  { unfold labels, select_dtypes. cbn [columns]. apply list_elem_of_fmap.
    exists c. split; [done|]. apply list_elem_of_filter. by rewrite Hobj. }
  assert (0 < length (labels (select_dtypes is_object df))) as Hpos.
  { destruct (labels (select_dtypes is_object df)); [by apply elem_of_nil in Hlabel|].
    simpl. lia. }
  assert (∀ col, col ∈ labels (select_dtypes is_object df) → is_Some (getitem df col))
    as Hcols.
  { intros col Hcol%labels_select_dtypes.
    destruct (getitem_is_Some df col Hcol) as (c' & -> & _). eauto. }
  exists (Generator (Some df) (analysis_of df (analysis_results g)) (charts_path g)).
  exists (fill_categorical df (labels (select_dtypes is_object df)) ∅), (cat_entry_of c).
  split; [by apply analyze_data_loaded|].
  split.
  { unfold analysis_of. cbn [analysis_results categorical_summary].
    by destruct (decide (0 < length (labels (select_dtypes is_object df)))). }
  split.
  { intros name. rewrite fill_categorical_lookup by done.
    destruct (decide (name ∈ labels (select_dtypes is_object df))); [done|].
    rewrite lookup_empty. by intros [? ?]. }
  split.
  { rewrite fill_categorical_lookup by done.
    destruct (decide (col_name c ∈ labels (select_dtypes is_object df))); [|done].
    by rewrite getitem_column. }
  unfold cat_entry_of. cbn [top_values unique_values].
  unfold head, value_counts, nunique.
  split.
  { by rewrite length_take, length_count_values. }
  split.
  { apply Sorted_take, Sorted_count_values. }
  split.
  { exists (unique (dropna (col_cells c))). split; [apply NoDup_unique|].
    split; [|done]. intros v. by rewrite elem_of_unique, elem_of_dropna. }
  intros v n (i & Hi & _)%elem_of_take.
  apply list_elem_of_lookup_2, elem_of_count_values in Hi as [Hv ->].
  split; [by apply elem_of_dropna|]. split; [done|]. by apply occurrences_pos.
Qed.


End analysis_claims.

(** ** The claims about [generate_charts] and [generate_pdf_report] *)

Section report_claims.
Context `{Pandas scalar float}.
Implicit Types (df : DataFrame scalar) (g : @generator scalar float)
  (w : @world scalar float) (E : @env scalar float).

(** C2: for a loaded frame, the list that [generate_charts] returns is a
    function of the number of numeric and of text columns: the overview
    dashboard is always in it, the correlation matrix exactly when there
    are two numeric columns or more, the categorical analysis exactly when
    there is a text column, and with neither kind of column the list is
    the overview dashboard alone.  The list is returned whenever no
    plotting call raises. *)
Theorem generate_charts_artifacts E g w df :
  data g = Some df →
  (∀ chart_files s',
     generate_charts E (g, w) = Normal chart_files s' →
     chart_files = charts_for g (numeric_count df) (categorical_count df) ∧
     overview_dashboard g ∈ chart_files ∧
     (correlation_matrix g ∈ chart_files ↔ 2 ≤ numeric_count df) ∧
     (categorical_analysis g ∈ chart_files ↔ 1 ≤ categorical_count df) ∧
     (numeric_count df = 0 → categorical_count df = 0 →
      chart_files = [overview_dashboard g])) ∧
  (plots_ok E →
   ∃ s', generate_charts E (g, w)
         = Normal (charts_for g (numeric_count df) (categorical_count df)) s').
Proof.
  intros Hdata.
  pose proof (generate_charts_outcome E g w) as Hrun. rewrite Hdata in Hrun.
  split.
  - intros chart_files s' Heq. rewrite Heq in Hrun. destruct Hrun as [_ ->].
    split; [done|].
    destruct (charts_for_members g (numeric_count df) (categorical_count df))
      as (Hov & Hcorr & Hcat).
    repeat split; try tauto.
    intros Hn Hc. unfold charts_for. rewrite Hn, Hc. done.
  - intros Hok. destruct (generate_charts E (g, w)) as [chart_files s'|e s'].
    + destruct Hrun as [_ ->]. by exists s'.
    + by destruct Hrun as [Hnot _].
Qed.

(** C3: the document that [generate_pdf_report] assembles from a reading
    of the clock, an analysis result and a list of chart files that exist
    has
    [2 + max 0 (n - 1) + (1 if numeric_summary is present)] pages, [n]
    being the length of the list; this is the document that a run hands
    to the writer, [n] being the number of chart files that
    [generate_charts] returned in that run; and the run returns whenever
    no plotting call and not the writer raises. *)
Theorem generate_pdf_report_pages E g w output_path report_title :
  (∀ (generated_on : string) (r : @results scalar float) (exist : gset string)
     (chart_files : list string),
     (∀ p, p ∈ chart_files → p ∈ exist) →
     PDF.page_no (build_pdf E generated_on report_title r exist chart_files)
     = expected_pages (length chart_files) (has_key (numeric_summary r))) ∧
  (∀ r s',
     generate_pdf_report E output_path report_title (g, w) = Normal r s' →
     ∃ chart_files s1 pdf,
       generate_charts E (g, w) = Normal chart_files s1 ∧
       written s'.2 = written w ++ [(output_path, pdf)] ∧
       PDF.page_no pdf
       = expected_pages (length chart_files)
                        (has_key (numeric_summary (analysis_results g)))) ∧
  (plots_ok E → output_raises E output_path = None →
   ∃ s', generate_pdf_report E output_path report_title (g, w) = Normal output_path s').
Proof.
  split; [intros generated_on r exist chart_files; apply page_no_build_pdf_all|].
  split; [|apply generate_pdf_report_total].
  intros r s' (chart_files & w1 & Hcharts & Hinv & -> & ->)%generate_pdf_report_Normal.
  destruct Hinv as (_ & _ & Hwr & Hsaved & _). cbn [fst snd] in *.
  eexists chart_files, (g, w1), _. split; [done|]. cbn [snd reported written].
  split; [by rewrite Hwr|]. by apply page_no_build_pdf_all.
Qed.

(** C5, where the code departs from the claim: when the table call refuses
    a [cellText] without rows, as [Axes.table] of matplotlib does,
    [generate_pdf_report] on a frame without rows raises inside
    [generate_charts] and hands no document to the writer. *)
Theorem empty_frame_report_raises E g w df output_path report_title :
  data g = Some df → nrows df = 0 →
  is_Some (plot_raises E (Table [] [])) →
  ∃ e s',
    generate_pdf_report E output_path report_title (g, w) = Raised e s' ∧
    s'.1 = g ∧ written s'.2 = written w.
Proof.
  intros Hdata Hrows Htable. rewrite generate_pdf_report_run.
  pose proof (generate_charts_empty E g w df Hdata Hrows Htable (g, w) eq_refl) as Hrun.
  destruct (generate_charts E (g, w)) as [chart_files s1|e s1]; [done|].
  destruct Hrun as [_ (saved & Hg & _ & Hwr & _)]. by exists e, s1.
Qed.

(** C6, as amended: when [generate_pdf_report] returns, that is when the
    writer accepted the document, the chart files that [generate_charts]
    returned in that run, which existed when the document was written,
    exist no more; and it returns whenever no plotting call and not the
    writer raises. *)
Theorem chart_files_removed_after_write E g w output_path report_title :
  (∀ r s',
     generate_pdf_report E output_path report_title (g, w) = Normal r s' →
     ∃ chart_files s1 pdf,
       generate_charts E (g, w) = Normal chart_files s1 ∧
       written s'.2 = written w ++ [(output_path, pdf)] ∧
       (∀ p, p ∈ chart_files → p ∈ fs s1.2) ∧
       (∀ p, p ∈ chart_files → p ∉ fs s'.2)) ∧
  (plots_ok E → output_raises E output_path = None →
   ∃ s', generate_pdf_report E output_path report_title (g, w) = Normal output_path s').
Proof.
  split; [|apply generate_pdf_report_total].
  intros r s' (chart_files & w1 & Hcharts & Hinv & -> & ->)%generate_pdf_report_Normal.
  destruct Hinv as (_ & _ & Hwr & Hsaved & _). cbn [fst snd] in *.
  eexists chart_files, (g, w1), _. split; [done|]. cbn [snd reported written fs].
  split; [by rewrite Hwr|]. split; [done|].
  intros p Hp. rewrite elem_of_difference, elem_of_list_to_set. tauto.
Qed.

(** C7, as amended: when [generate_pdf_report] returns, every chart file
    of the run stands on the document, by its image or, where
    [pdf.image] raised, by the line "Chart could not be loaded: <path>";
    the page count is the same in both cases, and the report returns
    whatever images fail, as long as no plotting call and not the writer
    raises. *)
Theorem image_failure_degrades_to_notice E g w output_path report_title :
  (∀ r s',
     generate_pdf_report E output_path report_title (g, w) = Normal r s' →
     ∃ chart_files s1 pdf,
       generate_charts E (g, w) = Normal chart_files s1 ∧
       written s'.2 = written w ++ [(output_path, pdf)] ∧
       PDF.page_no pdf
       = expected_pages (length chart_files)
                        (has_key (numeric_summary (analysis_results g))) ∧
       ∀ p, p ∈ chart_files →
            if image_raises E p then has_block (image_notice p) pdf
            else ∃ at_y, has_block (Image p at_y) pdf) ∧
  (plots_ok E → output_raises E output_path = None →
   ∃ s', generate_pdf_report E output_path report_title (g, w) = Normal output_path s').
Proof.
  split; [|apply generate_pdf_report_total].
  intros r s' (chart_files & w1 & Hcharts & Hinv & -> & ->)%generate_pdf_report_Normal.
  destruct Hinv as (_ & _ & Hwr & Hsaved & _). cbn [fst snd] in *.
  eexists chart_files, (g, w1), _. split; [done|]. cbn [snd reported written].
  split; [by rewrite Hwr|]. split; [by apply page_no_build_pdf_all|].
  intros p Hp.
  destruct (build_pdf_chart_block E (now E (clock w1)) report_title (analysis_results g)
              (fs w1)
              chart_files p Hp (Hsaved p Hp)) as (b & Hb & Hhas).
  unfold chart_block in Hb. destruct (image_raises E p).
  - by subst b.
  - destruct Hb as [at_y ->]. by exists at_y.
Qed.

End report_claims.

(** ** The claims about [load_data] *)

Section load_claims.
Context `{Pandas scalar float}.
Implicit Types (g : @generator scalar float) (w : @world scalar float)
  (E : @env scalar float).

(** C9: with [file_type='auto'] and a path whose extension is none of csv,
    xlsx, xls and json, [load_data] returns [False], prints the
    unsupported-file-type error and leaves the generator, hence its
    dataset, as it was: no frame is produced.  The extension is the text
    after the last dot, lowered; in particular, for a path [stem.ext]
    whose [ext] has no dot it is [ext], lowered. *)
Theorem load_data_unsupported E g w :
  (∀ file_path,
     extension file_path ∉ ["csv"; "xlsx"; "xls"; "json"] →
     load_data E file_path "auto" (g, w)
     = Normal false
         (g, printed ("Error loading data: Unsupported file type: "
                        +:+ extension file_path) w)) ∧
  (∀ stem ext,
     free_of "." ext → PyStr.lower ext ∉ ["csv"; "xlsx"; "xls"; "json"] →
     load_data E (stem +:+ String "." ext) "auto" (g, w)
     = Normal false
         (g, printed ("Error loading data: Unsupported file type: "
                        +:+ PyStr.lower ext) w)).
Proof.
  assert (∀ file_path,
     extension file_path ∉ ["csv"; "xlsx"; "xls"; "json"] →
     load_data E file_path "auto" (g, w)
     = Normal false
         (g, printed ("Error loading data: Unsupported file type: "
                        +:+ extension file_path) w)) as Hunsupported.
  { intros file_path Hext. rewrite load_data_run. unfold resolved_type.
    rewrite decide_True by done. by rewrite reader_for_None. }
  split; [done|].
  intros stem ext Hfree Hext. rewrite Hunsupported; rewrite extension_dotted; done.
Qed.

(** C10: [load_data] never raises; it returns [False] exactly when the
    file type has no reader or the reader raises, and then the generator
    is as before the call; when it returns [True] the dataset is the frame
    that the reader returned. *)
Theorem load_data_total_atomic E g w file_path file_type :
  ∃ b g' w',
    load_data E file_path file_type (g, w) = Normal b (g', w') ∧
    (b = false ↔
       reader_for (resolved_type file_path file_type) = None ∨
       ∃ r e, reader_for (resolved_type file_path file_type) = Some r ∧
              read_file E r file_path = inl e) ∧
    (b = false → g' = g) ∧
    (b = true →
       ∃ r df, reader_for (resolved_type file_path file_type) = Some r ∧
               read_file E r file_path = inr df ∧ data g' = Some df).
Proof.
  rewrite load_data_run.
  destruct (reader_for (resolved_type file_path file_type)) as [r|].
  - destruct (read_file E r file_path) as [e|df] eqn:Hread.
    + eexists false, _, _. split; [done|]. split; [|split; [done|done]].
      split; [|done]. intros _. right. by exists r, e.
    + eexists true, _, _. split; [done|]. split; [|split; [done|]].
      * split; [done|]. intros [?|(r' & e & [= <-] & Hr)]; [done|congruence].
      * intros _. by exists r, df.
  - eexists false, _, _. split; [done|]. split; [|split; [done|done]].
    split; [|done]. intros _. by left.
Qed.

End load_claims.

(** ** The theorems at the sample inputs *)

Lemma wf_sample_frame : wf_frame sample_frame.
Proof. apply (bool_decide_unpack _). vm_compute. exact I. Defined.

Lemma env_ok_plots : plots_ok env_ok.
Proof. intros c. reflexivity. Defined.

Lemma env_no_image_plots : plots_ok env_no_image.
Proof. intros c. reflexivity. Defined.

Lemma analyze_data_missing_values_witness :
  ∃ g' bs,
    analyze_data (loaded sample_frame, sample_world) = Normal true (g', sample_world) ∧
    basic_stats (analysis_results g') = Some bs ∧
    missing_values bs = scan_nulls sample_frame.
Proof.
  apply (analyze_data_missing_values (loaded sample_frame) sample_world sample_frame).
  - reflexivity.
  - exact wf_sample_frame.
Defined.

Lemma generate_charts_artifacts_witness :
  ∃ s', generate_charts env_ok (loaded sample_frame, sample_world)
        = Normal ["temp_charts/overview_dashboard.png";
                  "temp_charts/categorical_analysis.png"] s'.
Proof.
  destruct (generate_charts_artifacts env_ok (loaded sample_frame) sample_world
              sample_frame eq_refl) as [_ Hreturns].
  exact (Hreturns env_ok_plots).
Defined.

Lemma generate_pdf_report_pages_witness :
  ∃ chart_files s1 pdf s',
    generate_pdf_report env_ok "report.pdf" "Report" (analysed sample_frame, sample_world)
    = Normal "report.pdf" s' ∧
    generate_charts env_ok (analysed sample_frame, sample_world) = Normal chart_files s1 ∧
    written s'.2 = [("report.pdf", pdf)] ∧
    PDF.page_no pdf = expected_pages (length chart_files) true.
Proof.
  destruct (generate_pdf_report_pages env_ok (analysed sample_frame) sample_world
              "report.pdf" "Report") as (_ & Hpages & Hreturns).
  destruct (Hreturns env_ok_plots eq_refl) as [s' Hrun].
  destruct (Hpages _ _ Hrun) as (chart_files & s1 & pdf & Hcharts & Hwritten & Hno).
  exists chart_files, s1, pdf, s'. repeat split; assumption.
Defined.

Lemma analyze_data_top_values_witness :
  ∃ g' summary entry,
    analyze_data (loaded skewed_frame, sample_world) = Normal true (g', sample_world) ∧
    categorical_summary (analysis_results g') = Some summary ∧
    summary !! "tag" = Some entry ∧
    length (top_values entry) = 5 `min` unique_values entry ∧
    Sorted count_ge (top_values entry).
Proof.
  destruct (analyze_data_top_values (loaded skewed_frame) sample_world skewed_frame
              (Column "tag" Object
                 (replicate 10 (Some (PStr "x")) ++
                  [Some (PStr "p"); Some (PStr "q"); Some (PStr "r")])))
    as (g' & summary & entry & Hrun & Hsum & _ & Hentry & Hlen & Hsorted & _).
  - reflexivity.
  - apply (bool_decide_unpack _). vm_compute. exact I.
  - apply list_elem_of_here.
  - reflexivity.
  - exists g', summary, entry. repeat split; assumption.
Defined.

Lemma empty_frame_report_raises_witness :
  ∃ e s',
    generate_pdf_report env_table_needs_rows "report.pdf" "Report"
      (loaded empty_frame, sample_world) = Raised e s' ∧
    s'.1 = loaded empty_frame ∧ written s'.2 = [].
Proof.
  apply (empty_frame_report_raises env_table_needs_rows (loaded empty_frame) sample_world
           empty_frame).
  - reflexivity.
  - reflexivity.
  - by eexists.
Defined.

Lemma chart_files_removed_after_write_witness :
  ∃ chart_files s1 s',
    generate_pdf_report env_ok "report.pdf" "Report" (loaded sample_frame, sample_world)
    = Normal "report.pdf" s' ∧
    generate_charts env_ok (loaded sample_frame, sample_world) = Normal chart_files s1 ∧
    (∀ p, p ∈ chart_files → p ∈ fs s1.2) ∧
    (∀ p, p ∈ chart_files → p ∉ fs s'.2).
Proof.
  destruct (chart_files_removed_after_write env_ok (loaded sample_frame) sample_world
              "report.pdf" "Report") as (Hremoved & Hreturns).
  destruct (Hreturns env_ok_plots eq_refl) as [s' Hrun].
  destruct (Hremoved _ _ Hrun) as (chart_files & s1 & pdf & Hcharts & _ & Hbefore & Hafter).
  exists chart_files, s1, s'. repeat split; assumption.
Defined.

Lemma image_failure_degrades_to_notice_witness :
  ∃ chart_files s1 pdf s',
    generate_pdf_report env_no_image "report.pdf" "Report"
      (loaded sample_frame, sample_world) = Normal "report.pdf" s' ∧
    generate_charts env_no_image (loaded sample_frame, sample_world)
    = Normal chart_files s1 ∧
    written s'.2 = [("report.pdf", pdf)] ∧
    ∀ p, p ∈ chart_files → has_block (image_notice p) pdf.
Proof.
  destruct (image_failure_degrades_to_notice env_no_image (loaded sample_frame)
              sample_world "report.pdf" "Report") as (Hnotice & Hreturns).
  destruct (Hreturns env_no_image_plots eq_refl) as [s' Hrun].
  destruct (Hnotice _ _ Hrun) as (chart_files & s1 & pdf & Hcharts & Hwritten & _ & Hblocks).
  exists chart_files, s1, pdf, s'. repeat split; assumption.
Defined.

Lemma load_data_unsupported_witness :
  load_data env_ok "notes.txt" "auto" (fresh_generator, sample_world)
  = Normal false
      (fresh_generator,
       printed "Error loading data: Unsupported file type: txt" sample_world).
Proof.
  destruct (load_data_unsupported env_ok fresh_generator sample_world) as [_ Hdotted].
  apply (Hdotted "notes" "txt").
  - vm_compute. repeat split; discriminate.
  - apply (bool_decide_unpack _). vm_compute. exact I.
Defined.

Lemma load_data_total_atomic_witness :
  ∃ b g' w',
    load_data env_ok "missing.csv" "csv" (loaded sample_frame, sample_world)
    = Normal b (g', w') ∧
    (b = false → g' = loaded sample_frame).
Proof.
  destruct (load_data_total_atomic env_ok (loaded sample_frame) sample_world
              "missing.csv" "csv") as (b & g' & w' & Hrun & _ & Hsame & _).
  exists b, g', w'. split; assumption.
Defined.


(** The specification's scenario of one text column whose top value occurs
    ten times next to three values that occur once. *)
Example skewed_top_values :
  head 5 (value_counts (replicate 10 (Some (PStr "x")) ++
                        [Some (PStr "p"); Some (PStr "q"); Some (PStr "r")]))
  = [(PStr "x", 10); (PStr "p", 1); (PStr "q", 1); (PStr "r", 1)].
Proof. vm_compute. reflexivity. Qed.

(** ** Where the code departs from the claims *)

(** C4 as stated fails: a bool column is not numeric, and [analyze_data]
    stores no entry for it; only the object column has one. *)
Lemma bool_column_has_no_top_values :
  is_number Bool = false ∧
  wf_frame flags_frame ∧
  ∃ g' summary,
    analyze_data (loaded flags_frame, sample_world) = Normal true (g', sample_world) ∧
    categorical_summary (analysis_results g') = Some summary ∧
    summary !! "active" = None ∧
    is_Some (summary !! "city").
Proof.
  split; [reflexivity|]. split.
  { apply (bool_decide_unpack _). vm_compute. exact I. }
  eexists _, _. split; [by apply (analyze_data_loaded _ _ flags_frame)|].
  split; [reflexivity|]. split.
  - vm_compute. reflexivity.
  - apply (bool_decide_unpack _). vm_compute. exact I.
Qed.


(** C6 as stated fails: when the writer raises, [generate_pdf_report]
    raises with it and the chart files it created are still on disk. *)
Lemma write_failure_leaves_chart_files :
  ("temp_charts/overview_dashboard.png" ∉ fs sample_world) ∧
  ∃ e s',
    generate_pdf_report env_unwritable "report.pdf" "Report"
      (loaded sample_frame, sample_world) = Raised e s' ∧
    exn_class e = "PermissionError" ∧
    "temp_charts/overview_dashboard.png" ∈ fs s'.2 ∧
    "temp_charts/categorical_analysis.png" ∈ fs s'.2.
Proof.
  split.
  { apply (bool_decide_unpack _). vm_compute. exact I. }
  eexists _, _. split.
  { vm_compute. reflexivity. }
  split; [reflexivity|].
  split; apply (bool_decide_unpack _); vm_compute; exact I.
Qed.

(** C7 as stated fails: when one panel of the dashboard cannot be drawn,
    [generate_charts] raises; no placeholder is drawn, no chart file is
    saved and no list of artifacts is returned. *)
Lemma panel_failure_aborts_charts :
  ∃ e s',
    generate_charts env_pie_fails (loaded sample_frame, sample_world) = Raised e s' ∧
    e = ValueError "Wedge sizes 'x' must be non negative values" ∧
    fs s'.2 = fs sample_world ∧
    drawn s'.2 = [ StyleUse "seaborn-v0_8"; Subplots 2 2;
                   Suptitle "Data Overview Dashboard";
                   MissingHeatmap (isnull sample_frame);
                   SetTitle "Missing Values Pattern" ].
Proof.
  eexists _, _. split.
  { vm_compute. reflexivity. }
  split; [reflexivity|]. split; reflexivity.
Qed.

(** * Further properties of the code *)

Section further_loading.
Context `{Pandas scalar float}.
Implicit Types (E : @env scalar float) (g : @generator scalar float)
  (w : @world scalar float).

(** X1: [__init__] returns exactly when the chart directory
    "temp_charts/" exists already or [os.makedirs] does not raise for it.
    Then it leaves no data, no analysis result and the directory in
    existence; nothing is printed, drawn or written, no other path is
    touched, and a second construction changes nothing, whatever
    [os.makedirs] would do (it is only called when the directory is
    missing).  Otherwise, when the directory is missing and [os.makedirs]
    raises, the exception leaves the constructor and nothing outside the
    object has changed. *)
Theorem init_makes_directory E g w :
  (init_returns E w →
   ∃ w',
     init E (g, w) = Normal () (new_generator, w') ∧
     fs w' = {["temp_charts/"]} ∪ fs w ∧
     stdout w' = stdout w ∧ drawn w' = drawn w ∧ written w' = written w ∧
     ∀ g0, init E (g0, w') = Normal () (new_generator, w')) ∧
  (∀ e, "temp_charts/" ∉ fs w → makedirs_raises E "temp_charts/" = Some e →
        init E (g, w) = Raised e (new_generator, w)).
Proof.
  split.
  - intros Hinit. rewrite init_run.
    destruct (bool_decide ("temp_charts/" ∈ fs w)) eqn:Hex.
    + apply bool_decide_eq_true in Hex. exists w. repeat split.
      * set_solver.
      * intros g0. rewrite init_run. by rewrite bool_decide_eq_true_2.
    + apply bool_decide_eq_false in Hex. destruct Hinit as [?|Hok]; [done|].
      rewrite Hok. eexists. split; [reflexivity|]. repeat split.
      intros g0. rewrite init_run. cbn [with_path fs].
      rewrite bool_decide_eq_true_2 by set_solver. reflexivity.
  - intros e Hex He. rewrite init_run, He. by rewrite bool_decide_eq_false_2.
Qed.

(** X2: with [file_type='auto'], [load_data] does what it does when it is
    given the lowered text after the last dot of the path as the file
    type; for a path [stem.ext] whose [ext] has no dot, that is [ext]
    lowered, so that the case of the extension does not matter. *)
Theorem load_data_auto_is_extension E (s : @state scalar float) file_path :
  load_data E file_path "auto" s = load_data E file_path (extension file_path) s ∧
  ∀ stem ext,
    file_path = stem +:+ String "." ext → free_of "." ext →
    load_data E file_path "auto" s = load_data E file_path (PyStr.lower ext) s.
Proof.
  destruct s as [g w].
  assert (load_data E file_path "auto" (g, w)
          = load_data E file_path (extension file_path) (g, w)) as Hauto.
  { by rewrite !load_data_run, resolved_type_extension. }
  split; [exact Hauto|]. intros stem ext -> Hfree.
  rewrite Hauto. by rewrite extension_dotted.
Qed.

(** X3: a file type that is given, other than "auto", is compared as it
    is with "csv", "xlsx", "xls" and "json": any other text, such as
    "CSV" or "excel", is refused whatever the path and its extension, with
    the unsupported-file-type error, [False] returned and the generator
    unchanged. *)
Theorem load_data_explicit_type_exact E g w file_path file_type :
  file_type ∉ ["auto"; "csv"; "xlsx"; "xls"; "json"] →
  load_data E file_path file_type (g, w)
  = Normal false
      (g, printed ("Error loading data: " +:+ "Unsupported file type: " +:+ file_type) w).
Proof.
  intros Hft. rewrite load_data_run.
  assert (resolved_type file_path file_type = file_type) as ->.
  { unfold resolved_type. rewrite decide_False; [done|]. set_solver. }
  rewrite reader_for_None; [done|]. set_solver.
Qed.

(** X4: [load_data] writes [self.data] and nothing else: whatever it is
    given, it returns having printed exactly one line, with the analysis
    results of an earlier [analyze_data] and the chart directory as they
    were and no path, plot or document touched; so after a successful load
    the stored analysis still describes the data set loaded before. *)
Theorem load_data_keeps_analysis E g w file_path file_type :
  ∃ b g' line,
    load_data E file_path file_type (g, w) = Normal b (g', printed line w) ∧
    analysis_results g' = analysis_results g ∧
    charts_path g' = charts_path g ∧
    (b = true → is_Some (data g')).
Proof.
  rewrite load_data_run.
  destruct (reader_for (resolved_type file_path file_type)) as [r|].
  - destruct (read_file E r file_path) as [e|df].
    + eexists false, g, _. repeat split; done.
    + eexists true, _, _. split; [reflexivity|]. repeat split; eauto.
  - eexists false, g, _. repeat split; done.
Qed.

End further_loading.

Section further_analysis.
Context `{Pandas scalar float}.
Implicit Types (g : @generator scalar float) (w : @world scalar float)
  (df : DataFrame scalar).

(** X5: [analyze_data] never removes a key of [self.analysis_results]:
    on a frame without numeric columns the keys [numeric_summary] and
    [correlations] keep what an earlier analysis stored, and on a frame
    without text columns [categorical_summary] does; a key that was
    present stays present. *)
Theorem analyze_data_keeps_stale_keys g w df :
  data g = Some df →
  ∃ r',
    analyze_data (g, w) = Normal true (Generator (Some df) r' (charts_path g), w) ∧
    (numeric_count df = 0 →
       numeric_summary r' = numeric_summary (analysis_results g) ∧
       correlations r' = correlations (analysis_results g)) ∧
    (categorical_count df = 0 →
       categorical_summary r' = categorical_summary (analysis_results g)) ∧
    (has_key (numeric_summary (analysis_results g)) = true →
       has_key (numeric_summary r') = true) ∧
    (has_key (correlations (analysis_results g)) = true →
       has_key (correlations r') = true) ∧
    (has_key (categorical_summary (analysis_results g)) = true →
       has_key (categorical_summary r') = true).
Proof.
  intros Hdata. exists (analysis_of df (analysis_results g)).
  split; [by apply analyze_data_loaded|].
  unfold analysis_of, numeric_count, categorical_count.
  cbn [numeric_summary correlations categorical_summary].
  destruct (decide (0 < length (labels (select_dtypes is_number df))));
    destruct (decide (0 < length (labels (select_dtypes is_object df))));
    repeat split; intros; try done; lia.
Qed.

(** X6: on loaded data [analyze_data] is idempotent: running it twice
    leaves the generator and the world as running it once does. *)
Theorem analyze_data_idempotent g w df :
  data g = Some df →
  (analyze_data ;; analyze_data) (g, w) = analyze_data (g, w).
Proof.
  intros Hdata. rewrite (analyze_data_loaded g w df Hdata).
  erewrite bind_Normal by (by apply analyze_data_loaded).
  rewrite (analyze_data_loaded
             (Generator (Some df) (analysis_of df (analysis_results g)) (charts_path g))
             w df eq_refl).
  cbn [analysis_results charts_path].
  by rewrite analysis_of_idemp.
Qed.

(** X7: on a loaded, well-formed frame with a numeric column,
    [analyze_data] stores both [numeric_summary] and [correlations] (also
    when there is a single numeric column).  The summary has the eight
    rows of [describe()] and one column for each numeric column of the
    frame, in frame order; the correlations have these labels as rows and
    as columns; and the cells are the statistic of the cells of that very
    column of the frame and the coefficient of the cells of the two
    columns, computed with the column that comes later among the numeric
    columns as its first argument: taking the numeric labels and selecting
    them again loses nothing. *)
Theorem analyze_data_numeric_summary g w df :
  data g = Some df → wf_frame df → 0 < numeric_count df →
  ∃ g' summary_df correlation,
    analyze_data (g, w) = Normal true (g', w) ∧
    numeric_summary (analysis_results g') = Some summary_df ∧
    correlations (analysis_results g') = Some correlation ∧
    sf_index summary_df = describe_index ∧
    sf_columns summary_df = labels (select_dtypes is_number df) ∧
    sf_index correlation = labels (select_dtypes is_number df) ∧
    sf_columns correlation = labels (select_dtypes is_number df) ∧
    ∀ c, c ∈ columns df → is_number (col_dtype c) = true →
      (∀ stat, sf_loc summary_df stat (col_name c) = describe_stat stat (col_cells c)) ∧
      (∀ c', c' ∈ columns df → is_number (col_dtype c') = true →
         sf_loc correlation (col_name c) (col_name c')
         = if decide (position (col_name c') (labels (select_dtypes is_number df))
                      ≤ position (col_name c) (labels (select_dtypes is_number df)))
           then pearson (col_cells c) (col_cells c')
           else pearson (col_cells c') (col_cells c)).
Proof.
  intros Hdata Hwf Hpos. unfold numeric_count in Hpos.
  exists (Generator (Some df) (analysis_of df (analysis_results g)) (charts_path g)).
  exists (describe (getitems df (labels (select_dtypes is_number df)))).
  exists (corr (getitems df (labels (select_dtypes is_number df)))).
  split; [by apply analyze_data_loaded|].
  unfold analysis_of. cbn [analysis_results numeric_summary correlations].
  rewrite !decide_True by done.
  split; [done|]. split; [done|].
  unfold describe, corr. cbn [sf_index sf_columns sf_loc].
  rewrite getitems_select_dtypes by done.
  repeat split; try done.
  - rewrite <- (getitems_select_dtypes is_number df) by done.
    by rewrite cells_of_select_dtypes.
  - intros c' Hc' Hn'. rewrite <- (getitems_select_dtypes is_number df) by done.
    by rewrite !cells_of_select_dtypes.
Qed.

(** X8: for every text column of a loaded, well-formed frame, the counts
    of the stored [top_values] and the nulls of the column never exceed
    the number of rows, and they add up to it exactly when the column has
    at most five distinct values: only then does the summary account for
    every row. *)
Theorem top_values_counts_sum g w df c :
  data g = Some df → wf_frame df → c ∈ columns df → col_dtype c = Object →
  ∃ g' summary entry,
    analyze_data (g, w) = Normal true (g', w) ∧
    categorical_summary (analysis_results g') = Some summary ∧
    summary !! col_name c = Some entry ∧
    sum_list_with snd (top_values entry) + column_nulls c ≤ nrows df ∧
    (sum_list_with snd (top_values entry) + column_nulls c = nrows df
     ↔ unique_values entry ≤ 5).
Proof.
  intros Hdata Hwf Hc Hobj.
  destruct (categorical_entry_lookup df (analysis_results g) c Hwf Hc Hobj)
    as (summary & Hsum & Hentry).
  exists (Generator (Some df) (analysis_of df (analysis_results g)) (charts_path g)).
  exists summary, (cat_entry_of c).
  split; [by apply analyze_data_loaded|]. split; [exact Hsum|]. split; [exact Hentry|].
  unfold cat_entry_of. cbn [top_values unique_values]. unfold head, value_counts, nunique.
  assert (length (col_cells c) = nrows df) as Hrows
    by exact (proj1 (Forall_forall _ _) (proj1 Hwf) c Hc).
  pose proof (length_dropna (col_cells c)) as Hdrop. fold (column_nulls c) in Hdrop.
  pose proof (sum_count_values (dropna (col_cells c))) as Htotal.
  pose proof (take_drop 5 (count_values (dropna (col_cells c)))) as Hsplit.
  rewrite <- Hsplit in Htotal. rewrite sum_list_with_app in Htotal.
  pose proof (length_count_values (dropna (col_cells c))) as Hlen.
  unfold cell in Hrows. split; [lia|]. split.
  - intros Heq.
    destruct (drop 5 (count_values (dropna (col_cells c)))) as [|[x n] rest] eqn:Hrest.
    + apply (f_equal length) in Hrest. rewrite length_drop in Hrest. simpl in Hrest. lia.
    + assert ((x, n) ∈ count_values (dropna (col_cells c))) as Hin.
      { rewrite <- Hsplit. apply elem_of_app. right. left. }
      apply elem_of_count_values in Hin as [Hx ->].
      pose proof (occurrences_pos x _ Hx). cbn [sum_list_with snd] in Htotal. lia.
  - intros Hle. rewrite drop_ge in Htotal by lia. cbn [sum_list_with] in Htotal. lia.
Qed.

(** X9: the basic statistics that [analyze_data] stores for a loaded,
    well-formed frame are consistent: the rows and columns are those of
    the frame, [data_types] has one entry for each column, and
    [missing_values] is at most rows times columns. *)
Theorem missing_values_bounded g w df :
  data g = Some df → wf_frame df →
  ∃ g' bs,
    analyze_data (g, w) = Normal true (g', w) ∧
    basic_stats (analysis_results g') = Some bs ∧
    total_rows bs = nrows df ∧
    total_columns bs = length (columns df) ∧
    length (data_types bs) = total_columns bs ∧
    missing_values bs ≤ total_rows bs * total_columns bs.
Proof.
  intros Hdata Hwf. eexists _, _. split; [by apply analyze_data_loaded|].
  split; [reflexivity|]. cbn [total_rows total_columns data_types missing_values].
  unfold len, ncols, dtypes. rewrite length_fmap. repeat split.
  rewrite missing_values_columns.
  etrans; [apply (sum_list_with_bound _ _ (nrows df))|lia].
  intros c Hc. by apply column_nulls_le.
Qed.

End further_analysis.

Section further_report.
Context `{Pandas scalar float}.
Implicit Types (E : @env scalar float) (g : @generator scalar float)
  (w : @world scalar float).

(** X10: what [generate_charts] does to the world.  Without data it
    returns the empty list and changes nothing.  When it returns, the
    generator, the printed lines and the written documents are as before
    and the paths that exist are those that existed and the chart files
    returned: no path is removed.  When a plotting call raises, the same
    holds except that only the chart files saved so far are added.  In
    both cases the plotting calls made before are still the first ones
    recorded. *)
Theorem generate_charts_effects E g w :
  (data g = None → generate_charts E (g, w) = Normal [] (g, w)) ∧
  match generate_charts E (g, w) with
  | Normal chart_files s' =>
      chart_files = charts_of g ∧
      s'.1 = g ∧ stdout s'.2 = stdout w ∧ written s'.2 = written w ∧
      fs s'.2 = fs w ∪ list_to_set chart_files ∧
      drawn w `prefix_of` drawn s'.2
  | Raised e s' =>
      s'.1 = g ∧ stdout s'.2 = stdout w ∧ written s'.2 = written w ∧
      fs w ⊆ fs s'.2 ∧
      drawn w `prefix_of` drawn s'.2
  end.
Proof.
  split.
  { intros Hdata. unfold generate_charts. unfold mbind, M_bind, get_self. cbn [fst].
    by rewrite Hdata. }
  pose proof (generate_charts_stable E _ (g, w) (plot_stable_grows w)
                (conj (reflexivity (fs w)) (reflexivity (drawn w)))) as Hgrow.
  pose proof (generate_charts_outcome E g w) as Hout.
  destruct (generate_charts E (g, w)) as [chart_files s'|e s'] eqn:Hrun.
  - destruct (generate_charts_files _ _ _ _ _ Hrun) as (Hg & Hstd & Hwr & Hfs & _).
    split; [by eapply generate_charts_Normal|]. repeat split; try done. apply Hgrow.
  - destruct Hout as [_ (saved & Hg & Hstd & Hwr & _)].
    repeat split; try done; apply Hgrow.
Qed.

(** X11: the document that a returning run of [generate_pdf_report]
    hands to the writer, page by page.  Page 1 holds the title, the two
    "Generated" lines (the first with the reading of the clock made in
    this run), the heading and the non-blank lines of the executive
    summary; page 2 holds the four overview lines and, under
    them, the heading of the first chart with its image 59 mm from the top
    (or the notice that it could not be loaded); every later chart has a
    page of its own, with its image 25 mm from the top; a last page lists,
    for at most three columns of the numeric summary, the mean, std, min
    and max.  No cell ever triggers an automatic page break.  The run
    returns whenever no plotting call and not the writer raises. *)
Theorem generate_pdf_report_layout E g w output_path report_title :
  (∀ r s',
     generate_pdf_report E output_path report_title (g, w) = Normal r s' →
     ∃ pdf,
       written s'.2 = written w ++ [(output_path, pdf)] ∧
       pages pdf
       = [ title_blocks (now E (clock w)) report_title (analysis_results g);
           overview_blocks (analysis_results g)
             ++ match charts_of g with
                | p :: _ => chart_blocks E 44 p
                | [] => []
                end ]
         ++ (chart_blocks E 10 <$> tail (charts_of g))
         ++ match numeric_summary (analysis_results g) with
            | Some summary_df => [stats_blocks summary_df]
            | None => []
            end) ∧
  (plots_ok E → output_raises E output_path = None →
   ∃ s', generate_pdf_report E output_path report_title (g, w) = Normal output_path s').
Proof.
  split.
  - intros r s' Hrun.
    apply generate_pdf_report_returns in Hrun
      as (w1 & _ & _ & _ & Hwr & Hfs & _ & _ & ->).
    eexists. split; [cbn [snd reported written]; by rewrite Hwr|].
    apply pages_report. intros p Hp. rewrite Hfs. apply elem_of_union. right.
    by apply elem_of_list_to_set.
  - intros Hplots Hwriter. by apply generate_pdf_report_total.
Qed.

(** X12: without data [generate_pdf_report] needs no plotting call: if
    the writer accepts the document it returns, having drawn nothing and
    removed nothing, and the document is the title page and the overview
    page, followed by the statistics page when an earlier analysis left a
    numeric summary; with no analysis result the three overview lines read
    "N/A". *)
Theorem report_without_data E g w output_path report_title :
  data g = None → output_raises E output_path = None →
  ∃ pdf,
    generate_pdf_report E output_path report_title (g, w)
    = Normal output_path (g, reported output_path pdf [] w) ∧
    pages pdf
    = [ title_blocks (now E (clock w)) report_title (analysis_results g);
        overview_blocks (analysis_results g) ]
      ++ match numeric_summary (analysis_results g) with
         | Some summary_df => [stats_blocks summary_df]
         | None => []
         end ∧
    (basic_stats (analysis_results g) = None →
     overview_blocks (analysis_results g)
     = [ Cell 10 "Data Overview"; Cell 8 "Total Rows: N/A";
         Cell 8 "Total Columns: N/A"; Cell 8 "Missing Values: N/A" ]).
Proof.
  intros Hdata Hwriter.
  assert (generate_charts E (g, w) = Normal [] (g, w)) as Hcharts.
  { unfold generate_charts. unfold mbind, M_bind, get_self. cbn [fst]. by rewrite Hdata. }
  eexists. split; [|split].
  - rewrite generate_pdf_report_run, Hcharts, Hwriter. reflexivity.
  - rewrite pages_build_pdf. unfold report_pages. cbn [tail filter fmap list_fmap].
    by rewrite app_nil_r.
  - intros Hnone. unfold overview_blocks, stat_text. by rewrite Hnone.
Qed.

(** X13: the paths after a returning run of [generate_pdf_report]: the
    output path is added to those that existed and then every chart path
    of the run is removed, also one that existed before the run.  So the
    report exists afterwards exactly when its path is not one of the
    chart paths, and any other path exists exactly when it did before.
    The generator is unchanged and one line is printed. *)
Theorem generate_pdf_report_files E g w output_path report_title r s' :
  generate_pdf_report E output_path report_title (g, w) = Normal r s' →
  s'.1 = g ∧
  stdout s'.2 = stdout w ++ ["Report generated successfully: " +:+ output_path] ∧
  fs s'.2 = ({[output_path]} ∪ fs w) ∖ list_to_set (charts_of g) ∧
  (output_path ∈ fs s'.2 ↔ output_path ∉ charts_of g) ∧
  (∀ p, p ≠ output_path → p ∉ charts_of g → p ∈ fs s'.2 ↔ p ∈ fs w).
Proof.
  intros Hrun.
  apply generate_pdf_report_returns in Hrun
    as (w1 & _ & _ & Hstd & _ & Hfs & _ & _ & ->).
  cbn [fst snd reported fs stdout]. rewrite Hstd, Hfs.
  split; [done|]. split; [done|]. split; [set_solver|]. split.
  - rewrite elem_of_difference, elem_of_list_to_set. set_solver.
  - intros p Hne Hp. rewrite elem_of_difference, elem_of_list_to_set. set_solver.
Qed.

(** X14: two runs of [generate_pdf_report] in a row, when no plotting
    call and not the writer raises: both return; each hands the writer a
    document built from the same results, charts and title, with the
    reading of the clock made in that run, so that the two documents have
    the same pages but for the "Generated on:" line of the title page;
    and the second run leaves the paths as the first run left them. *)
Theorem generate_pdf_report_twice E g w output_path report_title :
  plots_ok E → output_raises E output_path = None →
  ∃ s1 s2 (exist : gset string) later,
    generate_pdf_report E output_path report_title (g, w) = Normal output_path s1 ∧
    generate_pdf_report E output_path report_title s1 = Normal output_path s2 ∧
    written s2.2
    = written w
        ++ [ (output_path,
              build_pdf E (now E (clock w)) report_title (analysis_results g) exist
                        (charts_of g));
             (output_path,
              build_pdf E (now E (S (clock w))) report_title (analysis_results g) exist
                        (charts_of g)) ] ∧
    pages (build_pdf E (now E (clock w)) report_title (analysis_results g) exist
                     (charts_of g))
    = title_blocks (now E (clock w)) report_title (analysis_results g) :: later ∧
    pages (build_pdf E (now E (S (clock w))) report_title (analysis_results g) exist
                     (charts_of g))
    = title_blocks (now E (S (clock w))) report_title (analysis_results g) :: later ∧
    fs s2.2 = fs s1.2 ∧ s2.1 = g.
Proof.
  intros Hplots Hwriter.
  destruct (generate_pdf_report_plots E g w output_path report_title Hplots)
    as (w1 & _ & Hstd1 & Hwr1 & Hfs1 & Hck1 & Hrun1).
  rewrite Hwriter in Hrun1.
  set (pdf1 := build_pdf E (now E (clock w)) report_title (analysis_results g) (fs w1)
                         (charts_of g)) in *.
  destruct (generate_pdf_report_plots E g (reported output_path pdf1 (charts_of g) w1)
              output_path report_title Hplots)
    as (w2 & _ & Hstd2 & Hwr2 & Hfs2 & Hck2 & Hrun2).
  rewrite Hwriter in Hrun2.
  cbn [reported written fs clock] in Hwr2, Hfs2, Hrun2. rewrite Hck1 in Hrun2.
  assert (∀ p, p ∈ charts_of g → p ∈ fs w1) as Hex.
  { intros p Hp. rewrite Hfs1. apply elem_of_union. right. by apply elem_of_list_to_set. }
  eexists _, _, (fs w1), _. split; [exact Hrun1|]. split; [exact Hrun2|].
  cbn [fst snd reported written fs]. split; [|split; [|split; [|split; [|done]]]].
  - rewrite (build_pdf_ext E _ _ _ (fs w2) (fs w1)).
    + by rewrite Hwr2, Hwr1, <- app_assoc.
    + intros p Hp. rewrite Hfs2, Hfs1.
      rewrite !elem_of_union, !elem_of_difference, !elem_of_union,
        !elem_of_list_to_set. tauto.
  - rewrite (pages_report E g _ _ _ Hex). reflexivity.
  - rewrite (pages_report E g _ _ _ Hex). reflexivity.
  - rewrite Hfs2, Hfs1. apply set_eq. intros p.
    rewrite !elem_of_difference, !elem_of_union, !elem_of_difference, !elem_of_union,
      !elem_of_list_to_set. tauto.
Qed.

(** X15: when the writer raises (and no plotting call does),
    [generate_pdf_report] raises that exception: no document is recorded,
    no line is printed, and the chart files of the run are all left behind
    with the paths that existed before. *)
Theorem write_failure_outcome E g w output_path report_title e :
  plots_ok E → output_raises E output_path = Some e →
  ∃ w1,
    generate_pdf_report E output_path report_title (g, w) = Raised e (g, w1) ∧
    stdout w1 = stdout w ∧ written w1 = written w ∧
    fs w1 = fs w ∪ list_to_set (charts_of g).
Proof.
  intros Hplots Hwriter.
  destruct (generate_pdf_report_plots E g w output_path report_title Hplots)
    as (w1 & _ & Hstd & Hwr & Hfs & _ & Hrun).
  rewrite Hwriter in Hrun. by exists (ticked w1).
Qed.

End further_report.

Section further_headings.
Context `{Pandas scalar float}.
Implicit Types (g : @generator scalar float).

(** X16: the heading that the report puts over a chart is made from the
    file name alone: the directory part of the path plays no role, so for
    every chart directory that ends in a slash the three headings are
    "Overview Dashboard", "Correlation Matrix" and "Categorical
    Analysis". *)
Theorem chart_headings g dir :
  charts_path g = dir +:+ "/" →
  (∀ file, chart_title (charts_path g +:+ file) = chart_title file) ∧
  chart_title (overview_dashboard g) = "Overview Dashboard" ∧
  chart_title (correlation_matrix g) = "Correlation Matrix" ∧
  chart_title (categorical_analysis g) = "Categorical Analysis".
Proof.
  intros Hdir.
  assert (∀ file, chart_title (charts_path g +:+ file) = chart_title file) as Hfile.
  { intros file. rewrite Hdir, append_assoc. apply chart_title_dir. }
  split; [exact Hfile|].
  unfold overview_dashboard, correlation_matrix, categorical_analysis.
  rewrite !Hfile. repeat split; reflexivity.
Qed.

End further_headings.

Section further_main.
Context `{Pandas scalar float}.
Implicit Types (E : @env scalar float) (g : @generator scalar float)
  (w : @world scalar float) (C : console).

(** X17: when the constructor returns and the file that [main] settles
    on cannot be loaded (its extension has no reader, or the reader
    raises), [main] returns after printing the failure line: the new
    generator holds no data, nothing is drawn, no document is written, and
    the only paths that may be new are the chart directory and the sample
    file. *)
Theorem main_load_failure E C g w :
  init_returns E w →
  (reader_for (extension (chosen_path C w)) = None ∨
   ∃ r e, reader_for (extension (chosen_path C w)) = Some r ∧
          read_file E r (chosen_path C w) = inl e) →
  ∃ s',
    main E C (g, w) = Normal () s' ∧
    s'.1 = new_generator ∧
    last (stdout s'.2) = Some load_failure_line ∧
    drawn s'.2 = drawn w ∧ written s'.2 = written w ∧
    fs w ⊆ fs s'.2 ∧ fs s'.2 ⊆ fs w ∪ {["temp_charts/"; sample_path]}.
Proof.
  intros Hinit Hfail. rewrite main_run by done. rewrite load_data_run.
  assert (resolved_type (chosen_path C w) "auto" = extension (chosen_path C w)) as ->
    by reflexivity.
  destruct (before_load_frame C w) as (_ & Hdr & Hwr & _ & Hfs & Hnew & _).
  destruct Hfail as [->|(r & e & -> & ->)].
  - eexists. split; [reflexivity|]. cbn [fst snd printed stdout drawn written fs].
    repeat split; try done. by rewrite last_snoc.
  - eexists. split; [reflexivity|]. cbn [fst snd printed stdout drawn written fs].
    repeat split; try done. by rewrite last_snoc.
Qed.

(** X18: when the constructor returns, the file that [main] settles on
    loads and no plotting call and not the writer raises, [main] (whose
    two prompts are answered by the console) returns with the frame loaded
    and analysed from an empty result, having handed the writer one document
    under the name "report_<stamp>.pdf"; its title is the one typed, or
    "Automated Data Analysis Report" when the answer is blank; it is laid
    out as [generate_pdf_report] lays it out; the report exists
    afterwards, no chart file does, and the last line printed names the
    report. *)
Theorem main_writes_report E C g w r df :
  init_returns E w →
  reader_for (extension (chosen_path C w)) = Some r →
  read_file E r (chosen_path C w) = inr df →
  plots_ok E → output_raises E (report_name C) = None →
  ∃ s' pdf,
    main E C (g, w) = Normal () s' ∧
    s'.1 = Generator (Some df) (analysis_of df empty_results) "temp_charts/" ∧
    written s'.2 = written w ++ [(report_name C, pdf)] ∧
    pages pdf
    = [ title_blocks (now E (clock w)) (chosen_title C) (analysis_of df empty_results);
        overview_blocks (analysis_of df empty_results)
          ++ chart_blocks E 44 "temp_charts/overview_dashboard.png" ]
      ++ (chart_blocks E 10 <$> tail (charts_of s'.1))
      ++ match numeric_summary (analysis_of df empty_results) with
         | Some summary_df => [stats_blocks summary_df]
         | None => []
         end ∧
    report_name C ∈ fs s'.2 ∧
    (∀ p, p ∈ charts_of s'.1 → p ∉ fs s'.2) ∧
    last (stdout s'.2) = Some (String "010" ("Report generated: " +:+ report_name C)).
Proof.
  intros Hinit Hreader Hread Hplots Hwriter. rewrite main_run by done.
  rewrite load_data_run.
  assert (resolved_type (chosen_path C w) "auto" = extension (chosen_path C w)) as ->
    by reflexivity.
  rewrite Hreader, Hread. cbn [data analysis_results charts_path new_generator].
  set (g1 := Generator (Some df) (analysis_of df empty_results) "temp_charts/").
  match goal with
  | |- context [generate_pdf_report E _ _ (g1, ?w0)] => set (w1 := w0)
  end.
  destruct (generate_pdf_report_plots E g1 w1 (report_name C) (chosen_title C) Hplots)
    as (w2 & _ & Hstd & Hwr & Hfs & _ & ->).
  rewrite Hwriter.
  destruct (before_load_frame C w) as (_ & _ & Hwr0 & Hck0 & _).
  assert (clock w1 = clock w) as -> by exact Hck0.
  eexists _, _. split; [reflexivity|].
  cbn [fst snd printed reported stdout drawn written fs].
  split; [done|]. split; [by rewrite Hwr, <- Hwr0|]. split.
  { rewrite pages_report.
    - reflexivity.
    - intros p Hp. rewrite Hfs. apply elem_of_union. right.
      by apply elem_of_list_to_set. }
  split.
  { apply elem_of_difference. split; [set_solver|].
    rewrite elem_of_list_to_set. by apply report_name_not_chart. }
  split.
  { intros p Hp. rewrite elem_of_difference, elem_of_list_to_set. tauto. }
  by rewrite last_snoc.
Qed.

(** X19: when the typed path is blank or does not exist, [main] ignores
    it: two such answers give the same run, the file loaded is the sample
    file "sample_sales_data.csv", and however the run ends that file
    (which [create_sample_data] is taken to write without error) exists
    afterwards; so does the chart directory unless the constructor
    raised. *)
Theorem main_sample_fallback E C C' g w :
  uses_sample C w = true → uses_sample C' w = true →
  title_answer C' = title_answer C → stamp C' = stamp C →
  main E C' (g, w) = main E C (g, w) ∧
  chosen_path C w = sample_path ∧
  match main E C (g, w) with
  | Normal _ s' => sample_path ∈ fs s'.2 ∧ "temp_charts/" ∈ fs s'.2
  | Raised _ s' =>
      sample_path ∈ fs s'.2 ∧ (init_returns E w → "temp_charts/" ∈ fs s'.2)
  end.
Proof.
  intros Huse Huse' Htitle Hstamp.
  assert (chosen_path C w = sample_path) as Hpath by (unfold chosen_path; by rewrite Huse).
  assert (chosen_path C' w = chosen_path C w) as Hpath'
    by (unfold chosen_path; by rewrite Huse, Huse').
  assert (before_init C' w = before_init C w) as Hbefore
    by (unfold before_init; by rewrite Huse, Huse').
  assert (chosen_title C' = chosen_title C) as Htitle'
    by (unfold chosen_title; by rewrite Htitle).
  assert (report_name C' = report_name C) as Hname
    by (unfold report_name; by rewrite Hstamp).
  assert (init_returns E w ∨
          ("temp_charts/" ∉ fs w ∧ ∃ e, makedirs_raises E "temp_charts/" = Some e))
    as [Hinit|(Hdir & e & He)].
  { unfold init_returns. destruct (decide ("temp_charts/" ∈ fs w)); [by left; left|].
    destruct (makedirs_raises E "temp_charts/") as [e|]; [|by left; right].
    right. eauto. }
  - split; [|split; [exact Hpath|]].
    + rewrite !main_run by done. unfold before_load.
      by rewrite Hpath', Hbefore, Htitle', Hname.
    + rewrite main_run by done. rewrite load_data_run.
      destruct (before_load_frame C w) as (_ & _ & _ & _ & _ & _ & Hdir & Hsample & _).
      specialize (Hsample Huse).
      destruct (reader_for _) as [r|]; [|by cbn].
      destruct (read_file E r _) as [e|df]; [by cbn|].
      cbn [data analysis_results charts_path new_generator].
      set (g1 := Generator (Some df) (analysis_of df empty_results) "temp_charts/").
      match goal with
      | |- context [generate_pdf_report E _ _ (g1, ?w0)] => set (w1 := w0)
      end.
      pose proof (generate_pdf_report_keeps E g1 w1 (report_name C) (chosen_title C)
                    sample_path (sample_path_not_chart g1 eq_refl) Hsample) as Hs.
      assert ("temp_charts/" ∉ charts_of g1) as Hnot.
      { intros Hin%elem_of_charts_of. by destruct Hin as [?|[?|?]]. }
      pose proof (generate_pdf_report_keeps E g1 w1 (report_name C) (chosen_title C)
                    "temp_charts/" Hnot Hdir) as Hd.
      destruct (generate_pdf_report E (report_name C) (chosen_title C) (g1, w1))
        as [? [g2 w2]|e s2]; by cbn.
  - split; [|split; [exact Hpath|]].
    + rewrite !(main_init_raises E _ g w e) by done. by rewrite Hbefore.
    + rewrite (main_init_raises E C g w e) by done. cbn [snd].
      destruct (before_init_frame C w) as (_ & _ & _ & _ & _ & _ & Hsample & _).
      split; [by apply Hsample|]. intros [?|Hok]; [done|]. by rewrite Hok in He.
Qed.

End further_main.

Section further_dashboard.
Context `{Pandas scalar float}.
Implicit Types (E : @env scalar float) (g : @generator scalar float)
  (w : @world scalar float) (df : DataFrame scalar).

(** X20: what the dashboard hands to matplotlib.  When [generate_charts]
    returns on loaded data, the pie was drawn with one wedge for each
    dtype that occurs among the columns, each of positive size, the sizes
    adding up to the number of columns; and the table was drawn with the
    first rows of the frame, five at most, under the labels of the frame;
    for a frame without rows the table gets no row and no label at
    all. *)
Theorem dashboard_panels E g w df :
  data g = Some df →
  match generate_charts E (g, w) with
  | Normal _ s' => pie_call df ∈ drawn s'.2 ∧ table_call df ∈ drawn s'.2
  | Raised _ _ => True
  end ∧
  sum_list (snd <$> dtype_counts df) = ncols df ∧
  Forall (λ n, 0 < n) (snd <$> dtype_counts df) ∧
  NoDup (fst <$> dtype_counts df) ∧
  (∀ d, d ∈ fst <$> dtype_counts df ↔ ∃ c, c ∈ columns df ∧ col_dtype c = d) ∧
  length (values (table_data df)) = 5 `min` nrows df ∧
  (0 < nrows df →
     labels (table_data df) = labels df ∧
     Forall (λ row, length row = ncols df) (values (table_data df))) ∧
  (nrows df = 0 → table_call df = Table [] []).
Proof.
  intros Hdata. split; [by apply generate_charts_records|].
  unfold dtype_counts. split.
  { unfold ncols. rewrite <- (length_fmap col_dtype (columns df)).
    rewrite <- (sum_count_values (col_dtype <$> columns df)).
    generalize (count_values (col_dtype <$> columns df)). intros l.
    induction l as [|a l IH]; [done|]. cbn [fmap list_fmap sum_list sum_list_with].
    by rewrite <- IH. }
  split.
  { apply Forall_forall. intros n (p & -> & Hp)%list_elem_of_fmap. destruct p as [d n].
    apply elem_of_count_values in Hp as [Hd ->]. by apply occurrences_pos. }
  split; [apply NoDup_count_values_keys|]. split.
  { intros d. split.
    - intros (p & -> & Hp)%list_elem_of_fmap. destruct p as [d n].
      apply elem_of_count_values in Hp as [Hd _].
      apply list_elem_of_fmap in Hd as (c & -> & Hc). by exists c.
    - intros (c & Hc & <-). apply list_elem_of_fmap.
      exists (col_dtype c, occurrences (col_dtype c) (col_dtype <$> columns df)).
      split; [done|]. apply elem_of_count_values. split; [|done].
      apply list_elem_of_fmap. by exists c. }
  unfold table_call, table_data, len.
  destruct (decide (0 < nrows df)) as [Hpos|Hzero].
  - split; [|split; [|lia]].
    + unfold values. rewrite length_fmap, length_seq. done.
    + intros _. split.
      * unfold labels, round_frame, head_rows. cbn [columns].
        rewrite <- !list_fmap_compose. apply list_fmap_ext. intros i c _. cbn.
        by destruct (is_number (col_dtype c)).
      * unfold values. apply Forall_forall. intros row (i & -> & _)%list_elem_of_fmap.
        unfold ncols, round_frame, head_rows. cbn [columns].
        by rewrite !length_fmap.
  - split; [|split; [lia|done]].
    unfold values. cbn [nrows]. rewrite length_fmap, length_seq. lia.
Qed.

End further_dashboard.

(** ** The further properties at the sample inputs *)

Lemma env_unwritable_plots : plots_ok env_unwritable.
Proof. intros c. reflexivity. Defined.

Lemma init_makes_directory_witness :
  (∃ w',
     init env_ok (loaded sample_frame, user_world) = Normal () (fresh_generator, w') ∧
     fs w' = {["temp_charts/"]} ∪ fs user_world ∧
     ∀ g0, init env_ok (g0, w') = Normal () (fresh_generator, w')) ∧
  init env_no_makedirs (loaded sample_frame, user_world)
  = Raised (Exn "PermissionError" "Permission denied: temp_charts/")
           (fresh_generator, user_world).
Proof.
  destruct (init_makes_directory env_ok (loaded sample_frame) user_world) as [Hreturns _].
  destruct (init_makes_directory env_no_makedirs (loaded sample_frame) user_world)
    as [_ Hraises].
  split.
  - destruct Hreturns as (w' & Hrun & Hfs & _ & _ & _ & Hidem).
    + right. reflexivity.
    + exists w'. repeat split; assumption.
  - apply Hraises.
    + apply (bool_decide_unpack _). vm_compute. exact I.
    + reflexivity.
Defined.

Lemma load_data_auto_is_extension_witness :
  load_data env_ok "DATA.CSV" "auto" (fresh_generator, sample_world)
  = load_data env_ok "DATA.CSV" "csv" (fresh_generator, sample_world).
Proof.
  destruct (load_data_auto_is_extension env_ok (fresh_generator, sample_world) "DATA.CSV")
    as [_ Hdotted].
  apply (Hdotted "DATA" "CSV").
  - reflexivity.
  - vm_compute. repeat split; discriminate.
Defined.

Lemma load_data_explicit_type_exact_witness :
  load_data env_ok "data.csv" "CSV" (fresh_generator, sample_world)
  = Normal false
      (fresh_generator,
       printed "Error loading data: Unsupported file type: CSV" sample_world).
Proof.
  apply (load_data_explicit_type_exact env_ok fresh_generator sample_world "data.csv" "CSV").
  apply (bool_decide_unpack _). vm_compute. exact I.
Defined.

Lemma load_data_keeps_analysis_witness :
  ∃ b g' line,
    load_data env_ok "empty.csv" "auto" (analysed sample_frame, sample_world)
    = Normal b (g', printed line sample_world) ∧
    analysis_results g' = analysis_of sample_frame empty_results ∧
    (b = true → is_Some (data g')).
Proof.
  destruct (load_data_keeps_analysis env_ok (analysed sample_frame) sample_world
              "empty.csv" "auto") as (b & g' & line & Hrun & Hres & _ & Hdata).
  exists b, g', line. repeat split; assumption.
Defined.

Lemma analyze_data_keeps_stale_keys_witness :
  ∃ r',
    analyze_data (reloaded, sample_world)
    = Normal true (Generator (Some skewed_frame) r' "temp_charts/", sample_world) ∧
    numeric_summary r' = numeric_summary (analysis_of sample_frame empty_results) ∧
    has_key (numeric_summary r') = true.
Proof.
  destruct (analyze_data_keeps_stale_keys reloaded sample_world skewed_frame eq_refl)
    as (r' & Hrun & Hnumeric & _ & Hkey & _).
  exists r'. split; [exact Hrun|]. split.
  - apply Hnumeric. reflexivity.
  - apply Hkey. reflexivity.
Defined.

Lemma analyze_data_idempotent_witness :
  (analyze_data ;; analyze_data) (loaded sample_frame, sample_world)
  = analyze_data (loaded sample_frame, sample_world).
Proof.
  apply (analyze_data_idempotent (loaded sample_frame) sample_world sample_frame).
  reflexivity.
Defined.

Lemma analyze_data_numeric_summary_witness :
  ∃ g' summary_df correlation,
    analyze_data (loaded sample_frame, sample_world) = Normal true (g', sample_world) ∧
    numeric_summary (analysis_results g') = Some summary_df ∧
    correlations (analysis_results g') = Some correlation ∧
    sf_columns summary_df = ["qty"] ∧
    fmt_2f (sf_loc summary_df "count" "qty") = "2.00".
Proof.
  destruct (analyze_data_numeric_summary (loaded sample_frame) sample_world sample_frame)
    as (g' & summary_df & correlation & Hrun & Hsum & Hcorr & _ & Hcols & _ & _ & Hcells).
  - reflexivity.
  - exact wf_sample_frame.
  - vm_compute. lia.
  - destruct (Hcells (Column "qty" Int64 [Some (PInt 1); None; Some (PInt 3)]))
      as [Hstat _].
    + apply list_elem_of_here.
    + reflexivity.
    + exists g', summary_df, correlation. repeat split; try assumption.
      exact (f_equal fmt_2f (Hstat "count")).
Defined.

Lemma top_values_counts_sum_witness :
  ∃ g' summary entry,
    analyze_data (loaded skewed_frame, sample_world) = Normal true (g', sample_world) ∧
    categorical_summary (analysis_results g') = Some summary ∧
    summary !! "tag" = Some entry ∧
    (sum_list_with snd (top_values entry) + 0 = 13 ↔ unique_values entry ≤ 5).
Proof.
  destruct (top_values_counts_sum (loaded skewed_frame) sample_world skewed_frame
              (Column "tag" Object
                 (replicate 10 (Some (PStr "x")) ++
                  [Some (PStr "p"); Some (PStr "q"); Some (PStr "r")])))
    as (g' & summary & entry & Hrun & Hsum & Hentry & _ & Hexact).
  - reflexivity.
  - apply (bool_decide_unpack _). vm_compute. exact I.
  - apply list_elem_of_here.
  - reflexivity.
  - exists g', summary, entry. repeat split; try assumption; apply Hexact.
Defined.

Lemma missing_values_bounded_witness :
  ∃ g' bs,
    analyze_data (loaded sample_frame, sample_world) = Normal true (g', sample_world) ∧
    basic_stats (analysis_results g') = Some bs ∧
    total_rows bs = 3 ∧ total_columns bs = 2 ∧
    missing_values bs ≤ total_rows bs * total_columns bs.
Proof.
  destruct (missing_values_bounded (loaded sample_frame) sample_world sample_frame)
    as (g' & bs & Hrun & Hbs & Hrows & Hcols & _ & Hle).
  - reflexivity.
  - exact wf_sample_frame.
  - exists g', bs. repeat split; assumption.
Defined.

Lemma generate_charts_effects_witness :
  generate_charts env_ok (fresh_generator, sample_world)
  = Normal [] (fresh_generator, sample_world).
Proof.
  destruct (generate_charts_effects env_ok fresh_generator sample_world) as [Hnone _].
  apply Hnone. reflexivity.
Defined.

Lemma generate_pdf_report_layout_witness :
  ∃ s' pdf,
    generate_pdf_report env_ok "report.pdf" "Report" (analysed sample_frame, sample_world)
    = Normal "report.pdf" s' ∧
    written s'.2 = [("report.pdf", pdf)] ∧
    pages pdf
    = [ title_blocks "2024-01-01 00:00:00" "Report"
                     (analysis_of sample_frame empty_results);
        overview_blocks (analysis_of sample_frame empty_results)
          ++ [ Cell 10 "Overview Dashboard";
               Image "temp_charts/overview_dashboard.png" 59 ];
        [ Cell 10 "Categorical Analysis";
          Image "temp_charts/categorical_analysis.png" 25 ];
        [ Cell 10 "Statistical Summary"; Cell 8 "Column: qty";
          Cell 6 "Mean: 2.00"; Cell 6 "Std: 2.00"; Cell 6 "Min: 2.00";
          Cell 6 "Max: 2.00" ] ].
Proof.
  destruct (generate_pdf_report_layout env_ok (analysed sample_frame) sample_world
              "report.pdf" "Report") as (Hlayout & Hreturns).
  destruct (Hreturns env_ok_plots eq_refl) as [s' Hrun].
  destruct (Hlayout _ _ Hrun) as (pdf & Hwritten & Hpages).
  exists s', pdf. repeat split; assumption.
Defined.

Lemma report_without_data_witness :
  ∃ pdf,
    generate_pdf_report env_ok "report.pdf" "Report" (fresh_generator, sample_world)
    = Normal "report.pdf" (fresh_generator, reported "report.pdf" pdf [] sample_world) ∧
    pages pdf
    = [ title_blocks "2024-01-01 00:00:00" "Report" (analysis_results fresh_generator);
        [ Cell 10 "Data Overview"; Cell 8 "Total Rows: N/A";
          Cell 8 "Total Columns: N/A"; Cell 8 "Missing Values: N/A" ] ].
Proof.
  destruct (report_without_data env_ok fresh_generator sample_world "report.pdf" "Report"
              eq_refl eq_refl) as (pdf & Hrun & Hpages & _).
  exists pdf. split; assumption.
Defined.

Lemma generate_pdf_report_files_witness :
  ∃ s',
    generate_pdf_report env_ok "report.pdf" "Report" (loaded sample_frame, sample_world)
    = Normal "report.pdf" s' ∧
    "report.pdf" ∈ fs s'.2 ∧
    ("temp_charts/" ∈ fs s'.2 ↔ "temp_charts/" ∈ fs sample_world).
Proof.
  destruct (generate_pdf_report_total env_ok (loaded sample_frame) sample_world
              "report.pdf" "Report" env_ok_plots eq_refl) as [s' Hrun].
  destruct (generate_pdf_report_files env_ok (loaded sample_frame) sample_world
              "report.pdf" "Report" _ _ Hrun) as (_ & _ & _ & Hreport & Hother).
  exists s'. split; [exact Hrun|]. split.
  - apply Hreport. apply (bool_decide_unpack _). vm_compute. exact I.
  - apply Hother.
    + discriminate.
    + apply (bool_decide_unpack _). vm_compute. exact I.
Defined.

Lemma generate_pdf_report_twice_witness :
  ∃ s1 s2 (exist : gset string) later,
    generate_pdf_report env_ok "report.pdf" "Report" (loaded sample_frame, sample_world)
    = Normal "report.pdf" s1 ∧
    generate_pdf_report env_ok "report.pdf" "Report" s1 = Normal "report.pdf" s2 ∧
    written s2.2
    = [ ("report.pdf",
         build_pdf env_ok "2024-01-01 00:00:00" "Report" (analysis_results (loaded sample_frame)) exist
                   (charts_of (loaded sample_frame)));
        ("report.pdf",
         build_pdf env_ok "2024-01-01 00:00:01" "Report" (analysis_results (loaded sample_frame)) exist
                   (charts_of (loaded sample_frame))) ] ∧
    pages (build_pdf env_ok "2024-01-01 00:00:00" "Report" (analysis_results (loaded sample_frame)) exist
                     (charts_of (loaded sample_frame)))
    = title_blocks "2024-01-01 00:00:00" "Report" (analysis_results (loaded sample_frame)) :: later ∧
    pages (build_pdf env_ok "2024-01-01 00:00:01" "Report" (analysis_results (loaded sample_frame)) exist
                     (charts_of (loaded sample_frame)))
    = title_blocks "2024-01-01 00:00:01" "Report" (analysis_results (loaded sample_frame)) :: later ∧
    fs s2.2 = fs s1.2 ∧ s2.1 = loaded sample_frame.
Proof.
  apply (generate_pdf_report_twice env_ok (loaded sample_frame) sample_world
           "report.pdf" "Report").
  - exact env_ok_plots.
  - reflexivity.
Defined.

Lemma write_failure_outcome_witness :
  ∃ w1,
    generate_pdf_report env_unwritable "report.pdf" "Report"
      (loaded sample_frame, sample_world)
    = Raised (Exn "PermissionError" "Permission denied: report.pdf")
             (loaded sample_frame, w1) ∧
    stdout w1 = [] ∧ written w1 = [] ∧
    fs w1 = fs sample_world ∪ list_to_set (charts_of (loaded sample_frame)).
Proof.
  apply (write_failure_outcome env_unwritable (loaded sample_frame) sample_world
           "report.pdf" "Report").
  - exact env_unwritable_plots.
  - reflexivity.
Defined.

Lemma chart_headings_witness :
  chart_title (overview_dashboard fresh_generator) = "Overview Dashboard" ∧
  chart_title (correlation_matrix fresh_generator) = "Correlation Matrix" ∧
  chart_title (categorical_analysis fresh_generator) = "Categorical Analysis".
Proof.
  destruct (chart_headings fresh_generator "temp_charts" eq_refl) as [_ Hheadings].
  exact Hheadings.
Defined.

Lemma main_load_failure_witness :
  ∃ s',
    main env_ok console_notes (fresh_generator, user_world) = Normal () s' ∧
    s'.1 = fresh_generator ∧
    last (stdout s'.2) = Some load_failure_line ∧
    written s'.2 = [].
Proof.
  destruct (main_load_failure env_ok console_notes fresh_generator user_world)
    as (s' & Hrun & Hg & Hline & _ & Hwritten & _).
  - right. reflexivity.
  - left. vm_compute. reflexivity.
  - exists s'. repeat split; assumption.
Defined.

Lemma main_writes_report_witness :
  ∃ s' pdf,
    main env_ok console_data (fresh_generator, user_world) = Normal () s' ∧
    s'.1 = analysed sample_frame ∧
    written s'.2 = [("report_20240101_120000.pdf", pdf)] ∧
    "report_20240101_120000.pdf" ∈ fs s'.2.
Proof.
  destruct (main_writes_report env_ok console_data fresh_generator user_world
              ReadCsv sample_frame)
    as (s' & pdf & Hrun & Hg & Hwritten & _ & Hreport & _).
  - right. reflexivity.
  - vm_compute. reflexivity.
  - vm_compute. reflexivity.
  - exact env_ok_plots.
  - reflexivity.
  - exists s', pdf. repeat split; assumption.
Defined.

Lemma main_sample_fallback_witness :
  main env_ok console_missing (fresh_generator, user_world)
  = main env_ok console_blank (fresh_generator, user_world) ∧
  chosen_path console_blank user_world = "sample_sales_data.csv".
Proof.
  destruct (main_sample_fallback env_ok console_blank console_missing fresh_generator
              user_world) as (Hsame & Hpath & _).
  - vm_compute. reflexivity.
  - vm_compute. reflexivity.
  - reflexivity.
  - reflexivity.
  - split; assumption.
Defined.

Lemma dashboard_panels_witness :
  sum_list (snd <$> dtype_counts sample_frame) = 2 ∧
  length (values (table_data sample_frame)) = 3 ∧
  labels (table_data sample_frame) = ["qty"; "city"].
Proof.
  destruct (dashboard_panels env_ok (loaded sample_frame) sample_world sample_frame eq_refl)
    as (_ & Hsum & _ & _ & _ & Hrows & Hlabels & _).
  destruct Hlabels as [Hlabels _]; [vm_compute; lia|].
  repeat split; assumption.
Defined.
